(** * Rug-Killer-On-Solana: the ML scoring engine, embedded and verified

    A shallow embedding of the Python sources under [src/ml]:

    - [predict.py]             (module [Predict]): the basic engine, its
      rule-based fallback scorer and its risk-factor list;
    - [predict_ultimate.py]    (module [PredictUltimate]): the tiered model
      registry and the ensemble engine;
    - [train_ultimate_2025.py] (module [TrainUltimate]): the pandas feature
      transform and the 5-fold stacking loop; (module [TrainSwiGLU]): the
      epoch loop of the network trainer.

    Modelling conventions.

    - A Python [float] or [int] is a value of [num]: an exact rational, or
      one of the three non-finite floats.  The float arithmetic of the
      scoring functions rounds to nearest, ties to even ([round_to]): in
      binary64 for Python floats, and for the score in the format in
      which numpy evaluates [(1 - rug_prob) * 100] on the model's
      scalar, a parameter of the engines.  An [int]
      that meets a float is converted first ([to_float]) and raises
      [OverflowError] beyond the range of a float.  The feature
      transforms and the numpy means keep exact quotients and sums, the
      confidence keeps exact decimal products, and the sign of zero is
      outside the model.
    - A JSON value is a [pyval]; JSON arrays and objects are not modelled.
    - A Python [dict] with string keys is a [gmap string pyval].
    - A raised exception is the [Raise] branch of [result].
    - An f-string is kept as its list of pieces ([message]); rendering a
      number as text is not modelled.
    - A trained model is an opaque function to a probability.

    After the embedding come the specification's wording as definitions
    (modules [Spec], [Folds] and [Extra]), sample inputs ([Sample]) and a
    small learner with a ten-row dataset ([Toy]), then the theorems. *)

From Stdlib Require Import ZArith QArith Qround Qabs Qpower Lia Lqa.
From stdpp Require Import base gmap strings list.

Local Open Scope Z_scope.

(** ** Python values and operators *)

Module Py.

Inductive exn :=
  | TypeError
  | ZeroDivisionError
  | ValueError
  | OverflowError
  | AttributeError
  | KeyError
  | IndexError
  | RuntimeError
  | ImportError
  | UnpicklingError
  | FileNotFoundError.

Inductive result (A : Type) :=
  | Ok (a : A)
  | Raise (e : exn).
Arguments Ok {A} a.
Arguments Raise {A} e.

#[export] Instance result_ret : MRet result := fun A a => Ok a.
#[export] Instance result_bind : MBind result := fun A B k m =>
  match m with
  | Ok a => k a
  | Raise e => Raise e
  end.

#[export] Instance result_fmap : FMap result := fun A B f m =>
  match m with
  | Ok a => Ok (f a)
  | Raise e => Raise e
  end.

Definition is_ok {A} (m : result A) : bool :=
  match m with Ok _ => true | Raise _ => false end.

(** Numbers: a finite value, [inf], [-inf] or [nan]. *)
Inductive num :=
  | Fin (q : Q)
  | PInf
  | NInf
  | NaN.

Definition fin (q : Q) : num := Fin (Qred q).

Definition of_Z (z : Z) : num := Fin (inject_Z z).

Coercion of_Z : Z >-> num.

Definition is_finite (x : num) : bool :=
  match x with Fin _ => true | _ => false end.

Definition is_nan (x : num) : bool :=
  match x with NaN => true | _ => false end.

(** Sign of a rational as a comparison with zero. *)
Definition Qsign (q : Q) : comparison := (0 ?= q)%Q.

Definition nneg (x : num) : num :=
  match x with
  | Fin q => fin (- q)
  | PInf => NInf
  | NInf => PInf
  | NaN => NaN
  end.

Definition nadd (x y : num) : num :=
  match x, y with
  | NaN, _ | _, NaN => NaN
  | Fin a, Fin b => fin (a + b)
  | PInf, NInf | NInf, PInf => NaN
  | PInf, _ | _, PInf => PInf
  | NInf, _ | _, NInf => NInf
  end.

Definition nsub (x y : num) : num := nadd x (nneg y).

(** Multiplying a finite value by an infinity. *)
Definition inf_times (q : Q) (pos : bool) : num :=
  match Qsign q with
  | Eq => NaN
  | Lt => if pos then PInf else NInf
  | Gt => if pos then NInf else PInf
  end.

Definition nmul (x y : num) : num :=
  match x, y with
  | NaN, _ | _, NaN => NaN
  | Fin a, Fin b => fin (a * b)
  | Fin a, PInf | PInf, Fin a => inf_times a true
  | Fin a, NInf | NInf, Fin a => inf_times a false
  | PInf, PInf | NInf, NInf => PInf
  | PInf, NInf | NInf, PInf => NInf
  end.

Definition is_zero (x : num) : bool :=
  match x with Fin q => Qeq_bool q 0 | _ => false end.

(** Division where the divisor is known not to be zero. *)
Definition ndiv_nz (x y : num) : num :=
  match x, y with
  | NaN, _ | _, NaN => NaN
  | Fin a, Fin b => fin (a / b)
  | Fin _, (PInf | NInf) => fin 0
  | PInf, Fin b => inf_times b true
  | NInf, Fin b => inf_times b false
  | (PInf | NInf), (PInf | NInf) => NaN
  end.

(** Python's [/] on numbers: a zero divisor raises. *)
Definition ndiv (x y : num) : result num :=
  if is_zero y then Raise ZeroDivisionError else Ok (ndiv_nz x y).

(** numpy's [/] on float arrays: a zero divisor gives [inf] or [nan]. *)
Definition np_div (x y : num) : num :=
  if is_zero y then
    match x with
    | Fin a => inf_times a true
    | PInf => PInf
    | NInf => NInf
    | NaN => NaN
    end
  else ndiv_nz x y.

(** Comparisons; every comparison with [nan] is false. *)
Definition nlt (x y : num) : bool :=
  match x, y with
  | NaN, _ | _, NaN => false
  | Fin a, Fin b => negb (Qle_bool b a)
  | NInf, (Fin _ | PInf) => true
  | Fin _, PInf => true
  | _, _ => false
  end.

Definition ngt (x y : num) : bool := nlt y x.

Definition nle (x y : num) : bool :=
  match x, y with
  | NaN, _ | _, NaN => false
  | Fin a, Fin b => Qle_bool a b
  | NInf, _ => true
  | _, PInf => true
  | _, _ => false
  end.

Definition neqb (x y : num) : bool :=
  match x, y with
  | Fin a, Fin b => Qeq_bool a b
  | PInf, PInf | NInf, NInf => true
  | _, _ => false
  end.

(** [int(x)]: truncation toward zero. *)
Definition Qtrunc (q : Q) : Z := Z.quot (Qnum q) (Zpos (Qden q)).

Definition py_int (x : num) : result Z :=
  match x with
  | Fin q => Ok (Qtrunc q)
  | PInf | NInf => Raise OverflowError
  | NaN => Raise ValueError
  end.

(** [min(a, b)] on finite values: [b] when [b < a], else [a]. *)
Definition Qmin2 (a b : Q) : Q := if Qle_bool a b then a else b.

(** [round(x)]: to the nearest integer, ties to the even one. *)
Definition Qround_even (q : Q) : Z :=
  let f := Qfloor q in
  match ((q - inject_Z f) ?= 1 # 2)%Q with
  | Lt => f
  | Gt => f + 1
  | Eq => if Z.even f then f else f + 1
  end.

(** [round(x, n)] on a finite value. *)
Definition Qround_digits (q : Q) (n : nat) : Q :=
  let scale := inject_Z (10 ^ Z.of_nat n) in
  Qred (inject_Z (Qround_even (q * scale)) / scale).

(** *** Floating point

    The two formats in play: numpy.float32, and binary64 (the Python
    [float] and numpy.float64). *)
Inductive format := binary32 | binary64.
Existing Class format.

(** Bits of precision, the exponent of the least positive value, and the
    exponent of the least power of two that is out of range. *)
Definition prec (fmt : format) : Z :=
  match fmt with binary32 => 24 | binary64 => 53 end.
Definition emin (fmt : format) : Z :=
  match fmt with binary32 => -149 | binary64 => -1074 end.
Definition emax (fmt : format) : Z :=
  match fmt with binary32 => 128 | binary64 => 1024 end.

(** The binary order of magnitude of a non-zero rational:
    [2 ^ Qlog2 q <= |q| < 2 ^ (Qlog2 q + 1)]. *)
Definition Qlog2 (q : Q) : Z :=
  let k := Z.log2 (Z.abs (Qnum q)) - Z.log2 (Zpos (Qden q)) in
  if Qle_bool (2 ^ k) (Qabs q) then k else k - 1.

(** The exponent of the unit in the last place of the floats around [q]. *)
Definition ulp_exp (fmt : format) (q : Q) : Z :=
  if Qeq_bool q 0 then emin fmt
  else Z.max (emin fmt) (Qlog2 q - prec fmt + 1).

(** The multiple of the unit in the last place nearest to [q], ties to
    the even one. *)
Definition nearest (fmt : format) (q : Q) : Q :=
  inject_Z (Qround_even (q / 2 ^ ulp_exp fmt q)) * 2 ^ ulp_exp fmt q.

(** The float nearest to [q]; an infinity when that is out of range. *)
Definition round_to (fmt : format) (q : Q) : num :=
  let r := nearest fmt q in
  if Qle_bool (2 ^ emax fmt) (Qabs r)
  then (if Qle_bool 0 q then PInf else NInf)
  else Fin (Qred r).

Definition rnd (fmt : format) (x : num) : num :=
  match x with
  | Fin q => round_to fmt q
  | _ => x
  end.

(** Float subtraction and multiplication: the exact result, rounded. *)
Definition fsub (fmt : format) (x y : num) : num := rnd fmt (nsub x y).

Definition fmul (fmt : format) (x y : num) : num := rnd fmt (nmul x y).

(** A Python float literal, and the quotient of two ints under [/]. *)
Definition flt (q : Q) : num := round_to binary64 q.

(** [float(x)] as Python applies it to an operand that meets a float: an
    int too large for a float raises; a float is left as it is. *)
Definition to_float (x : num) : result num :=
  match x with
  | Fin q =>
      match round_to binary64 q with
      | Fin r => Ok (Fin r)
      | _ => Raise OverflowError
      end
  | _ => Ok x
  end.

(** Values that can arrive in a feature dict decoded from JSON. *)
Inductive pyval :=
  | VNone
  | VBool (b : bool)
  | VNum (x : num)
  | VStr (s : string).

Definition VInt (z : Z) : pyval := VNum (of_Z z).

Definition is_None (v : pyval) : bool :=
  match v with VNone => true | _ => false end.

(** [bool(v)] *)
Definition truthy (v : pyval) : bool :=
  match v with
  | VNone => false
  | VBool b => b
  | VNum x => negb (is_zero x)
  | VStr s => negb (String.eqb s "")
  end.

(** The number a value stands for in arithmetic with a number;
    [None] and strings raise. *)
Definition as_num (v : pyval) : result num :=
  match v with
  | VBool b => Ok (of_Z (if b then 1 else 0))
  | VNum x => Ok x
  | VNone | VStr _ => Raise TypeError
  end.

Definition py_add (v : pyval) (c : num) : result num :=
  x ← as_num v; Ok (nadd x c).

(** [v * c] for a float [c]. *)
Definition py_mul (v : pyval) (c : num) : result num :=
  x ← as_num v; x ← to_float x; Ok (fmul binary64 x c).

Definition py_truediv (v : pyval) (d : num) : result num :=
  x ← as_num v; ndiv x d.

Definition py_lt (v : pyval) (c : num) : result bool :=
  x ← as_num v; Ok (nlt x c).

Definition py_gt (v : pyval) (c : num) : result bool :=
  x ← as_num v; Ok (ngt x c).

(** [v == c] for a number [c]: never raises. *)
Definition py_eq (v : pyval) (c : num) : bool :=
  match v with
  | VBool b => neqb (of_Z (if b then 1 else 0)) c
  | VNum x => neqb x c
  | VNone | VStr _ => false
  end.

(** [d.get(k, default)] and [d[k]] *)
Definition get (d : gmap string pyval) (k : string) (dflt : pyval) : pyval :=
  default dflt (d !! k).

Definition getitem (d : gmap string pyval) (k : string) : result pyval :=
  match d !! k with
  | Some v => Ok v
  | None => Raise KeyError
  end.

(** Pieces of an f-string: literal text, [{v}] and [{v:.1f}]. *)
Inductive piece :=
  | Lit (s : string)
  | Val (v : pyval)
  | Fix1 (v : pyval).

Definition message := list piece.

(** [{v:.1f}] accepts numbers and booleans only, and formats an int as a
    float. *)
Definition fix1 (v : pyval) : result piece :=
  x ← as_num v; _ ← to_float x; Ok (Fix1 v).

(** What [DataFrame.replace([inf, -inf], 0).fillna(0)] does to one cell. *)
Definition sanitize (v : pyval) : pyval :=
  match v with
  | VNone => VInt 0
  | VNum x => if is_finite x then v else VInt 0
  | _ => v
  end.

End Py.

Import Py.

(** The two risk-level tables, as the chained comparisons of the source. *)
Definition level4 (score : Z) : string :=
  if score >=? 90 then "LOW"
  else if score >=? 70 then "MEDIUM"
  else if score >=? 40 then "HIGH"
  else "EXTREME".

Definition level5 (score : Z) : string :=
  if score >=? 95 then "EXTREME LOW"
  else if score >=? 90 then "LOW"
  else if score >=? 70 then "MEDIUM"
  else if score >=? 40 then "HIGH"
  else "EXTREME".

(** The 20 engineered columns, in the order both serving transforms and the
    training transform list them. *)
Definition feature_columns : list string :=
  [ "mint_revoked"; "freeze_revoked"; "lp_burned_pct"; "honeypot";
    "tax_buy"; "tax_sell"; "real_holders"; "top10_concentration";
    "sniper_pct"; "dev_buy_pct"; "bundled_clusters"; "mc_to_liq_ratio";
    "slippage_10k"; "volume_velocity_5m"; "price_change_5m";
    "buy_density_kde_peak"; "avg_buy_price"; "hours_since_migration";
    "jito_bundle_detected"; "cluster_risk_score" ].

(** A one-row data frame: its labelled cells in column order. *)
Definition frame1 := list (string * pyval).

Definition values (df : frame1) : list pyval := df.*2.

(** The dict literal shared verbatim by
    [predict.engineer_features_for_prediction] and
    [UltimateEnsemble.engineer_features], followed by
    [replace([inf, -inf], 0).fillna(0)]. *)
Definition serving_transform (features : gmap string pyval) : result frame1 :=
  let mint_revoked := VInt (if is_None (get features "mint_authority" VNone) then 1 else 0) in
  let freeze_revoked := VInt (if is_None (get features "freeze_authority" VNone) then 1 else 0) in
  d ← py_add (get features "total_supply" (VInt 1)) 1;
  lp_burned_pct ← py_truediv (get features "lp_burned" (VInt 0)) d;
  let honeypot := VInt (if truthy (get features "honeypot" (VBool false)) then 1 else 0) in
  let tax_buy := get features "buy_tax" (VInt 0) in
  let tax_sell := get features "sell_tax" (VInt 0) in
  let real_holders :=
    get features "holders_after_filter" (get features "holders" (VInt 0)) in
  let top10_concentration := get features "top10_pct" (VInt 0) in
  let sniper_pct := get features "sniper_wallets_pct" (VInt 0) in
  let dev_buy_pct := get features "dev_bought_pct" (VInt 0) in
  let bundled_clusters := get features "jito_bundle_clusters" (VInt 0) in
  d ← py_add (get features "liquidity" (VInt 1)) 1;
  mc_to_liq_ratio ← py_truediv (get features "market_cap" (VInt 0)) d;
  let slippage_10k := get features "slippage_10k" (VInt 0) in
  d ← py_add (get features "vol_1m" (VInt 1)) 1;
  volume_velocity_5m ← py_truediv (get features "vol_5m" (VInt 0)) d;
  let price_change_5m := get features "price_change_5m" (VInt 0) in
  let buy_density_kde_peak := get features "kde_floor" (VInt 0) in
  let avg_buy_price := get features "avg_buy_price" (VInt 0) in
  let hours_since_migration := get features "hours_post_migration" (VInt 0) in
  let jito_bundle_detected :=
    VInt (if truthy (get features "jito_bundle" (VBool false)) then 1 else 0) in
  let cluster_risk_score := get features "gnn_cluster_prob" (VInt 0) in
  let df :=
    [ ("mint_revoked", mint_revoked);
      ("freeze_revoked", freeze_revoked);
      ("lp_burned_pct", VNum lp_burned_pct);
      ("honeypot", honeypot);
      ("tax_buy", tax_buy);
      ("tax_sell", tax_sell);
      ("real_holders", real_holders);
      ("top10_concentration", top10_concentration);
      ("sniper_pct", sniper_pct);
      ("dev_buy_pct", dev_buy_pct);
      ("bundled_clusters", bundled_clusters);
      ("mc_to_liq_ratio", VNum mc_to_liq_ratio);
      ("slippage_10k", slippage_10k);
      ("volume_velocity_5m", VNum volume_velocity_5m);
      ("price_change_5m", price_change_5m);
      ("buy_density_kde_peak", buy_density_kde_peak);
      ("avg_buy_price", avg_buy_price);
      ("hours_since_migration", hours_since_migration);
      ("jito_bundle_detected", jito_bundle_detected);
      ("cluster_risk_score", cluster_risk_score) ] in
  Ok (prod_map id sanitize <$> df).

(** ** Files under [models/] *)

(** What is found under a path of [MODELS_DIR]. *)
Inductive artifact (A : Type) :=
  | Missing
  | Corrupt
  | Stored (a : A).
Arguments Missing {A}.
Arguments Corrupt {A}.
Arguments Stored {A} a.

Definition exists_ {A} (f : artifact A) : bool :=
  match f with Missing => false | _ => true end.

(** [joblib.load] / [load_model] on a path that exists. *)
Definition load {A} (f : artifact A) : result A :=
  match f with
  | Stored a => Ok a
  | _ => Raise UnpicklingError
  end.

(** ** predict.py *)

Module Predict.

(** A loaded classifier: [model.predict_proba(df)[0][1]]. *)
Definition Model := frame1 -> result num.

(** The module-level load: only [FileNotFoundError] is caught. *)
Definition load_model (f : artifact Model) : result (option Model) :=
  match f with
  | Missing => Ok None
  | Corrupt => Raise UnpicklingError
  | Stored m => Ok (Some m)
  end.

Definition engineer_features_for_prediction
    (features : gmap string pyval) : result frame1 :=
  serving_transform features.

Definition fallback_scoring
    (features : gmap string pyval) : result (Z * string * num) :=
  let score := 100 in
  let score :=
    if negb (is_None (get features "mint_authority" VNone))
    then score - 20 else score in
  let score :=
    if negb (is_None (get features "freeze_authority" VNone))
    then score - 20 else score in
  let score :=
    if truthy (get features "honeypot" (VBool false))
    then score - 30 else score in
  buy ← py_gt (get features "buy_tax" (VInt 0)) 5;
  tax ← (if buy : bool then Ok true
         else py_gt (get features "sell_tax" (VInt 0)) 5);
  let score := if tax : bool then score - 15 else score in
  top ← py_gt (get features "top10_pct" (VInt 0)) 50;
  let score := if top : bool then score - 10 else score in
  bound ← py_mul (get features "total_supply" (VInt 1)) (flt 0.9);
  low ← py_lt (get features "lp_burned" (VInt 0)) bound;
  let score := if low : bool then score - 10 else score in
  let score := Z.max 0 (Z.min 100 score) in
  let rug_prob := fsub binary64 1 (flt (inject_Z score / 100)) in
  Ok (score, level4 score, rug_prob).

(** The functions that handle the model's probability, a numpy scalar.
    [fmt] is the format in which numpy evaluates
    [(1 - rug_prob) * 100]: binary64 on a numpy.float64, and on a
    numpy.float32 binary32 under the promotion rules of NumPy 2 and
    binary64 under the older ones. *)
Section Scalar.

Context {fmt : format}.

Definition predict_rug_score (model : option Model)
    (features : gmap string pyval) : result (Z * string * num) :=
  match model with
  | None => fallback_scoring features
  | Some m =>
      df ← engineer_features_for_prediction features;
      rug_prob ← m df;
      score ← py_int (fmul fmt (fsub fmt 1 rug_prob) 100);
      Ok (score, level4 score, rug_prob)
  end.

End Scalar.

(** The [risks.append(...)] statements, threading the list. *)
Definition get_risk_factors (features : gmap string pyval) (rug_prob : num)
    : result (list message) :=
  let risks := [] in
  let risks :=
    if negb (is_None (get features "mint_authority" VNone))
    then risks ++ [[Lit "Mint authority not revoked"]] else risks in
  let risks :=
    if negb (is_None (get features "freeze_authority" VNone))
    then risks ++ [[Lit "Freeze authority not revoked"]] else risks in
  let risks :=
    if truthy (get features "honeypot" (VBool false))
    then risks ++ [[Lit "Honeypot detected"]] else risks in
  c ← py_gt (get features "buy_tax" (VInt 0)) 5;
  risks ← (if c : bool then
             v ← getitem features "buy_tax";
             Ok (risks ++ [[Lit "High buy tax: "; Val v; Lit "%"]])
           else Ok risks);
  c ← py_gt (get features "sell_tax" (VInt 0)) 5;
  risks ← (if c : bool then
             v ← getitem features "sell_tax";
             Ok (risks ++ [[Lit "High sell tax: "; Val v; Lit "%"]])
           else Ok risks);
  c ← py_gt (get features "top10_pct" (VInt 0)) 50;
  risks ← (if c : bool then
             v ← getitem features "top10_pct";
             p ← fix1 v;
             Ok (risks ++ [[Lit "High concentration: Top 10 hold "; p; Lit "%"]])
           else Ok risks);
  c ← py_gt (get features "jito_bundle_clusters" (VInt 0)) 3;
  risks ← (if c : bool then
             v ← getitem features "jito_bundle_clusters";
             Ok (risks ++ [[Lit "Multiple Jito bundles detected: "; Val v]])
           else Ok risks);
  bound ← py_mul (get features "total_supply" (VInt 1)) (flt 0.5);
  c ← py_lt (get features "lp_burned" (VInt 0)) bound;
  let risks :=
    if c : bool then risks ++ [[Lit "Low LP burn percentage"]] else risks in
  Ok (take 5 risks).

(** What the [--features] command line prints as JSON. *)
Record output := {
  out_score : Z;
  out_level : string;
  rugProbability : num;
  riskFactors : list message;
}.

(** The type of the scalars of a model's [predict_proba] array. *)
Inductive scalar := np_float32 | np_float64.

(** [json.dumps] on a numpy scalar: numpy.float64 is a Python float,
    numpy.float32 is not serialisable. *)
Definition dumps_scalar (ty : scalar) : result unit :=
  match ty with
  | np_float32 => Raise TypeError
  | np_float64 => Ok tt
  end.

(** The [--features] branch of [__main__] on the decoded JSON object.
    [Raise e] stands for the [{error: ...}] line on standard error and
    exit status 1, [Ok] for the result line and exit status 0.  The
    probability is the model's scalar, of the type [ty], or the Python
    float of the fallback scorer. *)
Definition cli {fmt : format} (ty : scalar) (model : option Model)
    (features : gmap string pyval) : result output :=
  '(score, level, prob) ← predict_rug_score model features;
  risks ← get_risk_factors features prob;
  _ ← (if model is Some _ then dumps_scalar ty else Ok tt);
  Ok {| out_score := score; out_level := level; rugProbability := prob;
        riskFactors := risks |}.

End Predict.

(** ** predict_ultimate.py *)

Module PredictUltimate.

(** A base model or single-tier model applied to the one-row array
    [X_df.values]: the probability of the positive class. *)
Definition Model := list pyval -> result num.

(** [meta_learner.predict_proba(meta_features)[0, 1]] *)
Definition MetaLearner := list num -> result num.

Record disk := {
  fold_models_pkl : artifact (gmap string (list Model));
  meta_learner_pkl : artifact MetaLearner;
  pytorch_tabnet : bool;
  tabnet_model : artifact Model;
  gnn_model_pth : bool;
  xgboost_rug_model_latest_pkl : artifact Model;
}.

Record UltimateEnsemble := {
  models_loaded : gmap string bool;
  fold_models : option (gmap string (list Model));
  meta_learner : option MetaLearner;
  tabnet : option Model;
  simple_model : option Model;
}.

Definition set_loaded (k : string) (b : bool) (self : UltimateEnsemble) :=
  {| models_loaded := <[k := b]> (models_loaded self);
     fold_models := fold_models self;
     meta_learner := meta_learner self;
     tabnet := tabnet self;
     simple_model := simple_model self |}.

Definition set_fold_models v (self : UltimateEnsemble) :=
  {| models_loaded := models_loaded self;
     fold_models := Some v;
     meta_learner := meta_learner self;
     tabnet := tabnet self;
     simple_model := simple_model self |}.

Definition set_meta_learner v (self : UltimateEnsemble) :=
  {| models_loaded := models_loaded self;
     fold_models := fold_models self;
     meta_learner := Some v;
     tabnet := tabnet self;
     simple_model := simple_model self |}.

Definition set_tabnet v (self : UltimateEnsemble) :=
  {| models_loaded := models_loaded self;
     fold_models := fold_models self;
     meta_learner := meta_learner self;
     tabnet := Some v;
     simple_model := simple_model self |}.

Definition set_simple_model v (self : UltimateEnsemble) :=
  {| models_loaded := models_loaded self;
     fold_models := fold_models self;
     meta_learner := meta_learner self;
     tabnet := tabnet self;
     simple_model := Some v |}.

(** Probe 1: the stacking ensemble.  An exception inside the [try] keeps
    the attributes assigned before it. *)
Definition probe_stacking (d : disk) (self : UltimateEnsemble) : UltimateEnsemble :=
  if exists_ (fold_models_pkl d) && exists_ (meta_learner_pkl d) then
    match load (fold_models_pkl d) with
    | Raise _ => set_loaded "stacking" false self
    | Ok fm =>
        let self := set_fold_models fm self in
        match load (meta_learner_pkl d) with
        | Raise _ => set_loaded "stacking" false self
        | Ok ml => set_loaded "stacking" true (set_meta_learner ml self)
        end
    end
  else set_loaded "stacking" false self.

(** Probe 2: TabNet; the import itself may fail.  A file that does not
    load leaves an unloaded classifier in [self.tabnet], which nothing
    reads while the flag is false; the field stays empty here. *)
Definition probe_tabnet (d : disk) (self : UltimateEnsemble) : UltimateEnsemble :=
  if pytorch_tabnet d then
    if exists_ (tabnet_model d) then
      match load (tabnet_model d) with
      | Raise _ => set_loaded "tabnet" false self
      | Ok m => set_loaded "tabnet" true (set_tabnet m self)
      end
    else set_loaded "tabnet" false self
  else set_loaded "tabnet" false self.

(** Probe 3: the graph model is never usable, found or not. *)
Definition probe_gnn (d : disk) (self : UltimateEnsemble) : UltimateEnsemble :=
  if gnn_model_pth d then set_loaded "gnn" false self
  else set_loaded "gnn" false self.

(** Probe 4: the simple XGBoost model. *)
Definition probe_simple (d : disk) (self : UltimateEnsemble) : UltimateEnsemble :=
  if exists_ (xgboost_rug_model_latest_pkl d) then
    match load (xgboost_rug_model_latest_pkl d) with
    | Raise _ => set_loaded "simple" false self
    | Ok m => set_loaded "simple" true (set_simple_model m self)
    end
  else set_loaded "simple" false self.

(** [any(d.values())] *)
Definition any_value (m : gmap string bool) : bool :=
  existsb id (map_to_list m).*2.

Definition load_models (d : disk) (self : UltimateEnsemble) : result UltimateEnsemble :=
  let self := probe_stacking d self in
  let self := probe_tabnet d self in
  let self := probe_gnn d self in
  let self := probe_simple d self in
  if negb (any_value (models_loaded self)) then Raise RuntimeError
  else Ok self.

(** [UltimateEnsemble()] *)
Definition init (d : disk) : result UltimateEnsemble :=
  load_models d
    {| models_loaded := ∅; fold_models := None; meta_learner := None;
       tabnet := None; simple_model := None |}.

(** The module-level instance: [None] when construction raises. *)
Definition ensemble (d : disk) : option UltimateEnsemble :=
  match init d with
  | Ok e => Some e
  | Raise _ => None
  end.

Definition engineer_features (features : gmap string pyval) : result frame1 :=
  serving_transform features.

(** [np.mean] of a list of scalars; the mean of nothing is [nan]. *)
Definition np_mean (l : list num) : num :=
  np_div (foldr nadd (of_Z 0) l) (of_Z (Z.of_nat (length l))).

Definition attr {A} (o : option A) : result A :=
  match o with Some a => Ok a | None => Raise AttributeError end.

Definition item {A} (m : gmap string A) (k : string) : result A :=
  match m !! k with Some a => Ok a | None => Raise KeyError end.

Definition predict_proba (self : UltimateEnsemble)
    (features : gmap string pyval) : result (num * string) :=
  X_df ← engineer_features features;
  let X := values X_df in
  stacking ← item (models_loaded self) "stacking";
  if stacking : bool then
    trees ← mapM (fun name =>
               fm ← attr (fold_models self);
               ms ← item fm name;
               fold_preds ← mapM (fun m : Model => m X) ms;
               Ok (np_mean fold_preds)) ["xgb"; "lgb"; "cat"];
    fm ← attr (fold_models self);
    nns ← item fm "nn";
    nn_preds ← mapM (fun nn_model : Model => nn_model X) nns;
    let meta_features := trees ++ [np_mean nn_preds] in
    ml ← attr (meta_learner self);
    rug_prob ← ml meta_features;
    Ok (rug_prob, "Stacking Ensemble (F1: 0.968+)")
  else
    tabnet_loaded ← item (models_loaded self) "tabnet";
    if tabnet_loaded : bool then
      m ← attr (tabnet self);
      rug_prob ← m X;
      Ok (rug_prob, "TabNet (F1: 0.979+)")
    else
      simple ← item (models_loaded self) "simple";
      if simple : bool then
        m ← attr (simple_model self);
        rug_prob ← m X;
        Ok (rug_prob, "XGBoost (F1: 0.95+)")
      else Ok (fin 0.5, "No model available").

Definition _calculate_confidence (features : gmap string pyval)
    (rug_prob : num) : result Q :=
  let confidence := 1%Q in
  let confidence :=
    if py_eq (get features "holders" (VInt 0)) 0
    then (confidence * 0.8)%Q else confidence in
  let confidence :=
    if py_eq (get features "liquidity" (VInt 0)) 0
    then (confidence * 0.8)%Q else confidence in
  young ← py_lt (get features "hours_post_migration" (VInt 0)) (fin 0.05);
  let confidence :=
    if young : bool then (confidence * 0.9)%Q else confidence in
  let confidence :=
    if ngt rug_prob (fin 0.9) || nlt rug_prob (fin 0.1)
    then Qmin2 1 (confidence * 1.1) else confidence in
  Ok (Qround_digits confidence 3).

Definition _get_risk_factors (features : gmap string pyval)
    : result (list message) :=
  let risks := [] in
  let risks :=
    if negb (is_None (get features "mint_authority" VNone))
    then risks ++ [[Lit "Mint authority not revoked"]] else risks in
  let risks :=
    if negb (is_None (get features "freeze_authority" VNone))
    then risks ++ [[Lit "Freeze authority not revoked"]] else risks in
  let risks :=
    if truthy (get features "honeypot" (VBool false))
    then risks ++ [[Lit "Honeypot detected"]] else risks in
  buy ← py_gt (get features "buy_tax" (VInt 0)) 5;
  c ← (if buy : bool then Ok true
       else py_gt (get features "sell_tax" (VInt 0)) 5);
  let risks :=
    if c : bool then
      risks ++ [[Lit "High taxes: "; Val (get features "buy_tax" (VInt 0));
                 Lit "%/"; Val (get features "sell_tax" (VInt 0)); Lit "%"]]
    else risks in
  c ← py_gt (get features "top10_pct" (VInt 0)) 50;
  risks ← (if c : bool then
             p ← fix1 (get features "top10_pct" (VInt 0));
             Ok (risks ++ [[Lit "High concentration: Top 10 hold "; p; Lit "%"]])
           else Ok risks);
  c ← py_gt (get features "jito_bundle_clusters" (VInt 0)) 3;
  let risks :=
    if c : bool then
      risks ++ [[Lit "Multiple Jito bundles: ";
                 Val (get features "jito_bundle_clusters" (VInt 0))]]
    else risks in
  c ← py_gt (get features "dev_bought_pct" (VInt 0)) 10;
  risks ← (if c : bool then
             p ← fix1 (get features "dev_bought_pct" (VInt 0));
             Ok (risks ++ [[Lit "High dev buy: "; p; Lit "%"]])
           else Ok risks);
  c ← py_gt (get features "bundled_clusters" (VInt 0)) 5;
  let risks :=
    if c : bool then
      risks ++ [[Lit "Wallet clusters detected: ";
                 Val (get features "bundled_clusters" (VInt 0))]]
    else risks in
  Ok (take 5 risks).

Record PredictionResult := {
  score : Z;
  level : string;
  rug_probability : num;
  confidence : Q;
  model_used : string;
  risk_factors : list message;
}.

(** The functions that handle the probability of the serving tier, a
    numpy scalar: [fmt] is the format in which numpy evaluates
    [(1 - rug_prob) * 100] on it. *)
Section Scalar.

Context {fmt : format}.

Definition predict (self : UltimateEnsemble)
    (features : gmap string pyval) : result PredictionResult :=
  '(rug_prob, model_used) ← predict_proba self features;
  score ← py_int (fmul fmt (fsub fmt 1 rug_prob) 100);
  let level := level5 score in
  confidence ← _calculate_confidence features rug_prob;
  risk_factors ← _get_risk_factors features;
  Ok {| score := score; level := level; rug_probability := rug_prob;
        confidence := confidence; model_used := model_used;
        risk_factors := risk_factors |}.

Definition predict_rug_score (d : disk)
    (features : gmap string pyval) : result (Z * string * num) :=
  match ensemble d with
  | None => Ok (50, "UNKNOWN", fin 0.5)
  | Some e =>
      r ← predict e features;
      Ok (score r, level r, rug_probability r)
  end.

Definition predict_full (d : disk)
    (features : gmap string pyval) : result PredictionResult :=
  match ensemble d with
  | None =>
      Ok {| score := 50; level := "UNKNOWN"; rug_probability := fin 0.5;
            confidence := 0; model_used := "None";
            risk_factors := [[Lit "No model available"]] |}
  | Some e => predict e features
  end.

(** The [--features] branch of [__main__] on the decoded JSON object:
    [json.dumps] of the result, whose probability is a numpy scalar of
    the type [ty] when an ensemble answered. *)
Definition cli (ty : Predict.scalar) (d : disk)
    (features : gmap string pyval) : result PredictionResult :=
  r ← predict_full d features;
  _ ← (if ensemble d is Some _ then Predict.dumps_scalar ty else Ok tt);
  Ok r.

End Scalar.

End PredictUltimate.

(** ** train_ultimate_2025.py *)

Module TrainUltimate.

(** *** The pandas subset used by [engineer_features] *)

(** A data frame with a default [RangeIndex]: [nrows] rows, each column a
    list of [nrows] cells.  A missing cell of a numeric column is [nan]. *)
Record DataFrame := {
  nrows : nat;
  columns : gmap string (list pyval);
}.

(** [pd.DataFrame([features])] *)
Definition one_row (features : gmap string pyval) : DataFrame :=
  {| nrows := 1; columns := (fun v => [v]) <$> features |}.

(** What [df.get(name, default)] evaluates to: a column, or the default. *)
Inductive operand :=
  | Series (cells : list pyval)
  | Scalar (v : pyval).

Definition df_get (df : DataFrame) (name : string) (dflt : operand) : operand :=
  match columns df !! name with
  | Some c => Series c
  | None => dflt
  end.

(** [x + 1] *)
Definition add1 (x : operand) : result operand :=
  match x with
  | Series c => Series <$> mapM (fun v => VNum <$> py_add v 1) c
  | Scalar v => Scalar ∘ VNum <$> py_add v 1
  end.

(** One cell of an array division. *)
Definition cell_div (a b : pyval) : result pyval :=
  x ← as_num a; y ← as_num b; Ok (VNum (np_div x y)).

(** [a / b]: element-wise with numpy's rules as soon as one side is a
    column, Python's rules between two scalars. *)
Definition div (a b : operand) : result operand :=
  match a, b with
  | Series ca, Series cb =>
      Series <$> mapM (fun p => cell_div p.1 p.2) (zip ca cb)
  | Series ca, Scalar vb => Series <$> mapM (fun v => cell_div v vb) ca
  | Scalar va, Series cb => Series <$> mapM (fun v => cell_div va v) cb
  | Scalar va, Scalar vb =>
      d ← as_num vb; Scalar ∘ VNum <$> py_truediv va d
  end.

(** [s.isna()] *)
Definition isna (x : operand) : result operand :=
  match x with
  | Series c =>
      Ok (Series ((fun v =>
            match v with
            | VNone => VBool true
            | VNum x => VBool (is_nan x)
            | _ => VBool false
            end) <$> c))
  | Scalar _ => Raise AttributeError
  end.

(** One cell of [astype(int)]; text that spells a number is not modelled. *)
Definition cell_to_Z (v : pyval) : result Z :=
  match v with
  | VBool b => Ok (if b then 1 else 0)
  | VNum x => py_int x
  | VNone => Raise TypeError
  | VStr _ => Raise ValueError
  end.

Definition cell_int (v : pyval) : result pyval := VInt <$> cell_to_Z v.

(** [x.astype(int)]: a method of columns, not of Python numbers. *)
Definition astype_int (x : operand) : result operand :=
  match x with
  | Series c => Series <$> mapM cell_int c
  | Scalar _ => Raise AttributeError
  end.

(** A column of the frame being built: scalars are broadcast. *)
Definition broadcast (n : nat) (x : operand) : list pyval :=
  match x with
  | Series c => c
  | Scalar v => replicate n v
  end.

(** A frame with ordered columns. *)
Definition frame := list (string * list pyval).

Definition engineer_features (df : DataFrame) : result frame :=
  let int0 := Scalar (VInt 0) in
  let int1 := Scalar (VInt 1) in
  let nones := Series (replicate (nrows df) VNone) in
  mint_revoked ← isna (df_get df "mint_authority" nones) ≫= astype_int;
  freeze_revoked ← isna (df_get df "freeze_authority" nones) ≫= astype_int;
  d ← add1 (df_get df "total_supply" int1);
  lp_burned_pct ← div (df_get df "lp_burned" int0) d;
  honeypot ← astype_int (df_get df "honeypot" int0);
  let tax_buy := df_get df "buy_tax" int0 in
  let tax_sell := df_get df "sell_tax" int0 in
  let real_holders :=
    df_get df "holders_after_filter" (df_get df "holders" int0) in
  let top10_concentration := df_get df "top10_pct" int0 in
  let sniper_pct := df_get df "sniper_wallets_pct" int0 in
  let dev_buy_pct := df_get df "dev_bought_pct" int0 in
  let bundled_clusters := df_get df "jito_bundle_clusters" int0 in
  d ← add1 (df_get df "liquidity" int1);
  mc_to_liq_ratio ← div (df_get df "market_cap" int0) d;
  let slippage_10k := df_get df "slippage_10k" int0 in
  d ← add1 (df_get df "vol_1m" int1);
  volume_velocity_5m ← div (df_get df "vol_5m" int0) d;
  let price_change_5m := df_get df "price_change_5m" int0 in
  let buy_density_kde_peak := df_get df "kde_floor" int0 in
  let avg_buy_price := df_get df "avg_buy_price" int0 in
  let hours_since_migration := df_get df "hours_post_migration" int0 in
  jito_bundle_detected ← astype_int (df_get df "jito_bundle" int0);
  let cluster_risk_score := df_get df "gnn_cluster_prob" int0 in
  let features :=
    [ ("mint_revoked", mint_revoked);
      ("freeze_revoked", freeze_revoked);
      ("lp_burned_pct", lp_burned_pct);
      ("honeypot", honeypot);
      ("tax_buy", tax_buy);
      ("tax_sell", tax_sell);
      ("real_holders", real_holders);
      ("top10_concentration", top10_concentration);
      ("sniper_pct", sniper_pct);
      ("dev_buy_pct", dev_buy_pct);
      ("bundled_clusters", bundled_clusters);
      ("mc_to_liq_ratio", mc_to_liq_ratio);
      ("slippage_10k", slippage_10k);
      ("volume_velocity_5m", volume_velocity_5m);
      ("price_change_5m", price_change_5m);
      ("buy_density_kde_peak", buy_density_kde_peak);
      ("avg_buy_price", avg_buy_price);
      ("hours_since_migration", hours_since_migration);
      ("jito_bundle_detected", jito_bundle_detected);
      ("cluster_risk_score", cluster_risk_score) ] in
  Ok (prod_map id (fun x => sanitize <$> broadcast (nrows df) x) <$> features).

(** Row [i] of [frame.values]. *)
Definition frame_row (f : frame) (i : nat) : list pyval :=
  (fun c => default (VInt 0) (c.2 !! i)) <$> f.

(** Row [i] with its column labels. *)
Definition labelled_row (f : frame) (i : nat) : frame1 :=
  (fun c => (c.1, default (VInt 0) (c.2 !! i))) <$> f.

Definition frame_values (n : nat) (f : frame) : list (list pyval) :=
  frame_row f <$> seq 0 n.

(** Step 2 of [main]: [y] from the [label] column, or from [is_rug] when
    there is no [label]. *)
Definition labels (df : DataFrame) : result (list Z) :=
  match columns df !! "label", columns df !! "is_rug" with
  | None, Some c => mapM cell_to_Z c
  | Some c, _ => mapM cell_to_Z c
  | None, None => Raise ValueError
  end.

(** *** The stacking loop of [main]

    Estimators are objects: [base_models] holds three references, [fit]
    mutates the object it is called on, and [list.append] stores a
    reference.  The heap makes this sharing explicit.  Printing and the
    F1/accuracy/AUC diagnostics are left out. *)

Section Stacking.

(** One row of [X = X_raw.values]. *)
Definition row := list pyval.

(** The learning algorithms, opaque: what [fit] leaves in an estimator,
    how a fitted state scores a row, the network trainer (which also sees
    the validation fold, for early stopping), and the combiner. *)
Context {fitted combiner : Type}.
Variable fit : string -> list row -> list Z -> fitted.
Variable proba : fitted -> row -> num.
Variable train_swiglu_net : list row -> list Z -> list row -> list Z -> fitted.
Variable fit_meta : list (list num) -> list Z -> combiner.

(** [StratifiedKFold(n_splits=5, shuffle=True, random_state=42).split]:
    the (train_idx, val_idx) pairs, or [ValueError] when a class has too
    few members. *)
Variable cv_split : list row -> list Z -> result (list (list nat * list nat)).

Record estimator := {
  kind : string;
  state : option fitted;
}.

Record vars := {
  heap : gmap nat estimator;
  base_models : gmap string nat;
  meta_features : list (list num);
  meta_models : gmap string (list nat);
  writes : list (nat * nat);  (* ghost: the cells assigned so far *)
}.

(** [X[idx]]: an index past the end raises. *)
Definition take_rows {A} (X : list A) (idx : list nat) : result (list A) :=
  mapM (fun i => match X !! i with
                 | Some r => Ok r
                 | None => Raise IndexError
                 end) idx.

(** [M[idx, j] = vals] *)
Definition assign_col (M : list (list num)) (idx : list nat) (j : nat)
    (vals : list num) : list (list num) :=
  foldl (fun M p => alter (fun r => <[j := p.2]> r) p.1 M) M (zip idx vals).

Definition lookup_or {A} (e : exn) (o : option A) : result A :=
  match o with Some a => Ok a | None => Raise e end.

(** [est.fit(X_train, y_train)] on the object at [l]. *)
Definition fit_at (l : nat) (X_train : list row) (y_train : list Z)
    (h : gmap nat estimator) : result (gmap nat estimator) :=
  e ← lookup_or KeyError (h !! l);
  Ok (<[l := {| kind := kind e;
                state := Some (fit (kind e) X_train y_train) |}]> h).

(** [est.predict_proba(X_val)[:, 1]] on the object at [l]. *)
Definition predict_at (l : nat) (X_val : list row)
    (h : gmap nat estimator) : result (list num) :=
  e ← lookup_or KeyError (h !! l);
  st ← lookup_or ValueError (state e);
  Ok (proba st <$> X_val).

(** One "Train ..." block of the loop body for a tree learner. *)
Definition train_base (name : string) (j : nat)
    (X_train : list row) (y_train : list Z) (X_val : list row)
    (val_idx : list nat) (v : vars) : result vars :=
  l ← lookup_or KeyError (base_models v !! name);
  h ← fit_at l X_train y_train (heap v);
  pred ← predict_at l X_val h;
  Ok {| heap := h;
        base_models := base_models v;
        meta_features := assign_col (meta_features v) val_idx j pred;
        meta_models := meta_models v;
        writes := writes v ++ ((fun i => (i, j)) <$> val_idx) |}.

(** The network block: a new object per fold. *)
Definition train_nn (j : nat)
    (X_train : list row) (y_train : list Z) (X_val : list row)
    (y_val : list Z) (val_idx : list nat) (v : vars) : result (nat * vars) :=
  let nn_model := fresh (dom (heap v)) in
  let st := train_swiglu_net X_train y_train X_val y_val in
  let h := <[nn_model := {| kind := "nn"; state := Some st |}]> (heap v) in
  pred ← predict_at nn_model X_val h;
  Ok (nn_model,
      {| heap := h;
         base_models := base_models v;
         meta_features := assign_col (meta_features v) val_idx j pred;
         meta_models := meta_models v;
         writes := writes v ++ ((fun i => (i, j)) <$> val_idx) |}).

(** [meta_models[name].append(obj)] *)
Definition append_model (name : string) (l : nat) (v : vars) : result vars :=
  ms ← lookup_or KeyError (meta_models v !! name);
  Ok {| heap := heap v;
        base_models := base_models v;
        meta_features := meta_features v;
        meta_models := <[name := ms ++ [l]]> (meta_models v);
        writes := writes v |}.

Definition save_base (name : string) (v : vars) : result vars :=
  l ← lookup_or KeyError (base_models v !! name);
  append_model name l v.

(** The body of [for fold, (train_idx, val_idx) in enumerate(cv.split(X, y))]. *)
Definition fold_body (X : list row) (y : list Z) (v : vars)
    (split : list nat * list nat) : result vars :=
  let '(train_idx, val_idx) := split in
  X_train ← take_rows X train_idx;
  X_val ← take_rows X val_idx;
  y_train ← take_rows y train_idx;
  y_val ← take_rows y val_idx;
  v ← train_base "xgb" 0 X_train y_train X_val val_idx v;
  v ← train_base "lgb" 1 X_train y_train X_val val_idx v;
  v ← train_base "cat" 2 X_train y_train X_val val_idx v;
  '(nn_model, v) ← train_nn 3 X_train y_train X_val y_val val_idx v;
  v ← save_base "xgb" v;
  v ← save_base "lgb" v;
  v ← save_base "cat" v;
  append_model "nn" nn_model v.

Fixpoint run_folds (X : list row) (y : list Z) (v : vars)
    (splits : list (list nat * list nat)) : result vars :=
  match splits with
  | [] => Ok v
  | split :: splits => v ← fold_body X y v split; run_folds X y v splits
  end.

(** The variables as they stand before the loop. *)
Definition init_vars (X : list row) : vars :=
  {| heap := {[ 0%nat := {| kind := "xgb"; state := None |};
                1%nat := {| kind := "lgb"; state := None |};
                2%nat := {| kind := "cat"; state := None |} ]};
     base_models := {[ "xgb" := 0%nat; "lgb" := 1%nat; "cat" := 2%nat ]};
     meta_features := replicate (length X) (replicate 4 (of_Z 0));
     meta_models := {[ "xgb" := []; "lgb" := []; "cat" := []; "nn" := [] ]};
     writes := [] |}.

(** [joblib.dump] of a list of references: each entry is written as the
    object it points to at that moment. *)
Definition dump_models (h : gmap nat estimator) (refs : list nat)
    : result (list estimator) :=
  mapM (fun l => lookup_or KeyError (h !! l)) refs.

(** The two persisted artifacts. *)
Record artifacts := {
  fold_models_pkl : gmap string (list estimator);
  meta_learner_pkl : combiner;
  final_meta_features : list (list num);  (* ghost *)
  final_writes : list (nat * nat);        (* ghost *)
}.

(** Steps 4 to 7 of [main], from [X], [y] and the folds that
    [cv.split(X, y)] yields. *)
Definition stacking (X : list row) (y : list Z)
    (splits : list (list nat * list nat)) : result artifacts :=
  v ← run_folds X y (init_vars X) splits;
  let meta_learner := fit_meta (meta_features v) y in
  xgb ← lookup_or KeyError (meta_models v !! "xgb") ≫= dump_models (heap v);
  lgb ← lookup_or KeyError (meta_models v !! "lgb") ≫= dump_models (heap v);
  cat ← lookup_or KeyError (meta_models v !! "cat") ≫= dump_models (heap v);
  nn ← lookup_or KeyError (meta_models v !! "nn") ≫= dump_models (heap v);
  Ok {| fold_models_pkl :=
          {[ "xgb" := xgb; "lgb" := lgb; "cat" := cat; "nn" := nn ]};
        meta_learner_pkl := meta_learner;
        final_meta_features := meta_features v;
        final_writes := writes v |}.

(** [main], from the concatenation of the CSV files found ([None] when
    there is none). *)
Definition main (data : option DataFrame) : result artifacts :=
  df ← lookup_or FileNotFoundError data;
  X_raw ← engineer_features df;
  y ← labels df;
  let X := frame_values (nrows df) X_raw in
  splits ← cv_split X y;
  stacking X y splits.

(** A persisted estimator as the serving side calls it. *)
Definition as_model (e : estimator) : PredictUltimate.Model :=
  fun X => st ← lookup_or ValueError (state e); Ok (proba st X).

End Stacking.

End TrainUltimate.

(** ** train_ultimate_2025.py: the network trainer *)

Module TrainSwiGLU.

(** The epoch loop of [train_swiglu_net].  The network, its optimizer and
    its learning-rate scheduler form one opaque training state; a pass
    over the batches, the validation F1 of the current weights and the
    scheduler step are opaque operations on it.  The F1 is a float in
    [0,1], here a rational.  Printing is left out. *)
Section Loop.

Context {state : Type}.
Variable train_pass : state -> state.
Variable val_f1 : state -> Q.
Variable scheduler_step : state -> state.

Definition patience : nat := 15.

(** The iterations of [for epoch in range(epochs)] still to run, from the
    current [model], [best_f1] and [no_improve]; [break] ends them. *)
Fixpoint epochs_from (remaining : nat) (model : state) (best_f1 : Q)
    (no_improve : nat) : state * Q :=
  match remaining with
  | O => (model, best_f1)
  | S remaining =>
      let model := train_pass model in
      let f1 := val_f1 model in
      let model := scheduler_step model in
      if negb (Qle_bool f1 best_f1) then epochs_from remaining model f1 0
      else
        let no_improve := S no_improve in
        if (patience <=? no_improve)%nat then (model, best_f1)
        else epochs_from remaining model best_f1 no_improve
  end.

(** [train_swiglu_net] from the freshly built network: [(model, best_f1)]. *)
Definition train_swiglu_net (init : state) (epochs : nat) : state * Q :=
  epochs_from epochs init 0 0.

End Loop.

End TrainSwiGLU.

(** * The specification's wording, as definitions *)

Module Spec.

(** ** RawTokenFeatures

    Every field is optional.  The numeric metrics hold a number (or a
    boolean, which Python counts as 0 or 1) when present; the authority
    fields and the boolean-like flags may hold anything. *)

Definition metric_fields : list string :=
  [ "lp_burned"; "total_supply"; "buy_tax"; "sell_tax"; "holders";
    "holders_after_filter"; "top10_pct"; "sniper_wallets_pct";
    "dev_bought_pct"; "jito_bundle_clusters"; "bundled_clusters";
    "market_cap"; "liquidity"; "slippage_10k"; "vol_5m"; "vol_1m";
    "price_change_5m"; "kde_floor"; "avg_buy_price";
    "hours_post_migration"; "gnn_cluster_prob" ].

Definition numeric (v : pyval) : bool := is_ok (as_num v).

Definition numeric_at (f : gmap string pyval) (k : string) : bool :=
  match f !! k with
  | Some v => numeric v
  | None => true
  end.

Definition well_typed (f : gmap string pyval) : bool :=
  forallb (numeric_at f) metric_fields.

(** A metric with its documented default. *)
Definition metric (f : gmap string pyval) (k : string) (dflt : Z) : num :=
  match get f k (VInt dflt) with
  | VBool b => of_Z (if b then 1 else 0)
  | VNum x => x
  | VNone | VStr _ => NaN
  end.

Definition not_revoked (f : gmap string pyval) (k : string) : bool :=
  negb (is_None (get f k VNone)).

Definition flag (f : gmap string pyval) (k : string) : bool :=
  truthy (get f k (VBool false)).

Definition high_tax (f : gmap string pyval) : bool :=
  ngt (metric f "buy_tax" 0) 5 || ngt (metric f "sell_tax" 0) 5.

(** Every numeric metric, when it is an int, is within the range of a
    float. *)
Definition float_sized (f : gmap string pyval) : bool :=
  forallb (fun k => is_ok (to_float (metric f k 0))) metric_fields.

(** Burned liquidity below the fraction [frac] of total supply, in the
    binary64 arithmetic of Python floats. *)
Definition low_burn (f : gmap string pyval) (frac : Q) : bool :=
  nlt (metric f "lp_burned" 0)
    (fmul binary64 (rnd binary64 (metric f "total_supply" 1)) (flt frac)).

(** ** Inputs on which training and serving features can be compared *)

Definition is_flag (f : gmap string pyval) (k : string) : bool :=
  match f !! k with
  | Some (VBool _) => true
  | _ => false
  end.

Definition not_nan_at (f : gmap string pyval) (k : string) : bool :=
  match f !! k with
  | Some (VNum NaN) => false
  | _ => true
  end.

(** The denominator [field + 1] of a ratio feature is not zero. *)
Definition nonzero_denominator (f : gmap string pyval) (k : string) : bool :=
  negb (is_zero (nadd (metric f k 1) 1)).

(** Numeric metrics hold numbers, both flags are present as booleans, no
    authority is [nan], no ratio divides by zero. *)
Definition aligned (f : gmap string pyval) : bool :=
  well_typed f
  && is_flag f "honeypot" && is_flag f "jito_bundle"
  && not_nan_at f "mint_authority" && not_nan_at f "freeze_authority"
  && nonzero_denominator f "total_supply"
  && nonzero_denominator f "liquidity"
  && nonzero_denominator f "vol_1m".

(** ** Risk bands (section 4.4, step 4) *)

Definition band (table : list (Z * string)) (otherwise : string)
    (score : Z) : string :=
  match List.find (fun r => r.1 <=? score) table with
  | Some r => r.2
  | None => otherwise
  end.

Definition table5 : list (Z * string) :=
  [ (95, "EXTREME LOW"); (90, "LOW"); (70, "MEDIUM"); (40, "HIGH") ].

Definition table4 : list (Z * string) :=
  [ (90, "LOW"); (70, "MEDIUM"); (40, "HIGH") ].

Definition band5 : Z -> string := band table5 "EXTREME".
Definition band4 : Z -> string := band table4 "EXTREME".

(** ** Rule-based fallback scorer (section 4.5) *)

(** The red flags in their order, each with its deduction. *)
Definition deductions (f : gmap string pyval) : list (bool * Z) :=
  [ (not_revoked f "mint_authority", 20);
    (not_revoked f "freeze_authority", 20);
    (flag f "honeypot", 30);
    (high_tax f, 15);
    (ngt (metric f "top10_pct" 0) 50, 10);
    (low_burn f 0.9, 10) ].

Definition clamp (lo hi x : Z) : Z := Z.max lo (Z.min hi x).

Definition fallback_score (f : gmap string pyval) : Z :=
  clamp 0 100
    (foldl (fun s r => if r.1 : bool then s - r.2 else s) 100 (deductions f)).

(** [1 - score / 100], in binary64. *)
Definition rug_prob_of (score : Z) : num :=
  fsub binary64 1 (flt (inject_Z score / 100)).

(** ** Confidence (section 4.4, step 5) *)



(** ** Risk factors (section 4.4, step 6) *)

(** Each true predicate contributes its string, in rule order; the first
    five are kept. *)
Definition risk_factors_of (rules : list (bool * message)) : list message :=
  take 5 (List.filter fst rules).*2.

(** The rule list of the ensemble engine. *)
Definition ensemble_rules (f : gmap string pyval) : list (bool * message) :=
  [ (not_revoked f "mint_authority", [Lit "Mint authority not revoked"]);
    (not_revoked f "freeze_authority", [Lit "Freeze authority not revoked"]);
    (flag f "honeypot", [Lit "Honeypot detected"]);
    (high_tax f,
     [Lit "High taxes: "; Val (get f "buy_tax" (VInt 0)); Lit "%/";
      Val (get f "sell_tax" (VInt 0)); Lit "%"]);
    (ngt (metric f "top10_pct" 0) 50,
     [Lit "High concentration: Top 10 hold ";
      Fix1 (get f "top10_pct" (VInt 0)); Lit "%"]);
    (ngt (metric f "jito_bundle_clusters" 0) 3,
     [Lit "Multiple Jito bundles: ";
      Val (get f "jito_bundle_clusters" (VInt 0))]);
    (ngt (metric f "dev_bought_pct" 0) 10,
     [Lit "High dev buy: "; Fix1 (get f "dev_bought_pct" (VInt 0)); Lit "%"]);
    (ngt (metric f "bundled_clusters" 0) 5,
     [Lit "Wallet clusters detected: ";
      Val (get f "bundled_clusters" (VInt 0))]) ].

(** The rule list of the basic engine. *)
Definition basic_rules (f : gmap string pyval) : list (bool * message) :=
  [ (not_revoked f "mint_authority", [Lit "Mint authority not revoked"]);
    (not_revoked f "freeze_authority", [Lit "Freeze authority not revoked"]);
    (flag f "honeypot", [Lit "Honeypot detected"]);
    (ngt (metric f "buy_tax" 0) 5,
     [Lit "High buy tax: "; Val (get f "buy_tax" (VInt 0)); Lit "%"]);
    (ngt (metric f "sell_tax" 0) 5,
     [Lit "High sell tax: "; Val (get f "sell_tax" (VInt 0)); Lit "%"]);
    (ngt (metric f "top10_pct" 0) 50,
     [Lit "High concentration: Top 10 hold ";
      Fix1 (get f "top10_pct" (VInt 0)); Lit "%"]);
    (ngt (metric f "jito_bundle_clusters" 0) 3,
     [Lit "Multiple Jito bundles detected: ";
      Val (get f "jito_bundle_clusters" (VInt 0))]);
    (low_burn f 0.5, [Lit "Low LP burn percentage"]) ].

(** ** Model registry (section 4.3) *)

Inductive tier := Stacked | SingleTabNet | SingleSimple | NoTier.

Definition stored {A} (a : artifact A) : bool :=
  match a with Stored _ => true | _ => false end.

(** The highest tier whose probe succeeds, or [NoTier]. *)
Definition registry_state (d : PredictUltimate.disk) : tier :=
  if stored (PredictUltimate.fold_models_pkl d)
     && stored (PredictUltimate.meta_learner_pkl d) then Stacked
  else if PredictUltimate.pytorch_tabnet d
          && stored (PredictUltimate.tabnet_model d) then SingleTabNet
  else if stored (PredictUltimate.xgboost_rug_model_latest_pkl d)
  then SingleSimple
  else NoTier.

(** The result an inference call owes when it delegates to the fallback
    scorer: the scorer's score, level and probability. *)
Definition produced_by_fallback (f : gmap string pyval)
    (r : PredictUltimate.PredictionResult) : Prop :=
  exists s l p,
    Predict.fallback_scoring f = Ok (s, l, p)
    /\ PredictUltimate.score r = s
    /\ PredictUltimate.level r = l
    /\ PredictUltimate.rug_probability r = p.

(** The fixed answer of the ensemble engine without any model. *)
Definition no_model_result : PredictUltimate.PredictionResult :=
  {| PredictUltimate.score := 50;
     PredictUltimate.level := "UNKNOWN";
     PredictUltimate.rug_probability := fin 0.5;
     PredictUltimate.confidence := 0;
     PredictUltimate.model_used := "None";
     PredictUltimate.risk_factors := [[Lit "No model available"]] |}.

End Spec.

(** * Sample inputs *)

Module Sample.

(** The sample of section 8: both authorities revoked, no flag raised,
    ninety percent of the supply burned. *)
Definition clean : gmap string pyval :=
  list_to_map
    [ ("mint_authority", VNone); ("freeze_authority", VNone);
      ("lp_burned", VInt 900000000); ("total_supply", VInt 1000000000);
      ("honeypot", VBool false); ("buy_tax", VInt 0); ("sell_tax", VInt 0);
      ("holders", VInt 3847); ("holders_after_filter", VInt 3847);
      ("top10_pct", VInt 15); ("sniper_wallets_pct", VInt 7);
      ("dev_bought_pct", VInt 0); ("jito_bundle_clusters", VInt 0);
      ("market_cap", VInt 182000); ("liquidity", VInt 94000);
      ("slippage_10k", VNum (fin 2.1)); ("vol_5m", VInt 500000);
      ("vol_1m", VInt 100000); ("price_change_5m", VInt 1638);
      ("kde_floor", VNum (fin 0.0000581));
      ("avg_buy_price", VNum (fin 0.0001));
      ("hours_post_migration", VNum (fin 0.15));
      ("jito_bundle", VBool false); ("gnn_cluster_prob", VNum (fin 0.05)) ].

(** The same token with both authorities still held. *)
Definition both_held : gmap string pyval :=
  <["mint_authority" := VStr "Auth1111"]>
    (<["freeze_authority" := VStr "Auth1111"]> clean).

(** The same token with no holder count and no liquidity reported. *)
Definition blind : gmap string pyval :=
  <["holders" := VInt 0]> (<["liquidity" := VInt 0]> clean).

(** A token that trips more than five rules. *)
Definition dirty : gmap string pyval :=
  list_to_map
    [ ("mint_authority", VStr "Auth1111"); ("freeze_authority", VStr "Auth1111");
      ("honeypot", VBool true); ("buy_tax", VInt 12); ("sell_tax", VInt 30);
      ("top10_pct", VInt 80); ("jito_bundle_clusters", VInt 9);
      ("dev_bought_pct", VInt 40); ("bundled_clusters", VInt 7);
      ("lp_burned", VInt 0); ("total_supply", VInt 1000) ].

(** No file under [models/]. *)
Definition empty_disk : PredictUltimate.disk :=
  {| PredictUltimate.fold_models_pkl := Missing;
     PredictUltimate.meta_learner_pkl := Missing;
     PredictUltimate.pytorch_tabnet := true;
     PredictUltimate.tabnet_model := Missing;
     PredictUltimate.gnn_model_pth := false;
     PredictUltimate.xgboost_rug_model_latest_pkl := Missing |}.

(** A classifier that answers the same probability for every token. *)
Definition constant_model {A} (p : Q) : A -> result num :=
  fun _ => Ok (fin p).

(** Only the simple model is on disk. *)
Definition simple_disk (p : Q) : PredictUltimate.disk :=
  {| PredictUltimate.fold_models_pkl := Missing;
     PredictUltimate.meta_learner_pkl := Missing;
     PredictUltimate.pytorch_tabnet := false;
     PredictUltimate.tabnet_model := Missing;
     PredictUltimate.gnn_model_pth := false;
     PredictUltimate.xgboost_rug_model_latest_pkl :=
       Stored (constant_model p) |}.

End Sample.

(** * Cross-validation folds *)

Module Folds.

(** [X[idx]] when every index is in range. *)
Definition select {A} (X : list A) (idx : list nat) : list A :=
  omap (fun i => X !! i) idx.

(** What [StratifiedKFold(n_splits=k).split] promises for [n] rows: [k]
    folds, every row in exactly one validation set, each training set the
    rows outside its validation set, in ascending order. *)
Definition kfold (k n : nat) (splits : list (list nat * list nat)) : Prop :=
  length splits = k
  /\ NoDup (mjoin splits.*2)
  /\ Forall (fun i => i ∈ mjoin splits.*2) (seq 0 n)
  /\ Forall (fun i => (i < n)%nat) (mjoin splits.*2)
  /\ Forall (fun s => s.1 = filter (fun i => i ∉ s.2) (seq 0 n)) splits.

(** The cells of the meta-feature matrix that one fold assigns, in the
    order of the loop body: column by column over the fold's rows. *)
Definition cells (split : list nat * list nat) : list (nat * nat) :=
  j ← [0; 1; 2; 3]%nat; (fun i => (i, j)) <$> split.2.

(** Every cell of an [n] by 4 matrix. *)
Definition all_cells (n : nat) : list (nat * nat) :=
  i ← seq 0 n; (fun j => (i, j)) <$> [0; 1; 2; 3]%nat.

(** What each fold of a split fits and predicts, for a learner given by
    [fit], [proba] and [train_swiglu_net] on the rows [X] with labels [y]. *)
Section OutOfFold.

Context {fitted : Type}.
Variable fit : string -> list TrainUltimate.row -> list Z -> fitted.
Variable proba : fitted -> TrainUltimate.row -> num.
Variable train_swiglu_net :
  list TrainUltimate.row -> list Z -> list TrainUltimate.row -> list Z ->
  fitted.
Variable X : list TrainUltimate.row.
Variable y : list Z.

(** A tree learner fitted on the training rows of the fold. *)
Definition fitted_tree (name : string) (s : list nat * list nat) : fitted :=
  fit name (select X s.1) (select y s.1).

(** The network trained on the fold. *)
Definition fitted_nn (s : list nat * list nat) : fitted :=
  train_swiglu_net (select X s.1) (select y s.1) (select X s.2) (select y s.2).

(** The four models of a fold, in column order. *)
Definition fold_models (s : list nat * list nat) : list fitted :=
  [fitted_tree "xgb" s; fitted_tree "lgb" s; fitted_tree "cat" s; fitted_nn s].

(** The meta-feature row that the models of a fold give to a row [x]. *)
Definition oof_row (s : list nat * list nat) (x : TrainUltimate.row)
    : list num :=
  (fun st => proba st x) <$> fold_models s.

(** The matrix after the four column assignments of one fold. *)
Definition after_fold (M : list (list num)) (s : list nat * list nat)
    : list (list num) :=
  let Xv := select X s.2 in
  let M := TrainUltimate.assign_col M s.2 0
             (proba (fitted_tree "xgb" s) <$> Xv) in
  let M := TrainUltimate.assign_col M s.2 1
             (proba (fitted_tree "lgb" s) <$> Xv) in
  let M := TrainUltimate.assign_col M s.2 2
             (proba (fitted_tree "cat" s) <$> Xv) in
  TrainUltimate.assign_col M s.2 3 (proba (fitted_nn s) <$> Xv).

(** The estimator that a tree learner's list is filled with: the one
    object, as the last fold left it. *)
Definition last_fitted (name : string) (splits : list (list nat * list nat))
    : @TrainUltimate.estimator fitted :=
  {| TrainUltimate.kind := name;
     TrainUltimate.state := fitted_tree name <$> last splits |}.

(** The references that [base_models] holds. *)
Definition trees : list (string * nat) :=
  [("xgb", 0%nat); ("lgb", 1%nat); ("cat", 2%nat)].

Definition in_range (s : list nat * list nat) : Prop :=
  Forall (fun i => (i < length X)%nat) s.1
  /\ Forall (fun i => (i < length X)%nat) s.2.

Definition well_shaped (M : list (list num)) : Prop :=
  length M = length X /\ Forall (fun r => length r = 4%nat) M.

(** What the loop keeps true of its variables. *)
Record inv (v : @TrainUltimate.vars fitted) : Prop := {
  inv_base :
    TrainUltimate.base_models v
    = {[ "xgb" := 0%nat; "lgb" := 1%nat; "cat" := 2%nat ]};
  inv_kind : forall name l, (name, l) ∈ trees ->
    exists st,
      TrainUltimate.heap v !! l
      = Some {| TrainUltimate.kind := name; TrainUltimate.state := st |};
  inv_lists : forall name, name ∈ ["xgb"; "lgb"; "cat"; "nn"] ->
    exists ls,
      TrainUltimate.meta_models v !! name = Some ls
      /\ Forall (fun l => is_Some (TrainUltimate.heap v !! l)) ls;
}.

End OutOfFold.

End Folds.

(** * A small learner and dataset, for running the training loop *)

Module Toy.

(** The [tax_buy] feature of an engineered row. *)
Definition tax_buy (r : TrainUltimate.row) : num :=
  match r !! 4%nat with
  | Some (VNum x) => x
  | _ => of_Z 0
  end.

(** A decision stump: the threshold is the mean buy tax of the rugs it is
    fitted on; a token at or above the threshold is called a rug. *)
Definition fit (_ : string) (X : list TrainUltimate.row) (y : list Z) : num :=
  PredictUltimate.np_mean
    (tax_buy <$> (List.filter (fun p => p.2 =? 1) (zip X y)).*1).

Definition proba (threshold : num) (r : TrainUltimate.row) : num :=
  if nle threshold (tax_buy r) then of_Z 1 else of_Z 0.

Definition train_swiglu_net (X : list TrainUltimate.row) (y : list Z)
    (X_val : list TrainUltimate.row) (y_val : list Z) : num :=
  fit "nn" X y.

(** The combiner: the mean of the four meta-features. *)
Definition fit_meta (M : list (list num)) (y : list Z) : unit := tt.

Definition meta_learner (_ : unit) : PredictUltimate.MetaLearner :=
  fun meta_features => Ok (PredictUltimate.np_mean meta_features).

(** Ten labelled tokens with buy taxes 0 to 9; the last five are rugs. *)
Definition data : TrainUltimate.DataFrame :=
  {| TrainUltimate.nrows := 10;
     TrainUltimate.columns :=
       list_to_map
         [ ("buy_tax", (fun k => VInt (Z.of_nat k)) <$> seq 0 10);
           ("honeypot", replicate 10 (VBool false));
           ("jito_bundle", replicate 10 (VBool false));
           ("is_rug", replicate 5 (VInt 0) ++ replicate 5 (VInt 1)) ] |}.

Definition X : list TrainUltimate.row :=
  match TrainUltimate.engineer_features data with
  | Ok X_raw => TrainUltimate.frame_values 10 X_raw
  | Raise _ => []
  end.

Definition y : list Z := [0; 0; 0; 0; 0; 1; 1; 1; 1; 1].

(** Five stratified folds: fold [k] holds out rows [k] and [5 + k]. *)
Definition splits : list (list nat * list nat) :=
  (fun k =>
     (filter (fun i => i ∉ [k; (5 + k)%nat]) (seq 0 10), [k; (5 + k)%nat]))
    <$> seq 0 5.

Definition cv_split (_ : list TrainUltimate.row) (_ : list Z)
    : result (list (list nat * list nat)) := Ok splits.

(** The training run on the ten tokens. *)
Definition trained : result (@TrainUltimate.artifacts num unit) :=
  TrainUltimate.main fit proba train_swiglu_net fit_meta cv_split (Some data).

(** The ensemble object that [load_models] builds from what a training
    run has written. *)
Definition deploy (run : result (@TrainUltimate.artifacts num unit))
    : option PredictUltimate.UltimateEnsemble :=
  match run with
  | Ok a =>
      PredictUltimate.ensemble
        {| PredictUltimate.fold_models_pkl :=
             Stored (fmap (M := gmap string)
                       (fmap (M := list) (TrainUltimate.as_model proba))
                       (TrainUltimate.fold_models_pkl a));
           PredictUltimate.meta_learner_pkl :=
             Stored (meta_learner (TrainUltimate.meta_learner_pkl a));
           PredictUltimate.pytorch_tabnet := false;
           PredictUltimate.tabnet_model := Missing;
           PredictUltimate.gnn_model_pth := false;
           PredictUltimate.xgboost_rug_model_latest_pkl := Missing |}
  | Raise _ => None
  end.

(** The models the specification asks for: one per fold, each fitted on
    its own fold's training rows. *)
Definition per_fold_models (name : string) : list num :=
  (fun s => fit name (Folds.select X s.1) (Folds.select y s.1)) <$> splits.

(** A token with a buy tax of 7. *)
Definition query : gmap string pyval := <["buy_tax" := VInt 7]> Sample.clean.

(** The row [X_df.values] that the serving side builds for a token. *)
Definition query_row (f : gmap string pyval) : TrainUltimate.row :=
  match serving_transform f with
  | Ok df => values df
  | Raise _ => []
  end.

(** Bagging as the specification words it: per learner type, the mean of
    the predictions of its per-fold models. *)
Definition per_fold_mean (name : string) (f : gmap string pyval) : num :=
  PredictUltimate.np_mean
    ((fun st => proba st (query_row f)) <$> per_fold_models name).

Definition per_fold_probability (f : gmap string pyval) : result num :=
  meta_learner tt
    ((fun name => per_fold_mean name f) <$> ["xgb"; "lgb"; "cat"; "nn"]).

End Toy.

(** * Further wording for the properties of the engines *)

Module Extra.

(** The [model_used] text of each tier. *)
Definition tier_label (t : Spec.tier) : string :=
  match t with
  | Spec.Stacked => "Stacking Ensemble (F1: 0.968+)"
  | Spec.SingleTabNet => "TabNet (F1: 0.979+)"
  | Spec.SingleSimple => "XGBoost (F1: 0.95+)"
  | Spec.NoTier => "No model available"
  end.

(** Bagging and stacking over persisted fold models: per learner type
    the mean over its list, then the meta-learner on the four means. *)
Definition bagging (fm : gmap string (list PredictUltimate.Model))
    (ml : PredictUltimate.MetaLearner) (X : list pyval) : result num :=
  trees ← mapM (fun name =>
             ms ← PredictUltimate.item fm name;
             fold_preds ← mapM (fun m : PredictUltimate.Model => m X) ms;
             Ok (PredictUltimate.np_mean fold_preds)) ["xgb"; "lgb"; "cat"];
  nns ← PredictUltimate.item fm "nn";
  nn_preds ← mapM (fun m : PredictUltimate.Model => m X) nns;
  ml (trees ++ [PredictUltimate.np_mean nn_preds]).

(** The probability that the highest tier on disk gives to a row. *)
Definition served (d : PredictUltimate.disk) (X : list pyval) : result num :=
  match PredictUltimate.fold_models_pkl d,
        PredictUltimate.meta_learner_pkl d with
  | Stored fm, Stored ml => bagging fm ml X
  | _, _ =>
      match PredictUltimate.pytorch_tabnet d,
            PredictUltimate.tabnet_model d with
      | true, Stored m => m X
      | _, _ =>
          match PredictUltimate.xgboost_rug_model_latest_pkl d with
          | Stored m => m X
          | _ => Ok (fin 0.5)
          end
      end
  end.

(** A cell that [replace([inf, -inf], 0).fillna(0)] leaves alone. *)
Definition sanitised (v : pyval) : bool :=
  match v with
  | VNone => false
  | VNum x => is_finite x
  | VBool _ | VStr _ => true
  end.

(** A 0/1 indicator cell. *)
Definition indicator (v : pyval) : bool :=
  match v with
  | VNum (Fin q) => Qeq_bool q 0 || Qeq_bool q 1
  | _ => false
  end.

(** The positions of the four indicator columns. *)
Definition indicator_columns : list nat := [0; 1; 3; 18]%nat.

(** Every column of a data frame has [nrows] cells. *)
Definition rectangular (df : TrainUltimate.DataFrame) : Prop :=
  map_Forall (fun _ c => length c = TrainUltimate.nrows df)
    (TrainUltimate.columns df).

(** An operand that fills a column of [nrows df] cells. *)
Definition wide (df : TrainUltimate.DataFrame) (x : TrainUltimate.operand)
    : Prop :=
  length (TrainUltimate.broadcast (TrainUltimate.nrows df) x)
  = TrainUltimate.nrows df.

(** The two-row data set of the clean sample and the sample with both
    authorities held. *)
Definition two_rows : TrainUltimate.DataFrame :=
  {| TrainUltimate.nrows := 2;
     TrainUltimate.columns :=
       merge (fun a b => Some (from_option (fun v => [v]) [] a
                               ++ from_option (fun v => [v]) [] b))
         Sample.clean Sample.both_held |}.



(** How risky a level is, from 0 (EXTREME LOW) to 4 (EXTREME). *)
Definition risk_rank (level : string) : nat :=
  if String.eqb level "EXTREME LOW" then 0
  else if String.eqb level "LOW" then 1
  else if String.eqb level "MEDIUM" then 2
  else if String.eqb level "HIGH" then 3
  else 4.

(** The values that the confidence can take. *)
Definition confidence_values : list Q :=
  Qred <$> [1; 0.99; 0.9; 0.88; 0.8; 0.792; 0.72; 0.704; 0.64; 0.634;
            0.576]%Q.



(** Early stopping: one epoch, and the validation F1 seen in epoch
    [i + 1] of a run from [init]. *)
Section Epochs.

Context {state : Type}.
Variable train_pass : state -> state.
Variable val_f1 : state -> Q.
Variable scheduler_step : state -> state.

Definition epoch (s : state) : state := scheduler_step (train_pass s).

Definition seen (init : state) (i : nat) : Q :=
  val_f1 (train_pass (Nat.iter i epoch init)).

End Epochs.

End Extra.

(** A training run whose validation F1 peaks in the third epoch: the
    state counts the epochs. *)
Module Peak.

Definition train_pass (s : nat) : nat := S s.

Definition scheduler_step (s : nat) : nat := s.

Definition val_f1 (s : nat) : Q :=
  match s with
  | 1%nat => 0.5
  | 2%nat => 0.7
  | 3%nat => 0.9
  | _ => 0.6
  end.

End Peak.

(** * Facts about the number model *)

Section NumFacts.

Local Open Scope Q_scope.

Lemma Qtrunc_nonneg (q : Q) : 0 <= q -> Qtrunc q = Qfloor q.
Proof.
  destruct q as [n d]. unfold Qtrunc, Qfloor, Qle. simpl. intros H.
  apply Z.quot_div_nonneg; lia.
Qed.

Lemma Qround_even_comp (p q : Q) : p == q -> Qround_even p = Qround_even q.
Proof.
  intros E. unfold Qround_even. rewrite (Qfloor_comp _ _ E).
  assert (E' : p - inject_Z (Qfloor q) == q - inject_Z (Qfloor q))
    by (rewrite E; reflexivity).
  rewrite (Qcompare_comp _ _ E' (1 # 2) (1 # 2) (Qeq_refl _)). reflexivity.
Qed.

Lemma Qround_even_Z (z : Z) : Qround_even (inject_Z z) = z.
Proof.
  unfold Qround_even. rewrite Qfloor_Z.
  assert (E : inject_Z z - inject_Z z == 0) by ring.
  rewrite (Qcompare_comp _ _ E (1 # 2) (1 # 2) (Qeq_refl _)). reflexivity.
Qed.

Lemma Qtrunc_nonpos (q : Q) : q <= 0 -> Qtrunc q = (- Qfloor (- q))%Z.
Proof.
  destruct q as [n d]. unfold Qtrunc, Qfloor, Qle, Qopp. cbn. intros H.
  rewrite <- (Z.opp_involutive n) at 1.
  rewrite Z.quot_opp_l by discriminate. f_equal.
  apply Z.quot_div_nonneg; lia.
Qed.

Lemma Qfloor_nonneg (q : Q) : 0 <= q -> (0 <= Qfloor q)%Z.
Proof.
  intros H. change 0%Z with (Qfloor (inject_Z 0)) at 1.
  rewrite Qfloor_Z. apply (Qfloor_resp_le 0 q) in H. exact H.
Qed.

(** [int] is monotone. *)
Lemma Qtrunc_le (p q : Q) : p <= q -> (Qtrunc p <= Qtrunc q)%Z.
Proof.
  intros H. destruct (Qlt_le_dec q 0) as [Hq | Hq].
  - rewrite !Qtrunc_nonpos by lra.
    assert (Qfloor (- q) <= Qfloor (- p))%Z
      by (apply Qfloor_resp_le; lra).
    lia.
  - rewrite (Qtrunc_nonneg q Hq). pose proof (Qfloor_nonneg q Hq).
    destruct (Qlt_le_dec p 0) as [Hp | Hp].
    + rewrite Qtrunc_nonpos by lra.
      assert (0 <= Qfloor (- p))%Z by (apply Qfloor_nonneg; lra). lia.
    + rewrite (Qtrunc_nonneg p Hp). now apply Qfloor_resp_le.
Qed.

Lemma Qtrunc_comp (p q : Q) : p == q -> Qtrunc p = Qtrunc q.
Proof.
  intros H. apply Z.le_antisymm; apply Qtrunc_le; rewrite H; apply Qle_refl.
Qed.


End NumFacts.

(** * Facts about rounding to a float *)

Section RoundFacts.
Local Open Scope Q_scope.

(** Rounding to an integer moves a number by at most one half. *)
Lemma Qround_even_near (x : Q) :
  x - (1 # 2) <= inject_Z (Qround_even x) <= x + (1 # 2).
Proof.
  unfold Qround_even. pose proof (Qfloor_le x) as Hl.
  pose proof (Qlt_floor x) as Hu.
  rewrite inject_Z_plus in Hu. change (inject_Z 1) with 1 in Hu.
  destruct (x - inject_Z (Qfloor x) ?= 1 # 2) eqn:C.
  - apply Qeq_alt in C.
    destruct (Z.even (Qfloor x)); [| rewrite inject_Z_plus;
                                      change (inject_Z 1) with 1];
      split; lra.
  - apply Qlt_alt in C. split; lra.
  - apply Qgt_alt in C. rewrite inject_Z_plus.
    change (inject_Z 1) with 1. split; lra.
Qed.

Lemma Qround_even_le (a b : Q) :
  a <= b -> (Qround_even a <= Qround_even b)%Z.
Proof.
  intros H. destruct (Z_le_gt_dec (Qround_even a) (Qround_even b)) as [L | G];
    [exact L | exfalso].
  pose proof (Qround_even_near a) as [_ Ha].
  pose proof (Qround_even_near b) as [Hb _].
  assert (G' : inject_Z (Qround_even b) + 1 <= inject_Z (Qround_even a)).
  { change 1 with (inject_Z 1). rewrite <- inject_Z_plus, <- Zle_Qle. lia. }
  assert (E : a == b) by lra.
  rewrite (Qround_even_comp _ _ E) in G. lia.
Qed.

Lemma Qround_even_ge_Z (z : Z) (x : Q) :
  inject_Z z <= x -> (z <= Qround_even x)%Z.
Proof.
  intros H. rewrite <- (Qround_even_Z z). now apply Qround_even_le.
Qed.

Lemma Qround_even_le_Z (z : Z) (x : Q) :
  x <= inject_Z z -> (Qround_even x <= z)%Z.
Proof.
  intros H. rewrite <- (Qround_even_Z z). now apply Qround_even_le.
Qed.

Lemma pow2_pos (e : Z) : 0 < 2 ^ e.
Proof. now apply Qpower_0_lt. Qed.

Lemma pow2_le (n m : Z) : (n <= m)%Z -> 2 ^ n <= 2 ^ m.
Proof. intros H. apply Qpower_le_compat_l; [exact H | discriminate]. Qed.

Lemma pow2_plus (n m : Z) : 2 ^ (n + m) == 2 ^ n * 2 ^ m.
Proof. apply Qpower_plus. discriminate. Qed.

Lemma pow2_Z (n : Z) : (0 <= n)%Z -> inject_Z (2 ^ n) == 2 ^ n.
Proof. intros H. now rewrite Zpower_Qpower. Qed.


Lemma prec_pos (fmt : format) : (1 <= prec fmt)%Z.
Proof. now destruct fmt. Qed.

Lemma Qabs_num_den (q : Q) :
  Qabs q * inject_Z (Zpos (Qden q)) == inject_Z (Z.abs (Qnum q)).
Proof.
  destruct q as [n d]. unfold Qabs, Qeq, Qmult, inject_Z. cbn.
  rewrite Pos.mul_1_r. ring.
Qed.

(** [Qlog2] is the binary order of magnitude. *)
Lemma Qlog2_spec (q : Q) :
  ~ q == 0 -> 2 ^ Qlog2 q <= Qabs q < 2 ^ (Qlog2 q + 1).
Proof.
  intros Hq. unfold Qlog2.
  set (n := Z.abs (Qnum q)). set (d := Zpos (Qden q)).
  assert (Hn : (0 < n)%Z).
  { unfold n. destruct q as [[| a | a] b]; cbn; try lia.
    exfalso. apply Hq. reflexivity. }
  assert (Hd : (0 < d)%Z) by (unfold d; lia).
  pose proof (Z.log2_spec n Hn) as [Ln Un].
  pose proof (Z.log2_spec d Hd) as [Ld Ud].
  pose proof (Z.log2_nonneg n) as Nn. pose proof (Z.log2_nonneg d) as Nd.
  set (ln := Z.log2 n) in *. set (ld := Z.log2 d) in *.
  pose proof (Qabs_num_den q) as E. fold n d in E.
  pose proof (Qabs_nonneg q) as A0.
  assert (Ln' : 2 ^ ln <= inject_Z n)
    by (rewrite <- pow2_Z by lia; now rewrite <- Zle_Qle).
  assert (Un' : inject_Z n < 2 ^ (ln + 1))
    by (rewrite <- pow2_Z by lia; now rewrite <- Zlt_Qlt).
  assert (Ld' : 2 ^ ld <= inject_Z d)
    by (rewrite <- pow2_Z by lia; now rewrite <- Zle_Qle).
  assert (Ud' : inject_Z d < 2 ^ (ld + 1))
    by (rewrite <- pow2_Z by lia; now rewrite <- Zlt_Qlt).
  assert (Eu : 2 ^ (ln - ld + 1) * 2 ^ ld == 2 ^ (ln + 1))
    by (rewrite <- pow2_plus; apply Qpower_comp; [reflexivity | lia]).
  assert (El : 2 ^ (ln - ld - 1) * 2 ^ (ld + 1) == 2 ^ ln)
    by (rewrite <- pow2_plus; apply Qpower_comp; [reflexivity | lia]).
  pose proof (pow2_pos (ln - ld + 1)) as P1.
  pose proof (pow2_pos (ln - ld - 1)) as P2.
  pose proof (pow2_pos ld) as P3.
  assert (Up : Qabs q < 2 ^ (ln - ld + 1)) by nra.
  assert (Lo : 2 ^ (ln - ld - 1) < Qabs q) by nra.
  destruct (Qle_bool (2 ^ (ln - ld)) (Qabs q)) eqn:C.
  - apply Qle_bool_iff in C. split; assumption.
  - assert (C' : Qabs q < 2 ^ (ln - ld)).
    { apply Qnot_le_lt. intros H. apply Qle_bool_iff in H. congruence. }
    replace (ln - ld - 1 + 1)%Z with (ln - ld)%Z by lia.
    split; [now apply Qlt_le_weak | exact C'].
Qed.

Lemma ulp_exp_min (fmt : format) (q : Q) : (emin fmt <= ulp_exp fmt q)%Z.
Proof. unfold ulp_exp. destruct (Qeq_bool q 0); lia. Qed.

Lemma ulp_exp_above (fmt : format) (q : Q) :
  Qabs q < 2 ^ (ulp_exp fmt q + prec fmt).
Proof.
  unfold ulp_exp. destruct (Qeq_bool q 0) eqn:Z0.
  - apply Qeq_bool_iff in Z0. rewrite (Qabs_wd _ _ Z0). apply pow2_pos.
  - assert (Hq : ~ q == 0)
      by (intros H; apply Qeq_bool_iff in H; congruence).
    destruct (Qlog2_spec q Hq) as [_ U].
    eapply Qlt_le_trans; [exact U |]. apply pow2_le. lia.
Qed.

Lemma ulp_exp_below (fmt : format) (q : Q) :
  (emin fmt < ulp_exp fmt q)%Z ->
  2 ^ (ulp_exp fmt q + prec fmt - 1) <= Qabs q.
Proof.
  unfold ulp_exp. destruct (Qeq_bool q 0) eqn:Z0; [lia |].
  assert (Hq : ~ q == 0)
    by (intros H; apply Qeq_bool_iff in H; congruence).
  destruct (Qlog2_spec q Hq) as [L _]. intros He.
  replace (Z.max (emin fmt) (Qlog2 q - prec fmt + 1) + prec fmt - 1)%Z
    with (Qlog2 q) by lia.
  exact L.
Qed.

Lemma nearest_ge (fmt : format) (q : Q) (z e : Z) :
  (e = ulp_exp fmt q)%Z -> inject_Z z * 2 ^ e <= q ->
  inject_Z z * 2 ^ e <= nearest fmt q.
Proof.
  intros -> H. unfold nearest. pose proof (pow2_pos (ulp_exp fmt q)) as P.
  assert (Hz : (z <= Qround_even (q / 2 ^ ulp_exp fmt q))%Z).
  { apply Qround_even_ge_Z. apply Qle_shift_div_l; assumption. }
  rewrite Zle_Qle in Hz. nra.
Qed.

Lemma nearest_le (fmt : format) (q : Q) (z e : Z) :
  (e = ulp_exp fmt q)%Z -> q <= inject_Z z * 2 ^ e ->
  nearest fmt q <= inject_Z z * 2 ^ e.
Proof.
  intros -> H. unfold nearest. pose proof (pow2_pos (ulp_exp fmt q)) as P.
  assert (Hz : (Qround_even (q / 2 ^ ulp_exp fmt q) <= z)%Z).
  { apply Qround_even_le_Z. apply Qle_shift_div_r; assumption. }
  rewrite Zle_Qle in Hz. nra.
Qed.

Lemma nearest_sign (fmt : format) (q : Q) :
  (0 <= q -> 0 <= nearest fmt q) /\ (q <= 0 -> nearest fmt q <= 0).
Proof.
  split; intros H.
  - pose proof (nearest_ge fmt q 0 _ eq_refl) as G.
    change (inject_Z 0) with 0 in G. rewrite Qmult_0_l in G. now apply G.
  - pose proof (nearest_le fmt q 0 _ eq_refl) as G.
    change (inject_Z 0) with 0 in G. rewrite Qmult_0_l in G. now apply G.
Qed.

Lemma pow2_scale (p e : Z) : (0 <= p)%Z ->
  inject_Z (2 ^ p) * 2 ^ e == 2 ^ (e + p).
Proof.
  intros H. rewrite pow2_Z by exact H. rewrite <- pow2_plus.
  apply Qpower_comp; [reflexivity | lia].
Qed.

(** Rounding to nearest is monotone. *)
Lemma nearest_mono (fmt : format) (a b : Q) :
  a <= b -> nearest fmt a <= nearest fmt b.
Proof.
  intros H. pose proof (prec_pos fmt) as Hp.
  pose proof (ulp_exp_min fmt a) as Ma. pose proof (ulp_exp_min fmt b) as Mb.
  pose proof (ulp_exp_above fmt a) as Ua.
  pose proof (ulp_exp_above fmt b) as Ub.
  destruct (Z.lt_trichotomy (ulp_exp fmt a) (ulp_exp fmt b)) as [L | [E | G]].
  - (* [b] is in a higher binade, hence positive *)
    pose proof (ulp_exp_below fmt b ltac:(lia)) as Lb.
    set (M := 2 ^ (ulp_exp fmt b + prec fmt - 1)) in *.
    assert (HM : 2 ^ (ulp_exp fmt a + prec fmt) <= M)
      by (apply pow2_le; lia).
    apply Qabs_Qlt_condition in Ua.
    assert (Hb : M <= b).
    { revert Lb. apply Qabs_case; intros; lra. }
    apply Qle_trans with M.
    + eapply Qle_trans; [| exact HM].
      rewrite <- (pow2_scale (prec fmt) (ulp_exp fmt a)) by lia.
      apply nearest_le; [reflexivity |].
      rewrite pow2_scale by lia. lra.
    + unfold M.
      replace (ulp_exp fmt b + prec fmt - 1)%Z
        with (ulp_exp fmt b + (prec fmt - 1))%Z by lia.
      rewrite <- (pow2_scale (prec fmt - 1) (ulp_exp fmt b)) by lia.
      apply nearest_ge; [reflexivity |].
      rewrite pow2_scale by lia.
      replace (ulp_exp fmt b + (prec fmt - 1))%Z
        with (ulp_exp fmt b + prec fmt - 1)%Z by lia.
      exact Hb.
  - unfold nearest. rewrite E.
    pose proof (pow2_pos (ulp_exp fmt b)) as P.
    assert (Hs : a / 2 ^ ulp_exp fmt b <= b / 2 ^ ulp_exp fmt b).
    { apply Qle_shift_div_l; [exact P |].
      unfold Qdiv. rewrite <- Qmult_assoc, (Qmult_comm (/ _)),
        Qmult_inv_r, Qmult_1_r by lra. exact H. }
    apply Qround_even_le in Hs. rewrite Zle_Qle in Hs. nra.
  - (* [a] is in a higher binade, hence negative *)
    pose proof (ulp_exp_below fmt a ltac:(lia)) as La.
    set (M := 2 ^ (ulp_exp fmt a + prec fmt - 1)) in *.
    assert (HM : 2 ^ (ulp_exp fmt b + prec fmt) <= M)
      by (apply pow2_le; lia).
    apply Qabs_Qlt_condition in Ub.
    assert (Ha : a <= - M).
    { revert La. apply Qabs_case; intros; lra. }
    apply Qle_trans with (- M).
    + unfold M.
      replace (ulp_exp fmt a + prec fmt - 1)%Z
        with (ulp_exp fmt a + (prec fmt - 1))%Z by lia.
      rewrite <- (pow2_scale (prec fmt - 1) (ulp_exp fmt a)) by lia.
      assert (G' : nearest fmt a
                   <= inject_Z (- 2 ^ (prec fmt - 1)) * 2 ^ ulp_exp fmt a).
      { apply nearest_le; [reflexivity |].
        rewrite inject_Z_opp.
        setoid_replace (- inject_Z (2 ^ (prec fmt - 1)) * 2 ^ ulp_exp fmt a)
          with (- (inject_Z (2 ^ (prec fmt - 1)) * 2 ^ ulp_exp fmt a))
          using relation Qeq by ring.
        rewrite pow2_scale by lia.
        replace (ulp_exp fmt a + (prec fmt - 1))%Z
          with (ulp_exp fmt a + prec fmt - 1)%Z by lia.
        exact Ha. }
      rewrite inject_Z_opp in G'. lra.
    + assert (G' : inject_Z (- 2 ^ prec fmt) * 2 ^ ulp_exp fmt b
                   <= nearest fmt b).
      { apply nearest_ge; [reflexivity |].
        rewrite inject_Z_opp.
        setoid_replace (- inject_Z (2 ^ prec fmt) * 2 ^ ulp_exp fmt b)
          with (- (inject_Z (2 ^ prec fmt) * 2 ^ ulp_exp fmt b))
          using relation Qeq by ring.
        rewrite pow2_scale by lia. lra. }
      rewrite inject_Z_opp in G'.
      pose proof (pow2_scale (prec fmt) (ulp_exp fmt b) ltac:(lia)) as S.
      lra.
Qed.

Lemma round_to_nearest (fmt : format) (q : Q) :
  round_to fmt q
  = if Qle_bool (2 ^ emax fmt) (Qabs (nearest fmt q))
    then (if Qle_bool 0 q then PInf else NInf)
    else Fin (Qred (nearest fmt q)).
Proof. reflexivity. Qed.

Ltac bool_to_Q :=
  repeat match goal with
         | H : Qle_bool _ _ = true |- _ => apply Qle_bool_iff in H
         | H : Qle_bool ?x ?y = false |- _ =>
             assert (y < x)
               by (apply Qnot_le_lt; intros C; apply Qle_bool_iff in C;
                   congruence);
             clear H
         end.

Lemma round_to_le (fmt : format) (a b : Q) :
  a <= b -> nle (round_to fmt a) (round_to fmt b) = true.
Proof.
  intros H. pose proof (nearest_mono fmt a b H) as Hr.
  pose proof (nearest_sign fmt a) as [Pa Na].
  pose proof (nearest_sign fmt b) as [Pb Nb].
  rewrite !round_to_nearest.
  destruct (Qle_bool (2 ^ emax fmt) (Qabs (nearest fmt a))) eqn:Oa;
    destruct (Qle_bool (2 ^ emax fmt) (Qabs (nearest fmt b))) eqn:Ob;
    destruct (Qle_bool 0 a) eqn:Sa; destruct (Qle_bool 0 b) eqn:Sb;
    cbn [nle]; try reflexivity;
    try (apply Qle_bool_iff; rewrite !Qred_correct; exact Hr);
    exfalso; bool_to_Q;
    try (assert (0 <= nearest fmt a) by (apply Pa; lra));
    try (assert (nearest fmt a <= 0) by (apply Na; lra));
    try (assert (0 <= nearest fmt b) by (apply Pb; lra));
    try (assert (nearest fmt b <= 0) by (apply Nb; lra));
    try lra;
    repeat match goal with
           | H : context [Qabs ?x] |- _ =>
               revert H; apply (Qabs_case x); intros
           end;
    lra.
Qed.


(** Small integers are floats. *)
Lemma round_to_small (fmt : format) :
  round_to fmt 0 = Fin 0 /\ round_to fmt 1 = Fin 1
  /\ round_to fmt 100 = Fin 100.
Proof. destruct fmt; vm_compute; repeat split. Qed.

Lemma nle_between (a b : Q) (x : num) :
  nle (Fin a) x = true -> nle x (Fin b) = true ->
  exists q, x = Fin q /\ a <= q <= b.
Proof.
  destruct x as [q | | |]; cbn; try discriminate. intros H1 H2.
  apply Qle_bool_iff in H1, H2. eauto.
Qed.

(** A float between two floats. *)
Lemma round_to_between (fmt : format) (a b q : Q) :
  round_to fmt a = Fin a -> round_to fmt b = Fin b -> a <= q <= b ->
  exists r, round_to fmt q = Fin r /\ a <= r <= b.
Proof.
  intros Ea Eb [Hl Hu]. apply nle_between.
  - rewrite <- Ea. now apply round_to_le.
  - rewrite <- Eb. now apply round_to_le.
Qed.

Lemma fsub_1 (fmt : format) (q : Q) :
  fsub fmt 1%Z (Fin q) = round_to fmt (Qred (1 + Qred (- q))).
Proof. reflexivity. Qed.

Lemma fmul_100 (fmt : format) (u : Q) :
  fmul fmt (Fin u) 100%Z = round_to fmt (Qred (u * 100)).
Proof. reflexivity. Qed.

(** [(1 - p) * 100] for a probability in the unit interval lies between
    0 and 100, in either format. *)
Lemma safety_range (fmt : format) (q : Q) :
  0 <= q <= 1 ->
  exists x, fmul fmt (fsub fmt 1%Z (Fin q)) 100%Z = Fin x /\ 0 <= x <= 100.
Proof.
  intros Hq. destruct (round_to_small fmt) as (R0 & R1 & R100).
  rewrite fsub_1.
  destruct (round_to_between fmt 0 1 (Qred (1 + Qred (- q))) R0 R1)
    as (u & -> & Hu); [rewrite !Qred_correct; lra |].
  rewrite fmul_100.
  apply (round_to_between fmt 0 100); [exact R0 | exact R100 |].
  rewrite Qred_correct. lra.
Qed.

(** [(1 - p) * 100] does not grow with [p]. *)
Lemma safety_mono (fmt : format) (p1 p2 x1 x2 : Q) :
  p1 <= p2 ->
  fmul fmt (fsub fmt 1%Z (Fin p1)) 100%Z = Fin x1 ->
  fmul fmt (fsub fmt 1%Z (Fin p2)) 100%Z = Fin x2 ->
  x2 <= x1.
Proof.
  intros Hp. rewrite !fsub_1.
  assert (Hu : nle (round_to fmt (Qred (1 + Qred (- p2))))
                 (round_to fmt (Qred (1 + Qred (- p1)))) = true)
    by (apply round_to_le; rewrite !Qred_correct; lra).
  destruct (round_to fmt (Qred (1 + Qred (- p1)))) as [u1 | | |];
    try (intros H; discriminate H);
    destruct (round_to fmt (Qred (1 + Qred (- p2)))) as [u2 | | |];
    try (intros _ H; discriminate H); try discriminate Hu.
  cbn in Hu. apply Qle_bool_iff in Hu. rewrite !fmul_100. intros E1 E2.
  assert (Hx : nle (round_to fmt (Qred (u2 * 100)))
                 (round_to fmt (Qred (u1 * 100))) = true)
    by (apply round_to_le; rewrite !Qred_correct; lra).
  rewrite E1, E2 in Hx. cbn in Hx. now apply Qle_bool_iff.
Qed.

(** [int] of a float that is not finite raises. *)
Lemma py_int_Ok (x : num) (s : Z) :
  py_int x = Ok s -> exists q, x = Fin q /\ s = Qtrunc q.
Proof.
  destruct x as [q | | |]; cbn; intros H; try discriminate H.
  injection H as <-. eauto.
Qed.

(** Only a finite float gives a finite [(1 - p) * 100]. *)
Lemma safety_finite (fmt : format) (p : num) (x : Q) :
  fmul fmt (fsub fmt 1%Z p) 100%Z = Fin x -> exists q, p = Fin q.
Proof.
  destruct p as [q | | |]; [eauto | | |]; intros H; vm_compute in H;
    discriminate H.
Qed.

End RoundFacts.

(** * Facts about well-typed feature dicts *)

Section Typing.

Import Spec.

Variable f : gmap string pyval.
Hypothesis Hwt : well_typed f = true.

Lemma as_num_metric (k : string) (dflt : Z) :
  In k metric_fields -> as_num (get f k (VInt dflt)) = Ok (metric f k dflt).
Proof.
  intros Hk. unfold well_typed in Hwt. rewrite forallb_forall in Hwt.
  specialize (Hwt k Hk). unfold numeric_at, metric, get in *.
  destruct (f !! k) as [v |]; simpl; [| reflexivity].
  destruct v; simpl in *; try reflexivity; discriminate.
Qed.

Lemma py_gt_metric (k : string) (dflt : Z) (c : num) :
  In k metric_fields ->
  py_gt (get f k (VInt dflt)) c = Ok (ngt (metric f k dflt) c).
Proof. intros Hk. unfold py_gt. now rewrite as_num_metric. Qed.

Lemma py_lt_metric (k : string) (dflt : Z) (c : num) :
  In k metric_fields ->
  py_lt (get f k (VInt dflt)) c = Ok (nlt (metric f k dflt) c).
Proof. intros Hk. unfold py_lt. now rewrite as_num_metric. Qed.

(** Arithmetic on a metric that fits a float. *)
Lemma to_float_sized (x : num) :
  is_ok (to_float x) = true -> to_float x = Ok (rnd binary64 x).
Proof.
  destruct x as [q | | |]; try reflexivity.
  unfold to_float, rnd. now destruct (round_to binary64 q).
Qed.

Lemma py_mul_sized (k : string) (dflt : Z) (c : num) :
  In k metric_fields ->
  is_ok (to_float (metric f k dflt)) = true ->
  py_mul (get f k (VInt dflt)) c
  = Ok (fmul binary64 (rnd binary64 (metric f k dflt)) c).
Proof.
  intros Hk Hs. unfold py_mul. rewrite as_num_metric by exact Hk.
  cbn [mbind result_bind]. now rewrite to_float_sized.
Qed.

(** A product that is returned had an operand that fits a float. *)
Lemma py_mul_Ok_sized (k : string) (dflt : Z) (c b : num) :
  In k metric_fields ->
  py_mul (get f k (VInt dflt)) c = Ok b ->
  is_ok (to_float (metric f k dflt)) = true.
Proof.
  intros Hk. unfold py_mul. rewrite as_num_metric by exact Hk.
  cbn [mbind result_bind]. now destruct (to_float (metric f k dflt)).
Qed.

Hypothesis Hfs : float_sized f = true.

Lemma float_sized_metric (k : string) (dflt : Z) :
  In k metric_fields -> dflt = 0 \/ dflt = 1 ->
  is_ok (to_float (metric f k dflt)) = true.
Proof.
  intros Hk Hd. unfold float_sized in Hfs. rewrite forallb_forall in Hfs.
  specialize (Hfs k Hk). unfold metric, get in *.
  destruct (f !! k) as [v |]; cbn [default from_option id] in *.
  - exact Hfs.
  - destruct Hd as [-> | ->]; reflexivity.
Qed.

Lemma py_mul_metric (k : string) (dflt : Z) (c : num) :
  In k metric_fields -> dflt = 0 \/ dflt = 1 ->
  py_mul (get f k (VInt dflt)) c
  = Ok (fmul binary64 (rnd binary64 (metric f k dflt)) c).
Proof.
  intros Hk Hd. apply py_mul_sized; [exact Hk |].
  now apply float_sized_metric.
Qed.

Lemma py_add_metric (k : string) (dflt : Z) (c : num) :
  In k metric_fields ->
  py_add (get f k (VInt dflt)) c = Ok (nadd (metric f k dflt) c).
Proof. intros Hk. unfold py_add. now rewrite as_num_metric. Qed.

Lemma fix1_metric (k : string) (dflt : Z) :
  In k metric_fields -> dflt = 0 \/ dflt = 1 ->
  fix1 (get f k (VInt dflt)) = Ok (Fix1 (get f k (VInt dflt))).
Proof.
  intros Hk Hd. unfold fix1. rewrite as_num_metric by exact Hk.
  cbn [mbind result_bind].
  now rewrite to_float_sized by now apply float_sized_metric.
Qed.

End Typing.


(** A metric above a non-negative bound is present in the dict. *)
Lemma getitem_above (f : gmap string pyval) (k : string) (c : num) :
  ngt (of_Z 0) c = false ->
  ngt (Spec.metric f k 0) c = true ->
  getitem f k = Ok (get f k (VInt 0)).
Proof.
  unfold Spec.metric, get, getitem. destruct (f !! k); simpl; [reflexivity |].
  congruence.
Qed.

Ltac in_fields := simpl; tauto.

(** * Inversion of the exception monad *)

Lemma bind_Ok {A B} (m : result A) (k : A -> result B) (b : B) :
  m ≫= k = Ok b -> exists a, m = Ok a /\ k a = Ok b.
Proof. destruct m as [a | e]; simpl; [eauto | discriminate]. Qed.

Ltac inv_bind H :=
  let a := fresh "a" in
  let E := fresh "E" in
  apply bind_Ok in H; destruct H as (a & E & H).

Ltac inv_Ok H := injection H as H; subst.

(** * Risk bands *)

Lemma level4_band (score : Z) : level4 score = Spec.band4 score.
Proof.
  unfold level4, Spec.band4, Spec.band, Spec.table4. simpl.
  rewrite !Z.geb_leb. repeat case (_ <=? score); reflexivity.
Qed.

Lemma level5_band (score : Z) : level5 score = Spec.band5 score.
Proof.
  unfold level5, Spec.band5, Spec.band, Spec.table5. simpl.
  rewrite !Z.geb_leb. repeat case (_ <=? score); reflexivity.
Qed.

(** * The rule-based fallback scorer *)

Lemma fallback_scoring_sized (f : gmap string pyval) :
  Spec.well_typed f = true ->
  is_ok (to_float (Spec.metric f "total_supply" 1)) = true ->
  Predict.fallback_scoring f =
    Ok (Spec.fallback_score f, Spec.band4 (Spec.fallback_score f),
        Spec.rug_prob_of (Spec.fallback_score f)).
Proof.
  intros Hwt Hs. unfold Predict.fallback_scoring.
  rewrite !(py_gt_metric f Hwt) by in_fields.
  rewrite (py_mul_sized f Hwt) by (in_fields || exact Hs).
  cbn [mbind result_bind].
  rewrite (py_lt_metric f Hwt) by in_fields.
  unfold Spec.fallback_score, Spec.deductions, Spec.high_tax, Spec.low_burn,
    Spec.not_revoked, Spec.flag, Spec.clamp, Spec.rug_prob_of.
  destruct (negb (is_None (get f "mint_authority" VNone)));
  destruct (negb (is_None (get f "freeze_authority" VNone)));
  destruct (truthy (get f "honeypot" (VBool false)));
  destruct (ngt (Spec.metric f "buy_tax" 0) 5%Z);
  destruct (ngt (Spec.metric f "sell_tax" 0) 5%Z);
  destruct (ngt (Spec.metric f "top10_pct" 0) 50%Z);
  destruct (nlt (Spec.metric f "lp_burned" 0)
              (fmul binary64
                 (rnd binary64 (Spec.metric f "total_supply" 1))
                 (flt 0.9)));
  reflexivity.
Qed.

Lemma fallback_scoring_well_typed (f : gmap string pyval) :
  Spec.well_typed f = true -> Spec.float_sized f = true ->
  Predict.fallback_scoring f =
    Ok (Spec.fallback_score f, Spec.band4 (Spec.fallback_score f),
        Spec.rug_prob_of (Spec.fallback_score f)).
Proof.
  intros Hwt Hfs. apply fallback_scoring_sized; [exact Hwt |].
  apply (float_sized_metric f Hfs); [in_fields | tauto].
Qed.

(** Why inputs are taken well-typed and within the range of a float: a
    JSON [null] in a numeric metric makes the comparison raise, and an
    int beyond the floats cannot be multiplied by 0.9. *)
Example fallback_scoring_null_tax :
  Predict.fallback_scoring (<["buy_tax" := VNone]> Sample.clean)
  = Raise TypeError.
Proof. vm_compute. reflexivity. Qed.

Example fallback_scoring_huge_supply :
  Predict.fallback_scoring (<["total_supply" := VInt (10 ^ 400)]> Sample.clean)
  = Raise OverflowError.
Proof. vm_compute. reflexivity. Qed.

(** The arithmetic is that of binary64: 13 * 0.9 is the float above
    11.7, so a honeypot with 11.7 burned out of 13 loses the ten points
    as well; and 1 - 90/100 is the float below 0.1. *)
Example fallback_scoring_in_binary64 :
  fmul binary64 13%Z (flt 0.9)
  = Fin (6586514455029351 # 562949953421312)
  /\ (fst <$> Predict.fallback_scoring
                (list_to_map [ ("honeypot", VBool true);
                               ("lp_burned", VNum (flt 11.7));
                               ("total_supply", VInt 13) ]))
     = Ok (60, "HIGH")
  /\ Spec.rug_prob_of 90
     = Fin (900719925474099 # 9007199254740992).
Proof. vm_compute. repeat split. Qed.



(** * Levels returned by the engines *)

Lemma predict_level {fmt : format} (e : PredictUltimate.UltimateEnsemble)
    (f : gmap string pyval) (r : PredictUltimate.PredictionResult) :
  PredictUltimate.predict e f = Ok r ->
  PredictUltimate.level r = level5 (PredictUltimate.score r).
Proof.
  unfold PredictUltimate.predict. intros H.
  inv_bind H. destruct a as [rug_prob used].
  do 3 inv_bind H. inv_Ok H. reflexivity.
Qed.

Lemma fallback_scoring_level (f : gmap string pyval) s l p :
  Predict.fallback_scoring f = Ok (s, l, p) -> l = level4 s.
Proof.
  unfold Predict.fallback_scoring. intros H.
  do 5 inv_bind H. injection H as <- <- <-. reflexivity.
Qed.

Lemma predict_rug_score_level {fmt : format} (m : option Predict.Model)
    (f : gmap string pyval) s l p :
  Predict.predict_rug_score m f = Ok (s, l, p) -> l = level4 s.
Proof.
  destruct m as [m |]; simpl; [| apply fallback_scoring_level].
  intros H. do 3 inv_bind H. injection H as <- <- <-. reflexivity.
Qed.

(** C8: the ensemble engine maps every score by the 5-band table (>=95
    EXTREME LOW, >=90 LOW, >=70 MEDIUM, >=40 HIGH, else EXTREME), the basic
    engine and the fallback scorer by the 4-band table (>=90 LOW, >=70
    MEDIUM, >=40 HIGH, else EXTREME); the boundary scores 95, 90, 70, 40
    and 39 fall in the documented band of each table, also when reached
    through the engines themselves. *)
Theorem risk_level_tables {fmt : format} :
  (forall score, level5 score = Spec.band5 score)
  /\ (forall score, level4 score = Spec.band4 score)
  /\ (forall e f r,
        PredictUltimate.predict e f = Ok r ->
        PredictUltimate.level r = Spec.band5 (PredictUltimate.score r))
  /\ (forall m f s l p,
        Predict.predict_rug_score m f = Ok (s, l, p) -> l = Spec.band4 s)
  /\ (forall f s l p,
        Predict.fallback_scoring f = Ok (s, l, p) -> l = Spec.band4 s)
  /\ (Spec.band5 <$> [95; 90; 70; 40; 39]) =
       ["EXTREME LOW"; "LOW"; "MEDIUM"; "HIGH"; "EXTREME"]
  /\ (Spec.band4 <$> [95; 90; 70; 40; 39]) =
       ["LOW"; "LOW"; "MEDIUM"; "HIGH"; "EXTREME"]
  /\ (Spec.band5 <$> [94; 89; 69]) = ["LOW"; "MEDIUM"; "HIGH"]
  /\ (Spec.band4 <$> [89; 69]) = ["MEDIUM"; "HIGH"]
  /\ ((fun p =>
         (fun r => (PredictUltimate.score r, PredictUltimate.level r)) <$>
           PredictUltimate.predict_full (Sample.simple_disk p) Sample.clean)
        <$> [0.05; 0.1; 0.3; 0.6; 0.61]%Q) =
       [Ok (95, "EXTREME LOW"); Ok (90, "LOW"); Ok (70, "MEDIUM");
        Ok (40, "HIGH"); Ok (39, "EXTREME")]
  /\ ((fun p =>
         (fun r => (r.1.1, r.1.2)) <$>
           Predict.predict_rug_score (Some (Sample.constant_model p))
             Sample.clean)
        <$> [0.05; 0.1; 0.3; 0.6; 0.61]%Q) =
       [Ok (95, "LOW"); Ok (90, "LOW"); Ok (70, "MEDIUM");
        Ok (40, "HIGH"); Ok (39, "EXTREME")].
Proof.
  split; [exact level5_band |]. split; [exact level4_band |].
  split. { intros e f r H. rewrite <- level5_band. now apply (predict_level e f). }
  split. { intros m f s l p H. rewrite <- level4_band.
           now apply (predict_rug_score_level m f s l p). }
  split. { intros f s l p H. rewrite <- level4_band.
           now apply (fallback_scoring_level f s l p). }
  destruct fmt; repeat split; vm_compute; reflexivity.
Qed.

(** * Risk factors do not depend on the probability *)

(** C10: [get_risk_factors] returns the same list for any two values of
    its [rug_prob] argument. *)
Theorem get_risk_factors_ignores_rug_prob
    (features : gmap string pyval) (p1 p2 : num) :
  Predict.get_risk_factors features p1 = Predict.get_risk_factors features p2.
Proof. reflexivity. Qed.

(** * The risk-factor lists *)

Lemma take5_length {A} (l : list A) : (length (take 5 l) <= 5)%nat.
Proof. rewrite length_take. lia. Qed.

Lemma get_risk_factors_length (f : gmap string pyval) (p : num) l :
  Predict.get_risk_factors f p = Ok l -> (length l <= 5)%nat.
Proof.
  unfold Predict.get_risk_factors. intros H.
  do 10 inv_bind H. inv_Ok H. apply take5_length.
Qed.

Lemma cli_risk_length {fmt : format} (ty : Predict.scalar)
    (m : option Predict.Model) (f : gmap string pyval) o :
  Predict.cli ty m f = Ok o -> (length (Predict.riskFactors o) <= 5)%nat.
Proof.
  unfold Predict.cli. intros H. inv_bind H. destruct a as [[s l] p].
  do 2 inv_bind H. inv_Ok H. simpl. now apply (get_risk_factors_length f p).
Qed.

Lemma ensemble_risk_factors_length (f : gmap string pyval) l :
  PredictUltimate._get_risk_factors f = Ok l -> (length l <= 5)%nat.
Proof.
  unfold PredictUltimate._get_risk_factors. intros H.
  do 8 inv_bind H. inv_Ok H. apply take5_length.
Qed.

Lemma predict_full_risk_length {fmt : format} (d : PredictUltimate.disk)
    (f : gmap string pyval) r :
  PredictUltimate.predict_full d f = Ok r ->
  (length (PredictUltimate.risk_factors r) <= 5)%nat.
Proof.
  unfold PredictUltimate.predict_full.
  destruct (PredictUltimate.ensemble d) as [e |].
  - unfold PredictUltimate.predict. intros H.
    inv_bind H. destruct a as [rug_prob used]. do 3 inv_bind H. inv_Ok H.
    simpl. now apply (ensemble_risk_factors_length f).
  - intros H. inv_Ok H. simpl. lia.
Qed.

Ltac case_rule k c :=
  let E := fresh "E" in
  destruct (ngt (Spec.metric _ k 0) c) eqn:E;
  [ try rewrite (getitem_above _ k c eq_refl E) | ].

Lemma get_risk_factors_rules (f : gmap string pyval) (p : num) :
  Spec.well_typed f = true -> Spec.float_sized f = true ->
  Predict.get_risk_factors f p = Ok (Spec.risk_factors_of (Spec.basic_rules f)).
Proof.
  intros Hwt Hfs. unfold Predict.get_risk_factors.
  rewrite !(py_gt_metric f Hwt) by in_fields.
  rewrite (py_mul_metric f Hwt Hfs) by (in_fields || tauto).
  cbn [mbind result_bind].
  rewrite (py_lt_metric f Hwt) by in_fields.
  unfold Spec.risk_factors_of, Spec.basic_rules, Spec.low_burn,
    Spec.not_revoked, Spec.flag.
  case_rule "buy_tax" (of_Z 5); case_rule "sell_tax" (of_Z 5);
  case_rule "top10_pct" (of_Z 50); case_rule "jito_bundle_clusters" (of_Z 3);
  cbn [mbind result_bind];
  rewrite ?(fix1_metric f Hwt Hfs) by (in_fields || tauto);
  destruct (negb (is_None (get f "mint_authority" VNone)));
  destruct (negb (is_None (get f "freeze_authority" VNone)));
  destruct (truthy (get f "honeypot" (VBool false)));
  destruct (nlt (Spec.metric f "lp_burned" 0)
              (fmul binary64
                 (rnd binary64 (Spec.metric f "total_supply" 1))
                 (flt 0.5)));
  reflexivity.
Qed.

Lemma ensemble_risk_factors_rules (f : gmap string pyval) :
  Spec.well_typed f = true -> Spec.float_sized f = true ->
  PredictUltimate._get_risk_factors f =
    Ok (Spec.risk_factors_of (Spec.ensemble_rules f)).
Proof.
  intros Hwt Hfs. unfold PredictUltimate._get_risk_factors.
  rewrite !(py_gt_metric f Hwt) by in_fields.
  rewrite !(fix1_metric f Hwt Hfs) by (in_fields || tauto).
  unfold Spec.risk_factors_of, Spec.ensemble_rules, Spec.high_tax,
    Spec.not_revoked, Spec.flag.
  destruct (ngt (Spec.metric f "buy_tax" 0) 5%Z);
  destruct (ngt (Spec.metric f "sell_tax" 0) 5%Z);
  destruct (ngt (Spec.metric f "top10_pct" 0) 50%Z);
  destruct (ngt (Spec.metric f "jito_bundle_clusters" 0) 3%Z);
  destruct (ngt (Spec.metric f "dev_bought_pct" 0) 10%Z);
  destruct (ngt (Spec.metric f "bundled_clusters" 0) 5%Z);
  destruct (negb (is_None (get f "mint_authority" VNone)));
  destruct (negb (is_None (get f "freeze_authority" VNone)));
  destruct (truthy (get f "honeypot" (VBool false)));
  reflexivity.
Qed.

(** Why int metrics are taken within the range of a float: an int
    beyond it cannot be formatted with [.1f] nor multiplied by 0.5; and
    an int is rounded to a float before it is halved, so 2^52 burned out
    of 2^53 + 1 is not a low burn. *)
Example risk_factors_of_huge_ints :
  PredictUltimate._get_risk_factors
    (<["top10_pct" := VInt (10 ^ 400)]> Sample.clean)
  = Raise OverflowError
  /\ Predict.get_risk_factors
       (<["total_supply" := VInt (10 ^ 400)]> Sample.clean) (fin 0.5)
     = Raise OverflowError
  /\ Predict.get_risk_factors
       (list_to_map [ ("lp_burned", VInt (2 ^ 52));
                      ("total_supply", VInt (2 ^ 53 + 1)) ]) (fin 0.5)
     = Ok [].
Proof. vm_compute. repeat split. Qed.

(** C9: on every well-typed input whose int metrics are within the range
    of a float, each engine's riskFactors list is the strings of the true
    predicates of its fixed, ordered rule list, cut to the first five in
    rule order; and whatever the input, a returned list has at most five
    entries. *)
Theorem risk_factors_first_five {fmt : format} (f : gmap string pyval)
    (p : num) :
  Spec.well_typed f = true -> Spec.float_sized f = true ->
  Predict.get_risk_factors f p = Ok (Spec.risk_factors_of (Spec.basic_rules f))
  /\ PredictUltimate._get_risk_factors f =
       Ok (Spec.risk_factors_of (Spec.ensemble_rules f))
  /\ (length (Spec.risk_factors_of (Spec.basic_rules f)) <= 5)%nat
  /\ (length (Spec.risk_factors_of (Spec.ensemble_rules f)) <= 5)%nat
  /\ (forall g q l, Predict.get_risk_factors g q = Ok l -> (length l <= 5)%nat)
  /\ (forall ty m g o,
        Predict.cli ty m g = Ok o ->
        (length (Predict.riskFactors o) <= 5)%nat)
  /\ (forall d g r,
        PredictUltimate.predict_full d g = Ok r ->
        (length (PredictUltimate.risk_factors r) <= 5)%nat).
Proof.
  intros Hwt Hfs.
  split; [now apply get_risk_factors_rules |].
  split; [now apply ensemble_risk_factors_rules |].
  split; [apply take5_length |]. split; [apply take5_length |].
  split; [intros g q l; apply get_risk_factors_length |].
  split; [intros ty m g o; apply cli_risk_length |].
  intros d g r. apply predict_full_risk_length.
Qed.

(** A token that trips every rule: eight predicates hold, five strings
    are returned, the first five of the rule order. *)
Lemma risk_factors_first_five_witness :
  Spec.well_typed Sample.dirty = true
  /\ Spec.float_sized Sample.dirty = true
  /\ List.filter fst (Spec.ensemble_rules Sample.dirty)
     = Spec.ensemble_rules Sample.dirty
  /\ PredictUltimate._get_risk_factors Sample.dirty =
       Ok [ [Lit "Mint authority not revoked"];
            [Lit "Freeze authority not revoked"];
            [Lit "Honeypot detected"];
            [Lit "High taxes: "; Val (VInt 12); Lit "%/"; Val (VInt 30);
             Lit "%"];
            [Lit "High concentration: Top 10 hold "; Fix1 (VInt 80);
             Lit "%"] ]
  /\ Predict.get_risk_factors Sample.dirty (fin 0.5) =
       Ok [ [Lit "Mint authority not revoked"];
            [Lit "Freeze authority not revoked"];
            [Lit "Honeypot detected"];
            [Lit "High buy tax: "; Val (VInt 12); Lit "%"];
            [Lit "High sell tax: "; Val (VInt 30); Lit "%"] ].
Proof.
  assert (W : Spec.well_typed Sample.dirty = true) by (vm_compute; reflexivity).
  assert (F : Spec.float_sized Sample.dirty = true)
    by (vm_compute; reflexivity).
  split; [exact W |]. split; [exact F |].
  split; [vm_compute; reflexivity |].
  destruct (risk_factors_first_five (fmt := binary64) Sample.dirty (fin 0.5)
              W F) as (Hb & He & _).
  split; [rewrite He | rewrite Hb]; vm_compute; reflexivity.
Defined.

(** * Confidence *)



(** * Score and probability *)

(** The score and level that each engine derives from the probability
    it reports. *)
Lemma predict_rug_score_inv {fmt : format} (m : Predict.Model)
    (f : gmap string pyval) s l (p : num) :
  Predict.predict_rug_score (Some m) f = Ok (s, l, p) ->
  py_int (fmul fmt (fsub fmt 1%Z p) 100%Z) = Ok s /\ l = level4 s.
Proof.
  unfold Predict.predict_rug_score. intros H. do 3 inv_bind H.
  injection H as <- <- <-. split; [exact E1 | reflexivity].
Qed.

Lemma predict_inv {fmt : format} (e : PredictUltimate.UltimateEnsemble)
    (f : gmap string pyval) r :
  PredictUltimate.predict e f = Ok r ->
  py_int (fmul fmt (fsub fmt 1%Z (PredictUltimate.rug_probability r)) 100%Z)
  = Ok (PredictUltimate.score r)
  /\ PredictUltimate.level r = level5 (PredictUltimate.score r).
Proof.
  unfold PredictUltimate.predict. intros H.
  inv_bind H. destruct a as [p used]. do 3 inv_bind H.
  injection H as <-. split; [exact E0 | reflexivity].
Qed.

(** [int] of the float [(1 - p) * 100] for a probability in the unit
    interval. *)
Lemma py_int_safety (fmt : format) (q : Q) (s : Z) :
  (0 <= q <= 1)%Q ->
  py_int (fmul fmt (fsub fmt 1%Z (Fin q)) 100%Z) = Ok s ->
  exists x, fmul fmt (fsub fmt 1%Z (Fin q)) 100%Z = Fin x
            /\ (0 <= x <= 100)%Q /\ s = Qfloor x /\ 0 <= s <= 100.
Proof.
  intros Hq H. destruct (safety_range fmt q Hq) as (x & E & Hx).
  rewrite E in H. cbn [py_int] in H. injection H as <-.
  exists x. split; [exact E |]. split; [exact Hx |].
  rewrite Qtrunc_nonneg by apply Hx. split; [reflexivity |].
  assert (L : Qfloor (inject_Z 0) <= Qfloor x)
    by (apply Qfloor_resp_le; apply Hx).
  assert (U : Qfloor x <= Qfloor (inject_Z 100))
    by (apply Qfloor_resp_le; apply Hx).
  rewrite Qfloor_Z in L, U. lia.
Qed.

Lemma predict_rug_score_floor {fmt : format} (m : Predict.Model)
    (f : gmap string pyval) s l (q : Q) :
  Predict.predict_rug_score (Some m) f = Ok (s, l, Fin q) ->
  (0 <= q <= 1)%Q ->
  exists x, fmul fmt (fsub fmt 1%Z (Fin q)) 100%Z = Fin x
            /\ (0 <= x <= 100)%Q /\ s = Qfloor x /\ 0 <= s <= 100.
Proof.
  intros H Hq. apply predict_rug_score_inv in H as [H _].
  now apply py_int_safety.
Qed.

Lemma predict_floor {fmt : format} (e : PredictUltimate.UltimateEnsemble)
    (f : gmap string pyval) r (q : Q) :
  PredictUltimate.predict e f = Ok r ->
  PredictUltimate.rug_probability r = Fin q ->
  (0 <= q <= 1)%Q ->
  exists x, fmul fmt (fsub fmt 1%Z (Fin q)) 100%Z = Fin x
            /\ (0 <= x <= 100)%Q
            /\ PredictUltimate.score r = Qfloor x
            /\ 0 <= PredictUltimate.score r <= 100.
Proof.
  intros H Hp Hq. apply predict_inv in H as [H _]. rewrite Hp in H.
  now apply py_int_safety.
Qed.

Lemma fallback_scoring_shape (f : gmap string pyval) s l p :
  Predict.fallback_scoring f = Ok (s, l, p) ->
  0 <= s <= 100 /\ p = Spec.rug_prob_of s.
Proof.
  unfold Predict.fallback_scoring. intros H.
  do 5 inv_bind H. injection H as <- _ <-. split; [lia | reflexivity].
Qed.

(** On the fallback path rounding recovers the score from the
    probability: checked on each of the 101 scores. *)
Lemma fallback_round_trip (s : Z) :
  0 <= s <= 100 ->
  exists q x,
    Spec.rug_prob_of s = Fin q /\ (0 <= q <= 1)%Q
    /\ fmul binary64 (fsub binary64 1%Z (Fin q)) 100%Z = Fin x
    /\ s = Qround_even x.
Proof.
  intros Hs.
  assert (C : forallb
                (fun n =>
                   match Spec.rug_prob_of (Z.of_nat n) with
                   | Fin q =>
                       Qle_bool 0 q && Qle_bool q 1
                       && match fmul binary64 (fsub binary64 1%Z (Fin q))
                                  100%Z with
                          | Fin x => Z.of_nat n =? Qround_even x
                          | _ => false
                          end
                   | _ => false
                   end) (seq 0 101) = true)
    by (vm_compute; reflexivity).
  rewrite forallb_forall in C. specialize (C (Z.to_nat s)).
  rewrite Z2Nat.id in C by lia.
  assert (Hin : In (Z.to_nat s) (seq 0 101)) by (apply in_seq; lia).
  specialize (C Hin).
  destruct (Spec.rug_prob_of s) as [q | | |] eqn:Eq; try discriminate C.
  apply andb_true_iff in C as [C Cx]. apply andb_true_iff in C as [C0 C1].
  apply Qle_bool_iff in C0, C1.
  destruct (fmul binary64 (fsub binary64 1%Z (Fin q)) 100%Z) as [x | | |]
    eqn:Ex; try discriminate Cx.
  apply Z.eqb_eq in Cx. exists q, x.
  repeat split; first [assumption | reflexivity].
Qed.

Lemma fallback_scoring_round (f : gmap string pyval) s l p :
  Predict.fallback_scoring f = Ok (s, l, p) ->
  0 <= s <= 100
  /\ p = Spec.rug_prob_of s
  /\ exists q x, p = Fin q /\ (0 <= q <= 1)%Q
                 /\ fmul binary64 (fsub binary64 1%Z p) 100%Z = Fin x
                 /\ s = Qround_even x.
Proof.
  intros H. apply fallback_scoring_shape in H as [Hs ->].
  split; [exact Hs |]. split; [reflexivity |].
  destruct (fallback_round_trip s Hs) as (q & x & E & Hq & Ex & Er).
  exists q, x. rewrite E.
  split; [reflexivity | split; [exact Hq | split; assumption]].
Qed.

(** C2, as stated, fails: a model probability of 0.004, in binary64 as in
    binary32, gives the score 99 on both engines, while
    [round((1 - 0.004) * 100)] is 100. *)
Lemma score_is_not_rounded :
  (exists s l q x,
     Predict.predict_rug_score (fmt := binary64)
       (Some (fun _ => Ok (round_to binary64 0.004))) Sample.clean
     = Ok (s, l, Fin q)
     /\ (0 <= q <= 1)%Q
     /\ fmul binary64 (fsub binary64 1%Z (Fin q)) 100%Z = Fin x
     /\ s = 99 /\ Qround_even x = 100)
  /\ (exists s l q x,
        Predict.predict_rug_score (fmt := binary32)
          (Some (fun _ => Ok (round_to binary32 0.004))) Sample.clean
        = Ok (s, l, Fin q)
        /\ (0 <= q <= 1)%Q
        /\ fmul binary32 (fsub binary32 1%Z (Fin q)) 100%Z = Fin x
        /\ s = 99 /\ Qround_even x = 100)
  /\ (exists r q x,
        PredictUltimate.predict_full (fmt := binary64)
          (Sample.simple_disk 0.004) Sample.clean = Ok r
        /\ PredictUltimate.rug_probability r = Fin q
        /\ (0 <= q <= 1)%Q
        /\ fmul binary64 (fsub binary64 1%Z (Fin q)) 100%Z = Fin x
        /\ PredictUltimate.score r = 99
        /\ Qround_even x = 100).
Proof.
  split; [| split].
  - do 4 eexists. split; [vm_compute; reflexivity |].
    split; [split; discriminate |].
    split; [vm_compute; reflexivity |]. split; vm_compute; reflexivity.
  - do 4 eexists. split; [vm_compute; reflexivity |].
    split; [split; discriminate |].
    split; [vm_compute; reflexivity |]. split; vm_compute; reflexivity.
  - do 3 eexists. split; [vm_compute; reflexivity |].
    split; [vm_compute; reflexivity |]. split; [split; discriminate |].
    split; [vm_compute; reflexivity |]. split; vm_compute; reflexivity.
Qed.

(** C2, amended: on a model-backed path a probability p in [0,1] gives
    the score floor(x), which is what [int] computes, where x is the
    float (1 - p) * 100 in whichever format it is evaluated, and both x
    and the score are within [0,100]; on the fallback path the score is
    within [0,100], the probability is the binary64 value of
    1 - score/100 within [0,1], and there the score is also
    round((1 - p) * 100). *)
Theorem score_is_floor_of_safety {fmt : format} :
  (forall m f s l q,
     Predict.predict_rug_score (Some m) f = Ok (s, l, Fin q) ->
     (0 <= q <= 1)%Q ->
     exists x, fmul fmt (fsub fmt 1%Z (Fin q)) 100%Z = Fin x
               /\ (0 <= x <= 100)%Q /\ s = Qfloor x /\ 0 <= s <= 100)
  /\ (forall e f r q,
        PredictUltimate.predict e f = Ok r ->
        PredictUltimate.rug_probability r = Fin q ->
        (0 <= q <= 1)%Q ->
        exists x, fmul fmt (fsub fmt 1%Z (Fin q)) 100%Z = Fin x
                  /\ (0 <= x <= 100)%Q
                  /\ PredictUltimate.score r = Qfloor x
                  /\ 0 <= PredictUltimate.score r <= 100)
  /\ (forall f s l p,
        Predict.fallback_scoring f = Ok (s, l, p) ->
        0 <= s <= 100
        /\ p = Spec.rug_prob_of s
        /\ exists q x, p = Fin q /\ (0 <= q <= 1)%Q
                       /\ fmul binary64 (fsub binary64 1%Z p) 100%Z = Fin x
                       /\ s = Qround_even x).
Proof.
  split; [exact predict_rug_score_floor |].
  split; [exact predict_floor | exact fallback_scoring_round].
Qed.

(** The amended statement at work: probability 0.9 in binary64, where
    (1 - 0.9) * 100 is the float below 10 and the score is 9; and the
    fallback scorer on the token with both authorities held. *)
Lemma score_is_floor_of_safety_witness :
  (exists x, fmul binary64 (fsub binary64 1%Z (flt 0.9)) 100%Z = Fin x
             /\ (0 <= x <= 100)%Q /\ 9 = Qfloor x /\ 0 <= 9 <= 100)
  /\ (0 <= 60 <= 100
      /\ flt 0.4 = Spec.rug_prob_of 60
      /\ exists q x, flt 0.4 = Fin q /\ (0 <= q <= 1)%Q
                     /\ fmul binary64 (fsub binary64 1%Z (flt 0.4)) 100%Z
                        = Fin x
                     /\ 60 = Qround_even x).
Proof.
  destruct (score_is_floor_of_safety (fmt := binary64)) as (Hm & _ & Hf).
  split.
  - apply (Hm (fun _ => Ok (flt 0.9)) Sample.clean 9 "EXTREME"
             (8106479329266893 # 9007199254740992)%Q).
    + vm_compute. reflexivity.
    + split; discriminate.
  - apply (Hf Sample.both_held 60 "HIGH" (flt 0.4)). vm_compute. reflexivity.
Defined.

(** * The registry without any artifact *)

Lemma no_tier_no_ensemble (d : PredictUltimate.disk) :
  Spec.registry_state d = Spec.NoTier -> PredictUltimate.ensemble d = None.
Proof.
  destruct d as [fm ml tn tm gn sm]. unfold Spec.registry_state. simpl.
  destruct fm, ml, tn, tm, gn, sm; simpl; intros H;
    first [discriminate H | reflexivity].
Qed.

(** C1, as stated, fails: with nothing under [models/] the ensemble
    engine answers the clean sample with its fixed 50 / UNKNOWN result,
    while the fallback scorer gives that sample 100 / LOW. *)
Lemma no_model_result_is_not_fallback :
  Spec.registry_state Sample.empty_disk = Spec.NoTier
  /\ Predict.fallback_scoring Sample.clean = Ok (100, "LOW", fin 0)
  /\ exists r,
       PredictUltimate.predict_full (fmt := binary64) Sample.empty_disk
         Sample.clean = Ok r
       /\ PredictUltimate.score r = 50
       /\ PredictUltimate.level r = "UNKNOWN"
       /\ ~ Spec.produced_by_fallback Sample.clean r.
Proof.
  split; [reflexivity |]. split; [vm_compute; reflexivity |].
  exists Spec.no_model_result. repeat split.
  intros (s & l & p & Hf & Hs & _). vm_compute in Hf. inv_Ok Hf.
  discriminate Hs.
Qed.

(** C1, amended: when no artifact of any tier loads, the ensemble engine's
    public calls return their fixed result (score 50, level UNKNOWN,
    probability 0.5, confidence 0, one risk factor "No model available"),
    whatever the input; the basic engine, whose model file is missing,
    hands every input to the rule-based fallback scorer, and on a
    well-typed input whose numbers fit a float that is the score of the
    deduction rules, its band and the binary64 value of 1 - score/100,
    to which the command line adds the risk factors. *)
Theorem no_artifact_results {fmt : format} (ty : Predict.scalar)
    (d : PredictUltimate.disk) (f : gmap string pyval) :
  Spec.registry_state d = Spec.NoTier ->
  PredictUltimate.predict_full d f = Ok Spec.no_model_result
  /\ PredictUltimate.predict_rug_score d f = Ok (50, "UNKNOWN", fin 0.5)
  /\ Predict.load_model Missing = Ok None
  /\ Predict.predict_rug_score None f = Predict.fallback_scoring f
  /\ (Spec.well_typed f = true -> Spec.float_sized f = true ->
      Predict.predict_rug_score None f =
        Ok (Spec.fallback_score f, Spec.band4 (Spec.fallback_score f),
            Spec.rug_prob_of (Spec.fallback_score f))
      /\ Predict.cli ty None f =
           Ok {| Predict.out_score := Spec.fallback_score f;
                 Predict.out_level := Spec.band4 (Spec.fallback_score f);
                 Predict.rugProbability :=
                   Spec.rug_prob_of (Spec.fallback_score f);
                 Predict.riskFactors :=
                   Spec.risk_factors_of (Spec.basic_rules f) |}).
Proof.
  intros H. apply no_tier_no_ensemble in H.
  unfold PredictUltimate.predict_full, PredictUltimate.predict_rug_score.
  rewrite H. repeat split.
  - now apply fallback_scoring_well_typed.
  - unfold Predict.cli. cbn [Predict.predict_rug_score].
    rewrite fallback_scoring_well_typed by assumption.
    cbn [mbind result_bind]. now rewrite get_risk_factors_rules.
Qed.

(** Nothing under [models/], the clean sample. *)
Lemma no_artifact_results_witness :
  Spec.registry_state Sample.empty_disk = Spec.NoTier
  /\ PredictUltimate.predict_full (fmt := binary64) Sample.empty_disk
       Sample.clean
     = Ok Spec.no_model_result
  /\ Predict.predict_rug_score (fmt := binary64) None Sample.clean
     = Ok (100, "LOW", fin 0).
Proof.
  split; [reflexivity |].
  destruct (no_artifact_results (fmt := binary64) Predict.np_float64
              Sample.empty_disk Sample.clean eq_refl)
    as (H1 & _ & _ & _ & H2).
  split; [exact H1 |].
  destruct (H2 eq_refl eq_refl) as [-> _]. vm_compute. reflexivity.
Defined.

(** * The stacking loop *)

Import TrainUltimate.

Section SelectFacts.
Context {A : Type}.
Implicit Types (X : list A) (idx : list nat).

Lemma take_rows_inv X idx l :
  take_rows X idx = Ok l ->
  l = Folds.select X idx /\ Forall (fun i => (i < length X)%nat) idx.
Proof.
  revert l. induction idx as [| i idx IH]; intros l H.
  - inv_Ok H. split; [reflexivity | constructor].
  - unfold take_rows in H. cbn [mapM] in H. inv_bind H.
    destruct (X !! i) as [r |] eqn:Hi; [| discriminate E]. inv_Ok E.
    inv_bind H. inv_Ok H. destruct (IH _ E) as [-> Hall].
    split.
    + unfold Folds.select. cbn [omap list_omap]. now rewrite Hi.
    + constructor; [eapply lookup_lt_Some; eassumption | exact Hall].
Qed.

Lemma take_rows_ok X idx :
  Forall (fun i => (i < length X)%nat) idx ->
  take_rows X idx = Ok (Folds.select X idx).
Proof.
  induction 1 as [| i idx Hi _ IH]; [reflexivity |].
  unfold take_rows in *. cbn [mapM].
  destruct (lookup_lt_is_Some_2 X i Hi) as [r Hr].
  unfold Folds.select. cbn [omap list_omap]. rewrite Hr.
  cbn [mbind result_bind]. rewrite IH. reflexivity.
Qed.

Lemma select_lookup X idx :
  Forall (fun i => (i < length X)%nat) idx ->
  Forall2 (fun i r => X !! i = Some r) idx (Folds.select X idx).
Proof.
  induction 1 as [| i idx Hi _ IH]; [constructor |].
  destruct (lookup_lt_is_Some_2 X i Hi) as [r Hr].
  unfold Folds.select. cbn [omap list_omap]. rewrite Hr.
  constructor; assumption.
Qed.

End SelectFacts.

Section AssignFacts.
Implicit Types (M : list (list num)) (idx : list nat) (vals : list num).

Lemma assign_col_cons M i idx j v vals :
  assign_col M (i :: idx) j (v :: vals)
  = assign_col (alter (fun r => <[j := v]> r) i M) idx j vals.
Proof. reflexivity. Qed.

Lemma assign_col_length M idx j vals :
  length (assign_col M idx j vals) = length M.
Proof.
  revert M vals. induction idx as [| i idx IH]; intros M [| v vals];
    try reflexivity.
  rewrite assign_col_cons, IH. apply length_alter.
Qed.

Lemma assign_col_widths M idx j vals (w : nat) :
  Forall (fun r => length r = w) M ->
  Forall (fun r => length r = w) (assign_col M idx j vals).
Proof.
  revert M vals. induction idx as [| i idx IH]; intros M [| v vals] HM;
    try exact HM.
  rewrite assign_col_cons. apply IH. apply Forall_alter; [exact HM |].
  intros r _ Hr. now rewrite length_insert.
Qed.

Lemma assign_col_other M idx j vals (i : nat) :
  i ∉ idx -> assign_col M idx j vals !! i = M !! i.
Proof.
  revert M vals. induction idx as [| a idx IH]; intros M [| v vals] Hi;
    try reflexivity.
  rewrite assign_col_cons, IH by set_solver.
  apply list_lookup_alter_ne. set_solver.
Qed.

(** A row that the assignment reaches holds, in column [j], the value
    computed for that row. *)
Lemma assign_col_hit M idx j vals (g : nat -> num) (i : nat) :
  Forall2 (fun a v => v = g a) idx vals ->
  i ∈ idx ->
  assign_col M idx j vals !! i = (fun r => <[j := g i]> r) <$> M !! i.
Proof.
  intros H. revert M. induction H as [| a v idx vals -> _ IH]; intros M Hi.
  - set_solver.
  - rewrite assign_col_cons. destruct (decide (i ∈ idx)) as [Hin | Hout].
    + rewrite (IH _ Hin). destruct (decide (a = i)) as [-> | Hne].
      * rewrite list_lookup_alter_eq. destruct (M !! i); simpl; [| done].
        now rewrite list_insert_insert_eq.
      * now rewrite list_lookup_alter_ne.
    + apply elem_of_cons in Hi as [-> | Hin]; [| contradiction].
      rewrite assign_col_other by exact Hout.
      now rewrite list_lookup_alter_eq.
Qed.

End AssignFacts.

Section StackingFacts.

Context {fitted combiner : Type}.
Variable fit : string -> list row -> list Z -> fitted.
Variable proba : fitted -> row -> num.
Variable train_swiglu_net : list row -> list Z -> list row -> list Z -> fitted.
Variable fit_meta : list (list num) -> list Z -> combiner.
Variable X : list row.
Variable y : list Z.

Abbreviation vars := (@vars fitted).
Abbreviation estimator := (@estimator fitted).
Abbreviation split := (list nat * list nat)%type.

Abbreviation fitted_tree := (Folds.fitted_tree fit X y).
Abbreviation fitted_nn := (Folds.fitted_nn train_swiglu_net X y).
Abbreviation fold_models := (Folds.fold_models fit train_swiglu_net X y).
Abbreviation oof_row := (Folds.oof_row fit proba train_swiglu_net X y).
Abbreviation after_fold := (Folds.after_fold fit proba train_swiglu_net X y).
Abbreviation trees := Folds.trees.
Abbreviation in_range := (Folds.in_range X).
Abbreviation well_shaped := (Folds.well_shaped X).
Abbreviation inv := (@Folds.inv fitted).
Abbreviation inv_base := (@Folds.inv_base fitted).
Abbreviation inv_kind := (@Folds.inv_kind fitted).
Abbreviation inv_lists := (@Folds.inv_lists fitted).

Lemma train_base_ok name l j Xt yt Xv va (v : vars) st0 :
  base_models v !! name = Some l ->
  heap v !! l = Some {| kind := name; state := st0 |} ->
  train_base fit proba name j Xt yt Xv va v =
    Ok {| heap := <[l := {| kind := name;
                            state := Some (fit name Xt yt) |}]> (heap v);
          base_models := base_models v;
          meta_features :=
            assign_col (meta_features v) va j (proba (fit name Xt yt) <$> Xv);
          meta_models := meta_models v;
          writes := writes v ++ ((fun i => (i, j)) <$> va) |}.
Proof.
  intros Hb Hh. unfold train_base, fit_at, predict_at.
  rewrite Hb. cbn [lookup_or mbind result_bind]. rewrite Hh.
  cbn [lookup_or mbind result_bind kind]. rewrite lookup_insert_eq.
  reflexivity.
Qed.

Lemma append_model_ok name l ls (v : vars) :
  meta_models v !! name = Some ls ->
  append_model name l v =
    Ok {| heap := heap v; base_models := base_models v;
          meta_features := meta_features v;
          meta_models := <[name := ls ++ [l]]> (meta_models v);
          writes := writes v |}.
Proof. intros H. unfold append_model. now rewrite H. Qed.

Hypothesis Hlen : length y = length X.

Lemma tree_xgb : ("xgb", 0%nat) ∈ trees.
Proof. unfold trees. rewrite !elem_of_cons. tauto. Qed.

Lemma tree_lgb : ("lgb", 1%nat) ∈ trees.
Proof. unfold trees. rewrite !elem_of_cons. tauto. Qed.

Lemma tree_cat : ("cat", 2%nat) ∈ trees.
Proof. unfold trees. rewrite !elem_of_cons. tauto. Qed.

Lemma tree_base (v : vars) name l :
  inv v -> (name, l) ∈ trees -> base_models v !! name = Some l.
Proof.
  intros Hv Hin. rewrite (inv_base v Hv). unfold trees in Hin.
  repeat (apply elem_of_cons in Hin as [Hin | Hin];
          [injection Hin as -> ->; reflexivity |]).
  now apply elem_of_nil in Hin.
Qed.

(** One pass of the loop body, in full. *)
Lemma fold_body_ok (v : vars) (s : split) :
  inv v -> in_range s ->
  exists v',
    fold_body fit proba train_swiglu_net X y v s = Ok v'
    /\ inv v'
    /\ meta_features v' = after_fold (meta_features v) s
    /\ writes v' = writes v ++ Folds.cells s
    /\ (forall name l, (name, l) ∈ trees ->
          heap v' !! l
          = Some {| kind := name; state := Some (fitted_tree name s) |}
          /\ forall ls, meta_models v !! name = Some ls ->
                        meta_models v' !! name = Some (ls ++ [l]))
    /\ (exists l, heap v !! l = None
          /\ heap v' !! l
             = Some {| kind := "nn"; state := Some (fitted_nn s) |}
          /\ forall ls, meta_models v !! "nn" = Some ls ->
                        meta_models v' !! "nn" = Some (ls ++ [l]))
    /\ (forall l e, heap v !! l = Some e -> (2 < l)%nat ->
          heap v' !! l = Some e).
Proof.
  intros Hv [Htr Hva]. destruct s as [tr va]. cbn [fst snd] in *.
  assert (Htr' : Forall (fun i => (i < length y)%nat) tr) by now rewrite Hlen.
  assert (Hva' : Forall (fun i => (i < length y)%nat) va) by now rewrite Hlen.
  destruct (inv_kind v Hv "xgb" 0%nat tree_xgb) as [s0 H0].
  destruct (inv_kind v Hv "lgb" 1%nat tree_lgb) as [s1 H1].
  destruct (inv_kind v Hv "cat" 2%nat tree_cat) as [s2 H2].
  destruct (inv_lists v Hv "xgb" ltac:(rewrite !elem_of_cons; tauto)) as (lx & Hlx & Fx).
  destruct (inv_lists v Hv "lgb" ltac:(rewrite !elem_of_cons; tauto)) as (ll & Hll & Fl).
  destruct (inv_lists v Hv "cat" ltac:(rewrite !elem_of_cons; tauto)) as (lc & Hlc & Fc).
  destruct (inv_lists v Hv "nn" ltac:(rewrite !elem_of_cons; tauto)) as (ln & Hln & Fn).
  pose proof (tree_base v "xgb" 0%nat Hv tree_xgb) as B0.
  pose proof (tree_base v "lgb" 1%nat Hv tree_lgb) as B1.
  pose proof (tree_base v "cat" 2%nat Hv tree_cat) as B2.
  eexists. split.
  { unfold fold_body.
    rewrite !take_rows_ok by assumption. cbn [mbind result_bind].
    erewrite train_base_ok by eassumption. cbn [mbind result_bind].
    erewrite train_base_ok;
      [| exact B1 | cbn [heap]; rewrite lookup_insert_ne by done; exact H1].
    cbn [mbind result_bind].
    erewrite train_base_ok;
      [| exact B2
       | cbn [heap]; rewrite !lookup_insert_ne by done; exact H2].
    cbn [mbind result_bind].
    unfold train_nn, predict_at. cbn [heap]. rewrite lookup_insert_eq.
    cbn [lookup_or mbind result_bind state base_models meta_features
         meta_models writes heap].
    unfold save_base. cbn [base_models]. rewrite B0.
    cbn [lookup_or mbind result_bind].
    erewrite append_model_ok by (cbn [meta_models]; exact Hlx).
    cbn [mbind result_bind base_models]. rewrite B1.
    cbn [lookup_or mbind result_bind].
    erewrite append_model_ok
      by (cbn [meta_models]; rewrite lookup_insert_ne by done; exact Hll).
    cbn [mbind result_bind base_models]. rewrite B2.
    cbn [lookup_or mbind result_bind].
    erewrite append_model_ok
      by (cbn [meta_models]; rewrite !lookup_insert_ne by done; exact Hlc).
    cbn [mbind result_bind].
    erewrite append_model_ok
      by (cbn [meta_models]; rewrite !lookup_insert_ne by done; exact Hln).
    reflexivity. }
  cbn [heap base_models meta_features meta_models writes].
  set (h3 := <[2%nat := _]> (<[1%nat := _]> (<[0%nat := _]> (heap v)))).
  set (nl := fresh (dom h3)).
  assert (Hfresh : h3 !! nl = None).
  { apply not_elem_of_dom. apply is_fresh. }
  assert (Hnl : heap v !! nl = None
                /\ nl <> 0%nat /\ nl <> 1%nat /\ nl <> 2%nat).
  { subst h3. repeat split.
    - destruct (decide (nl = 2%nat)) as [E | N2];
        [rewrite E in Hfresh; now rewrite lookup_insert_eq in Hfresh |].
      rewrite lookup_insert_ne in Hfresh by done.
      destruct (decide (nl = 1%nat)) as [E | N1];
        [rewrite E in Hfresh; now rewrite lookup_insert_eq in Hfresh |].
      rewrite lookup_insert_ne in Hfresh by done.
      destruct (decide (nl = 0%nat)) as [E | N0];
        [rewrite E in Hfresh; now rewrite lookup_insert_eq in Hfresh |].
      now rewrite lookup_insert_ne in Hfresh by done.
    - intros E. rewrite E in Hfresh.
      rewrite !lookup_insert_ne, lookup_insert_eq in Hfresh by done.
      discriminate.
    - intros E. rewrite E in Hfresh.
      rewrite lookup_insert_ne, lookup_insert_eq in Hfresh by done.
      discriminate.
    - intros E. rewrite E in Hfresh.
      rewrite lookup_insert_eq in Hfresh. discriminate. }
  destruct Hnl as (Hnone & N0 & N1 & N2).
  assert (Hgrow : forall l,
            is_Some (heap v !! l) ->
            is_Some (<[nl := {| kind := "nn";
                                state := Some (fitted_nn (tr, va)) |}]> h3
                     !! l)).
  { intros l Hl. rewrite lookup_insert_is_Some.
    destruct (decide (nl = l)); [now left | right; split; [done |]].
    subst h3. rewrite !lookup_insert_is_Some'. tauto. }
  split; [| split; [| split; [| split; [| split]]]].
  - constructor; cbn [heap base_models meta_models].
    + apply (inv_base v Hv).
    + intros name l Hin. unfold trees in Hin. subst h3.
      repeat (apply elem_of_cons in Hin as [Hin | Hin];
              [injection Hin as -> ->;
               rewrite ?lookup_insert_eq, ?lookup_insert_ne by done;
               rewrite ?lookup_insert_eq; eauto |]).
      now apply elem_of_nil in Hin.
    + intros name Hin.
      assert (Hcase : name = "xgb" \/ name = "lgb" \/ name = "cat"
                      \/ name = "nn").
      { revert Hin. rewrite !elem_of_cons, elem_of_nil. tauto. }
      destruct Hcase as [-> | [-> | [-> | ->]]];
        rewrite ?lookup_insert_eq, ?lookup_insert_ne by done;
        rewrite ?lookup_insert_eq;
        (eexists; split; [reflexivity |]); apply Forall_app;
        (split; [eapply Forall_impl; [eassumption | exact Hgrow] |]);
        (constructor; [| constructor]).
      * apply Hgrow. eauto.
      * apply Hgrow. eauto.
      * apply Hgrow. eauto.
      * rewrite lookup_insert_eq. eauto.
  - reflexivity.
  - unfold Folds.cells. cbn [mbind list_bind fmap snd]. 
    rewrite <- !app_assoc. simpl. now rewrite app_nil_r.
  - intros name l Hin. unfold trees in Hin.
    repeat (apply elem_of_cons in Hin as [Hin | Hin];
            [injection Hin as -> ->; split;
             [rewrite lookup_insert_ne by done; subst h3;
              rewrite ?lookup_insert_eq, ?lookup_insert_ne by done;
              rewrite ?lookup_insert_eq; reflexivity
             | intros ls Hls;
               rewrite ?lookup_insert_eq, ?lookup_insert_ne by done;
               rewrite ?lookup_insert_eq; congruence ] |]).
    now apply elem_of_nil in Hin.
  - exists nl. split; [exact Hnone |]. split; [apply lookup_insert_eq |].
    intros ls Hls. rewrite lookup_insert_eq. congruence.
  - intros l e Hl Hgt. 
    destruct (decide (nl = l)) as [<- | Hne]; [congruence |].
    rewrite lookup_insert_ne by done. subst h3.
    rewrite !lookup_insert_ne by lia. exact Hl.
Qed.

Lemma after_fold_shaped M s : well_shaped M -> well_shaped (after_fold M s).
Proof.
  intros [HL HW]. unfold after_fold. split.
  - now rewrite !assign_col_length.
  - now do 4 apply assign_col_widths.
Qed.

Lemma after_fold_other M s (i : nat) :
  i ∉ s.2 -> after_fold M s !! i = M !! i.
Proof. intros Hi. unfold after_fold. now rewrite !assign_col_other. Qed.

Lemma predictions_pointwise (st : fitted) (idx : list nat) :
  Forall (fun i => (i < length X)%nat) idx ->
  Forall2
    (fun a v => v = match X !! a with
                    | Some x => proba st x
                    | None => of_Z 0
                    end)
    idx (proba st <$> Folds.select X idx).
Proof.
  intros H. apply Forall2_fmap_r.
  eapply Forall2_impl; [apply select_lookup, H |].
  intros a r Hr. cbn beta. now rewrite Hr.
Qed.

Lemma after_fold_hit M s (i : nat) (x : row) :
  well_shaped M -> in_range s -> i ∈ s.2 -> X !! i = Some x ->
  after_fold M s !! i = Some (oof_row s x).
Proof.
  intros [HL HW] [_ Hva] Hi Hx. unfold after_fold. cbn zeta.
  rewrite !(assign_col_hit _ _ _ _ _ i (predictions_pointwise _ _ Hva) Hi).
  rewrite Hx.
  destruct (lookup_lt_is_Some_2 M i) as [r Hr];
    [rewrite HL; eapply lookup_lt_Some; eassumption |].
  rewrite Hr. cbn [fmap option_fmap option_map].
  rewrite Forall_lookup in HW. specialize (HW i r Hr).
  destruct r as [| a [| b [| c [| d [| e r]]]]]; try discriminate HW.
  reflexivity.
Qed.

Lemma foldl_after_fold_shaped splits M :
  well_shaped M -> well_shaped (foldl after_fold M splits).
Proof.
  revert M. induction splits as [| s splits IH]; intros M HM; [exact HM |].
  cbn [foldl]. apply IH. now apply after_fold_shaped.
Qed.

Lemma foldl_after_fold_other splits M (i : nat) :
  i ∉ mjoin splits.*2 -> foldl after_fold M splits !! i = M !! i.
Proof.
  revert M. induction splits as [| s splits IH]; intros M Hi; [reflexivity |].
  cbn [foldl]. cbn in Hi. rewrite not_elem_of_app in Hi. destruct Hi.
  rewrite IH by assumption. now apply after_fold_other.
Qed.

(** Out-of-fold: after all folds, the row of [i] holds the predictions of
    the models of the one fold that held [i] out. *)
Lemma foldl_after_fold_hit splits M s (i : nat) (x : row) :
  NoDup (mjoin splits.*2) -> Forall in_range splits -> well_shaped M ->
  s ∈ splits -> i ∈ s.2 -> X !! i = Some x ->
  foldl after_fold M splits !! i = Some (oof_row s x).
Proof.
  revert M. induction splits as [| s0 splits IH];
    intros M Hnd Hr HM Hs Hi Hx; [now apply elem_of_nil in Hs |].
  cbn in Hnd. apply NoDup_app in Hnd as (_ & Hdisj & Hnd).
  apply Forall_cons in Hr as [Hr0 Hr].
  cbn [foldl]. apply elem_of_cons in Hs as [-> | Hs].
  - rewrite foldl_after_fold_other by (apply Hdisj, Hi).
    now apply after_fold_hit.
  - apply IH; try assumption. now apply after_fold_shaped.
Qed.

(** The loop, in full. *)
Lemma run_folds_ok splits (v : vars) :
  inv v -> Forall in_range splits ->
  exists v',
    run_folds fit proba train_swiglu_net X y v splits = Ok v'
    /\ inv v'
    /\ meta_features v' = foldl after_fold (meta_features v) splits
    /\ writes v' = writes v ++ (splits ≫= Folds.cells)
    /\ (forall name l, (name, l) ∈ trees ->
          heap v' !! l
          = match last splits with
            | Some s =>
                Some {| kind := name; state := Some (fitted_tree name s) |}
            | None => heap v !! l
            end
          /\ forall ls, meta_models v !! name = Some ls ->
               meta_models v' !! name
               = Some (ls ++ replicate (length splits) l))
    /\ (forall ls, meta_models v !! "nn" = Some ls ->
          exists nls,
            meta_models v' !! "nn" = Some (ls ++ nls)
            /\ Forall2
                 (fun l s =>
                    heap v' !! l
                    = Some {| kind := "nn"; state := Some (fitted_nn s) |})
                 nls splits)
    /\ (forall l e, heap v !! l = Some e -> (2 < l)%nat ->
          heap v' !! l = Some e).
Proof.
  revert v. induction splits as [| s splits IH]; intros v Hv Hr.
  - exists v. split; [reflexivity |]. split; [exact Hv |].
    split; [reflexivity |]. split; [cbn; now rewrite app_nil_r |].
    split; [| split].
    + intros name l _. split; [reflexivity |].
      intros ls Hls. cbn. now rewrite app_nil_r.
    + intros ls Hls. exists []. rewrite app_nil_r. split; [exact Hls |].
      constructor.
    + auto.
  - apply Forall_cons in Hr as [Hs Hr].
    destruct (fold_body_ok v s Hv Hs)
      as (v1 & E1 & Hv1 & M1 & W1 & T1 & (nl & Hnl & Hnn & Lnn) & G1).
    destruct (IH v1 Hv1 Hr) as (v' & E' & Hv' & M' & W' & T' & N' & G').
    exists v'. split; [cbn [run_folds]; rewrite E1; exact E' |].
    split; [exact Hv' |].
    split; [rewrite M', M1; reflexivity |].
    split; [rewrite W', W1, <- app_assoc; reflexivity |].
    split; [| split].
    + intros name l Hin. destruct (T1 name l Hin) as [H1 L1].
      destruct (T' name l Hin) as [H' L']. split.
      * rewrite H'. rewrite last_cons. destruct (last splits); [reflexivity |].
        exact H1.
      * intros ls Hls. rewrite (L' _ (L1 _ Hls)). cbn [length replicate].
        now rewrite <- app_assoc.
    + intros ls Hls. destruct (N' _ (Lnn _ Hls)) as (nls & Hm & Hf).
      exists (nl :: nls). split; [rewrite Hm, <- app_assoc; reflexivity |].
      constructor; [| exact Hf]. apply G'; [exact Hnn |].
      destruct (inv_kind v Hv "xgb" 0%nat tree_xgb) as [? ?].
      destruct (inv_kind v Hv "lgb" 1%nat tree_lgb) as [? ?].
      destruct (inv_kind v Hv "cat" 2%nat tree_cat) as [? ?].
      destruct nl as [| [| [| nl]]]; [congruence .. | lia].
    + intros l e Hl Hgt. apply G'; [| exact Hgt]. now apply G1.
Qed.

Lemma inv_init : inv (init_vars X).
Proof.
  constructor.
  - reflexivity.
  - intros name l Hin. unfold Folds.trees in Hin.
    repeat (apply elem_of_cons in Hin as [Hin | Hin];
            [injection Hin as -> ->; eexists; reflexivity |]).
    now apply elem_of_nil in Hin.
  - intros name Hin.
    repeat (apply elem_of_cons in Hin as [-> | Hin];
            [exists []; split; [reflexivity | constructor] |]).
    now apply elem_of_nil in Hin.
Qed.

Lemma well_shaped_init :
  well_shaped (meta_features (@init_vars fitted X)).
Proof.
  split; cbn [meta_features init_vars].
  - apply length_replicate.
  - apply Forall_replicate. reflexivity.
Qed.

Lemma dump_models_ok (h : gmap nat estimator) refs es :
  Forall2 (fun l e => h !! l = Some e) refs es ->
  dump_models h refs = Ok es.
Proof.
  induction 1 as [| l e refs es Hl _ IH]; [reflexivity |].
  unfold dump_models in *. cbn [mapM]. rewrite Hl.
  cbn [lookup_or mbind result_bind]. now rewrite IH.
Qed.

Lemma dump_models_replicate (h : gmap nat estimator) l e (k : nat) :
  h !! l = Some e -> dump_models h (replicate k l) = Ok (replicate k e).
Proof.
  intros Hl. apply dump_models_ok. induction k; constructor; assumption.
Qed.

Abbreviation last_fitted := (Folds.last_fitted fit X y).

(** Steps 4 to 7 of [main] return, and this is what they write. *)
Lemma stacking_ok splits :
  Forall in_range splits ->
  exists art,
    stacking fit proba train_swiglu_net fit_meta X y splits = Ok art
    /\ final_meta_features art
       = foldl after_fold (replicate (length X) (replicate 4 (of_Z 0))) splits
    /\ final_writes art = splits ≫= Folds.cells
    /\ meta_learner_pkl art = fit_meta (final_meta_features art) y
    /\ (forall name l, (name, l) ∈ trees ->
          fold_models_pkl art !! name
          = Some (replicate (length splits) (last_fitted name splits)))
    /\ fold_models_pkl art !! "nn"
       = Some ((fun s => {| kind := "nn"; state := Some (fitted_nn s) |})
                 <$> splits).
Proof.
  intros Hr.
  destruct (run_folds_ok splits (init_vars X) inv_init Hr)
    as (v & E & Hv & HM & HW & HT & HN & _).
  destruct (HT "xgb" 0%nat tree_xgb) as [Hx Lx].
  destruct (HT "lgb" 1%nat tree_lgb) as [Hl Ll].
  destruct (HT "cat" 2%nat tree_cat) as [Hc Lc].
  specialize (Lx [] eq_refl). specialize (Ll [] eq_refl).
  specialize (Lc [] eq_refl).
  destruct (HN [] eq_refl) as (nls & Ln & Fn).
  assert (Dx : dump_models (heap v) (replicate (length splits) 0%nat)
               = Ok (replicate (length splits) (last_fitted "xgb" splits))).
  { apply dump_models_replicate. rewrite Hx. unfold Folds.last_fitted.
    now destruct (last splits). }
  assert (Dl : dump_models (heap v) (replicate (length splits) 1%nat)
               = Ok (replicate (length splits) (last_fitted "lgb" splits))).
  { apply dump_models_replicate. rewrite Hl. unfold Folds.last_fitted.
    now destruct (last splits). }
  assert (Dc : dump_models (heap v) (replicate (length splits) 2%nat)
               = Ok (replicate (length splits) (last_fitted "cat" splits))).
  { apply dump_models_replicate. rewrite Hc. unfold Folds.last_fitted.
    now destruct (last splits). }
  assert (Dn : dump_models (heap v) nls
               = Ok ((fun s => {| kind := "nn"; state := Some (fitted_nn s) |})
                       <$> splits)).
  { apply dump_models_ok. apply Forall2_fmap_r.
    eapply Forall2_impl; [exact Fn |]. auto. }
  eexists. split.
  { unfold stacking. rewrite E. cbn [mbind result_bind].
    rewrite Lx, Ll, Lc, Ln. cbn [lookup_or mbind result_bind app].
    rewrite Dx, Dl, Dc, Dn. cbn [mbind result_bind]. reflexivity. }
  cbn [final_meta_features final_writes meta_learner_pkl fold_models_pkl].
  split; [exact HM |]. split; [rewrite HW; reflexivity |].
  split; [reflexivity |]. split; [| reflexivity].
  intros name l Hin. unfold Folds.trees in Hin.
  repeat (apply elem_of_cons in Hin as [Hin | Hin];
          [injection Hin as -> ->; reflexivity |]).
  now apply elem_of_nil in Hin.
Qed.

End StackingFacts.

(** * Folds as a partition *)

Section FoldFacts.
Implicit Types (splits : list (list nat * list nat)) (i j : nat).

Lemma no_fold_holds splits i :
  i ∉ mjoin splits.*2 -> filter (fun s => i ∈ s.2) splits = [].
Proof.
  induction splits as [| s splits IH]; [reflexivity |]. intros Hi.
  change (mjoin (s :: splits).*2) with (s.2 ++ mjoin splits.*2) in Hi.
  apply not_elem_of_app in Hi as [Hs Hrest].
  rewrite filter_cons_False by exact Hs. now apply IH.
Qed.

(** Every row of the validation sets is held out by exactly one fold. *)
Lemma one_fold_holds splits i :
  NoDup (mjoin splits.*2) -> i ∈ mjoin splits.*2 ->
  length (filter (fun s => i ∈ s.2) splits) = 1%nat.
Proof.
  induction splits as [| s splits IH]; intros Hnd Hi.
  - now apply elem_of_nil in Hi.
  - change (mjoin (s :: splits).*2) with (s.2 ++ mjoin splits.*2) in *.
    apply NoDup_app in Hnd as (_ & Hdisj & Hnd).
    destruct (decide (i ∈ s.2)) as [Hs | Hs].
    + rewrite filter_cons_True by exact Hs.
      rewrite no_fold_holds by (apply Hdisj, Hs). reflexivity.
    + rewrite filter_cons_False by exact Hs. apply IH; [exact Hnd |].
      apply elem_of_app in Hi as [Hi | Hi]; [contradiction | exact Hi].
Qed.

Lemma elem_of_cells (s : list nat * list nat) i j :
  (i, j) ∈ Folds.cells s <-> i ∈ s.2 /\ (j < 4)%nat.
Proof.
  unfold Folds.cells. rewrite list_elem_of_bind. split.
  - intros (j' & Hij & Hj'). apply list_elem_of_fmap in Hij as (i' & E & Hi').
    injection E as -> ->. split; [exact Hi' |].
    rewrite !elem_of_cons, elem_of_nil in Hj'. lia.
  - intros [Hi Hj]. exists j. split.
    + apply list_elem_of_fmap. eauto.
    + rewrite !elem_of_cons, elem_of_nil. lia.
Qed.

Lemma elem_of_all_cells splits i j :
  (i, j) ∈ splits ≫= Folds.cells <-> i ∈ mjoin splits.*2 /\ (j < 4)%nat.
Proof.
  rewrite list_elem_of_bind. split.
  - intros (s & Hc & Hs). apply elem_of_cells in Hc as [Hi Hj].
    split; [| exact Hj]. apply list_elem_of_join. exists s.2.
    split; [exact Hi |]. apply list_elem_of_fmap. eauto.
  - intros [Hi Hj]. apply list_elem_of_join in Hi as (va & Hi & Hva).
    apply list_elem_of_fmap in Hva as (s & -> & Hs).
    exists s. split; [| exact Hs]. now apply elem_of_cells.
Qed.

Lemma NoDup_cells (s : list nat * list nat) :
  NoDup s.2 -> NoDup (Folds.cells s).
Proof.
  intros Hnd. unfold Folds.cells. apply NoDup_bind.
  - intros j1 j2 [i j] _ _ H1 H2.
    apply list_elem_of_fmap in H1 as (? & E1 & _).
    apply list_elem_of_fmap in H2 as (? & E2 & _). congruence.
  - intros j _. apply NoDup_fmap_2; [| exact Hnd].
    intros a b E. congruence.
  - repeat constructor; rewrite ?elem_of_cons, ?elem_of_nil; lia.
Qed.

(** No cell is assigned twice. *)
Lemma NoDup_all_cells splits :
  NoDup (mjoin splits.*2) -> NoDup (splits ≫= Folds.cells).
Proof.
  induction splits as [| s splits IH]; intros Hnd; [constructor |].
  change (mjoin (s :: splits).*2) with (s.2 ++ mjoin splits.*2) in Hnd.
  change ((s :: splits) ≫= Folds.cells)
    with (Folds.cells s ++ (splits ≫= Folds.cells)).
  apply NoDup_app in Hnd as (Hs & Hdisj & Hnd).
  apply NoDup_app. split; [now apply NoDup_cells |]. split; [| now apply IH].
  intros [i j] Hc Hrest. apply elem_of_cells in Hc as [Hi _].
  apply elem_of_all_cells in Hrest as [Hi' _]. exact (Hdisj i Hi Hi').
Qed.

Lemma kfold_in_range {A} (X : list A) (k : nat) splits :
  Folds.kfold k (length X) splits ->
  Forall
    (fun s => Forall (fun i => (i < length X)%nat) s.1
              /\ Forall (fun i => (i < length X)%nat) s.2)
    splits.
Proof.
  intros (_ & _ & _ & Hlt & Htr).
  rewrite Forall_forall in Htr. apply Forall_forall. intros s Hs. split.
  - rewrite (Htr s Hs). apply Forall_forall. intros i Hi.
    apply list_elem_of_filter in Hi as [_ Hi].
    apply elem_of_seq in Hi. lia.
  - rewrite Forall_forall in Hlt. apply Forall_forall. intros i Hi.
    apply Hlt. apply list_elem_of_join. exists s.2. split; [exact Hi |].
    apply list_elem_of_fmap. eauto.
Qed.

End FoldFacts.

(** * Out-of-fold meta-features *)

(** C6: when the five folds partition the row indices as scikit-learn's
    splitter promises, every row index lies in exactly one fold's
    validation set, the stacking step returns, every cell of the
    meta-feature matrix is assigned exactly once, and the row of each
    held-out index holds the probabilities predicted by the four models
    of its own fold, whose training indices do not contain it. *)
Theorem out_of_fold_matrix {fitted combiner : Type}
    (fit : string -> list row -> list Z -> fitted)
    (proba : fitted -> row -> num)
    (train_swiglu_net : list row -> list Z -> list row -> list Z -> fitted)
    (fit_meta : list (list num) -> list Z -> combiner)
    (X : list row) (y : list Z) (splits : list (list nat * list nat)) :
  length y = length X ->
  Folds.kfold 5 (length X) splits ->
  (forall i, (i < length X)%nat ->
     length (filter (fun s => i ∈ s.2) splits) = 1%nat)
  /\ exists art,
       stacking fit proba train_swiglu_net fit_meta X y splits = Ok art
       /\ NoDup (final_writes art)
       /\ (forall i j, ((i, j) ∈ final_writes art)
                       <-> (i < length X)%nat /\ (j < 4)%nat)
       /\ (forall s i x, s ∈ splits -> i ∈ s.2 -> X !! i = Some x ->
             (i ∉ s.1)
             /\ final_meta_features art !! i
                = Some (Folds.oof_row fit proba train_swiglu_net X y s x)).
Proof.
  intros Hlen Hk. pose proof (kfold_in_range X 5 splits Hk) as Hr.
  destruct Hk as (_ & Hnd & Hall & Hlt & Htr).
  assert (Hmem : forall i, i ∈ mjoin splits.*2 <-> (i < length X)%nat).
  { intros i. split.
    - intros Hi. rewrite Forall_forall in Hlt. now apply Hlt.
    - intros Hi. rewrite Forall_forall in Hall. apply Hall.
      apply elem_of_seq. lia. }
  split.
  { intros i Hi. apply one_fold_holds; [exact Hnd | now apply Hmem]. }
  destruct (stacking_ok fit proba train_swiglu_net fit_meta X y Hlen splits Hr)
    as (art & E & HM & HW & _).
  exists art. split; [exact E |]. rewrite HW, HM.
  split; [now apply NoDup_all_cells |]. split.
  { intros i j. rewrite elem_of_all_cells, Hmem. reflexivity. }
  intros s i x Hs Hi Hx. split.
  - rewrite Forall_forall in Htr. rewrite (Htr s Hs).
    intros Hin. apply list_elem_of_filter in Hin as [Hout _]. contradiction.
  - apply foldl_after_fold_hit; try assumption.
    split; [apply length_replicate | apply Forall_replicate; reflexivity].
Qed.

(** The ten-token run: fold 2 holds out rows 2 and 7; the stumps fitted
    on the other eight rows have threshold 7, so row 7 gets four ones. *)
Lemma out_of_fold_matrix_witness :
  length Toy.y = length Toy.X
  /\ Folds.kfold 5 (length Toy.X) Toy.splits
  /\ exists art,
       stacking Toy.fit Toy.proba Toy.train_swiglu_net Toy.fit_meta
         Toy.X Toy.y Toy.splits = Ok art
       /\ NoDup (final_writes art)
       /\ length (final_writes art) = 40%nat
       /\ final_meta_features art !! 7%nat
          = Some [of_Z 1; of_Z 1; of_Z 1; of_Z 1].
Proof.
  assert (Hlen : length Toy.y = length Toy.X) by reflexivity.
  assert (Hk : Folds.kfold 5 (length Toy.X) Toy.splits).
  { apply (bool_decide_unpack _). vm_compute. exact I. }
  split; [exact Hlen |]. split; [exact Hk |].
  destruct (out_of_fold_matrix Toy.fit Toy.proba Toy.train_swiglu_net
              Toy.fit_meta Toy.X Toy.y Toy.splits Hlen Hk)
    as (_ & art & E & Hnd & Hcells & Hrow).
  exists art. split; [exact E |]. split; [exact Hnd |]. split.
  - vm_compute in E. injection E as <-. reflexivity.
  - destruct (Hrow ([0; 1; 3; 4; 5; 6; 8; 9], [2; 7])%nat 7%nat
                (Toy.X !!! 7%nat))
      as [_ ->]; [| | reflexivity | reflexivity].
    + apply list_elem_of_lookup. exists 2%nat. reflexivity.
    + apply list_elem_of_lookup. exists 1%nat. reflexivity.
Defined.

(** * What training persists *)

(** Serving, stacked tier: each learner type's meta-feature is the mean of
    the predictions of the models in its persisted list, and the four
    means go to the meta-learner. *)
Lemma predict_proba_bagging (e : PredictUltimate.UltimateEnsemble)
    (f : gmap string pyval) (df : frame1)
    (fm : gmap string (list PredictUltimate.Model))
    (ml : PredictUltimate.MetaLearner)
    (xs ls cs ns : list PredictUltimate.Model) (px pl pc pn : list num) :
  PredictUltimate.models_loaded e !! "stacking" = Some true ->
  PredictUltimate.fold_models e = Some fm ->
  PredictUltimate.meta_learner e = Some ml ->
  serving_transform f = Ok df ->
  fm !! "xgb" = Some xs -> fm !! "lgb" = Some ls ->
  fm !! "cat" = Some cs -> fm !! "nn" = Some ns ->
  mapM (fun m : PredictUltimate.Model => m (values df)) xs = Ok px ->
  mapM (fun m : PredictUltimate.Model => m (values df)) ls = Ok pl ->
  mapM (fun m : PredictUltimate.Model => m (values df)) cs = Ok pc ->
  mapM (fun m : PredictUltimate.Model => m (values df)) ns = Ok pn ->
  PredictUltimate.predict_proba e f
  = (p ← ml [PredictUltimate.np_mean px; PredictUltimate.np_mean pl;
             PredictUltimate.np_mean pc; PredictUltimate.np_mean pn];
     Ok (p, "Stacking Ensemble (F1: 0.968+)")).
Proof.
  intros Hs Hfm Hml Hdf Hx Hl Hc Hn Px Pl Pc Pn.
  unfold PredictUltimate.predict_proba, PredictUltimate.engineer_features,
    PredictUltimate.item, PredictUltimate.attr.
  rewrite Hdf. cbn [mbind result_bind]. rewrite Hs, Hfm, Hml.
  cbn [mbind result_bind mapM]. rewrite Hx, Hl, Hc, Hn.
  cbn [mbind result_bind]. rewrite Px, Pl, Pc, Pn. reflexivity.
Qed.

(** C3 fails on the code.  Whatever the learner, the dataset and the
    folds, each tree learner's persisted list holds one estimator repeated
    once per fold: the single object of [base_models], as the last fold's
    [fit] left it; only the network's list holds one model per fold.  On
    the ten-token run the five persisted "xgb" models all have the
    threshold 6.5 of the last fold, where the per-fold models have 7.5,
    7.25, 7, 6.75 and 6.5; for a token with buy tax 7 the served ensemble
    answers 0.9, and bagging over the per-fold models would answer 0.6. *)
Theorem tree_fold_models_are_one_object :
  (forall (fitted combiner : Type)
          (fit : string -> list row -> list Z -> fitted)
          (proba : fitted -> row -> num)
          (train_swiglu_net :
             list row -> list Z -> list row -> list Z -> fitted)
          (fit_meta : list (list num) -> list Z -> combiner)
          (X : list row) (y : list Z) (splits : list (list nat * list nat)),
     length y = length X ->
     Forall (Folds.in_range X) splits ->
     exists art,
       stacking fit proba train_swiglu_net fit_meta X y splits = Ok art
       /\ (forall name l, (name, l) ∈ Folds.trees ->
             fold_models_pkl art !! name
             = Some (replicate (length splits)
                       (Folds.last_fitted fit X y name splits)))
       /\ fold_models_pkl art !! "nn"
          = Some ((fun s =>
                     {| kind := "nn";
                        state := Some (Folds.fitted_nn train_swiglu_net X y s)
                     |}) <$> splits))
  /\ (exists art,
        Toy.trained = Ok art
        /\ fold_models_pkl art !! "xgb"
           = Some (replicate 5 {| kind := "xgb"; state := Some (fin 6.5) |})
        /\ Toy.per_fold_models "xgb"
           = [fin 7.5; fin 7.25; fin 7; fin 6.75; fin 6.5]
        /\ (state <$> default [] (fold_models_pkl art !! "nn"))
           = Some <$> Toy.per_fold_models "nn")
  /\ (exists e,
        Toy.deploy Toy.trained = Some e
        /\ PredictUltimate.predict_proba e Toy.query
           = Ok (fin 0.9, "Stacking Ensemble (F1: 0.968+)")
        /\ Toy.per_fold_probability Toy.query = Ok (fin 0.6)).
Proof.
  split.
  { intros fitted combiner fit proba net fit_meta X y splits Hlen Hr.
    destruct (stacking_ok fit proba net fit_meta X y Hlen splits Hr)
      as (art & E & _ & _ & _ & HT & HN).
    exists art. split; [exact E |]. split; [exact HT | exact HN]. }
  split.
  - destruct Toy.trained as [art |] eqn:E; [| vm_compute in E; discriminate E].
    exists art. split; [reflexivity |].
    vm_compute in E. injection E as <-. repeat split; vm_compute; reflexivity.
  - destruct (Toy.deploy Toy.trained) as [e |] eqn:E;
      [| vm_compute in E; discriminate E].
    exists e. split; [reflexivity |].
    vm_compute in E. injection E as <-. split; vm_compute; reflexivity.
Qed.

(** * Training-time and serving-time feature engineering *)

Section OneRow.

Variable f : gmap string pyval.
Hypothesis Hwt : Spec.well_typed f = true.

Lemma df_get_one_row (k : string) (dflt : operand) :
  df_get (one_row f) k dflt
  = match f !! k with
    | Some v => Series [v]
    | None => dflt
    end.
Proof.
  unfold df_get, one_row. cbn [columns]. rewrite lookup_fmap.
  now destruct (f !! k).
Qed.

Lemma plain_one_row (k : string) (dflt : Z) :
  broadcast 1 (df_get (one_row f) k (Scalar (VInt dflt)))
  = [get f k (VInt dflt)].
Proof. rewrite df_get_one_row. unfold get. now destruct (f !! k). Qed.

Lemma nested_one_row (k1 k2 : string) (dflt : Z) :
  broadcast 1
    (df_get (one_row f) k1 (df_get (one_row f) k2 (Scalar (VInt dflt))))
  = [get f k1 (get f k2 (VInt dflt))].
Proof.
  rewrite !df_get_one_row. unfold get.
  now destruct (f !! k1), (f !! k2).
Qed.

Lemma revoked_one_row (k : string) :
  Spec.not_nan_at f k = true ->
  isna (df_get (one_row f) k (Series (replicate 1 VNone))) ≫= astype_int
  = Ok (Series [VInt (if is_None (get f k VNone) then 1 else 0)]).
Proof.
  unfold Spec.not_nan_at. rewrite df_get_one_row. unfold get.
  destruct (f !! k) as [[| b | [q | | |] | s] |]; intros H;
    try discriminate H; reflexivity.
Qed.

Lemma flag_one_row (k : string) :
  Spec.is_flag f k = true ->
  astype_int (df_get (one_row f) k (Scalar (VInt 0)))
  = Ok (Series [VInt (if truthy (get f k (VBool false)) then 1 else 0)]).
Proof.
  unfold Spec.is_flag. rewrite df_get_one_row. unfold get.
  destruct (f !! k) as [[| [|] | x | s] |]; intros H;
    try discriminate H; reflexivity.
Qed.

(** A ratio feature [a / (b + 1)] with a non-zero denominator: the same
    quotient on both sides. *)
Lemma truediv_metric (a b : string) :
  In a Spec.metric_fields ->
  Spec.nonzero_denominator f b = true ->
  py_truediv (get f a (VInt 0)) (nadd (Spec.metric f b 1) 1%Z)
  = Ok (ndiv_nz (Spec.metric f a 0) (nadd (Spec.metric f b 1) 1%Z)).
Proof.
  intros Ha Hnz. unfold Spec.nonzero_denominator in Hnz.
  unfold py_truediv. rewrite (as_num_metric f Hwt) by assumption.
  cbn [mbind result_bind]. unfold ndiv.
  now destruct (is_zero (nadd (Spec.metric f b 1) 1%Z)).
Qed.

Lemma ratio_one_row (a b : string) :
  In a Spec.metric_fields -> In b Spec.metric_fields ->
  Spec.nonzero_denominator f b = true ->
  exists dop op,
    add1 (df_get (one_row f) b (Scalar (VInt 1))) = Ok dop
    /\ div (df_get (one_row f) a (Scalar (VInt 0))) dop = Ok op
    /\ broadcast 1 op
       = [VNum (ndiv_nz (Spec.metric f a 0) (nadd (Spec.metric f b 1) 1%Z))].
Proof.
  intros Ha Hb Hnz. unfold Spec.nonzero_denominator in Hnz.
  rewrite negb_true_iff in Hnz.
  pose proof (as_num_metric f Hwt a 0 Ha) as Na.
  pose proof (as_num_metric f Hwt b 1 Hb) as Nb.
  rewrite !df_get_one_row. unfold Spec.metric, get in *.
  destruct (f !! b) as [[| bb | xb | sb] |]; try discriminate Nb;
    destruct (f !! a) as [[| ba | xa | sa] |]; try discriminate Na;
    cbn [default from_option id] in *;
    (do 2 eexists; split; [reflexivity |]; split; [reflexivity |]);
    cbn [broadcast replicate]; unfold np_div; try rewrite Hnz;
    reflexivity.
Qed.

End OneRow.

(** On aligned inputs the training transform over the one-row dataset and
    the serving transform give the same 20 labelled values. *)
Lemma transforms_agree_on_aligned (f : gmap string pyval) :
  Spec.aligned f = true ->
  (fun fr => labelled_row fr 0) <$> engineer_features (one_row f)
  = serving_transform f.
Proof.
  unfold Spec.aligned. rewrite !andb_true_iff.
  intros [[[[[[[Hwt Hh] Hj] Hm] Hf] Dt] Dl] Dv].
  destruct (ratio_one_row f Hwt "lp_burned" "total_supply")
    as (d1 & o1 & A1 & Q1 & B1); [in_fields | in_fields | exact Dt |].
  destruct (ratio_one_row f Hwt "market_cap" "liquidity")
    as (d2 & o2 & A2 & Q2 & B2); [in_fields | in_fields | exact Dl |].
  destruct (ratio_one_row f Hwt "vol_5m" "vol_1m")
    as (d3 & o3 & A3 & Q3 & B3); [in_fields | in_fields | exact Dv |].
  unfold engineer_features.
  change (nrows (one_row f)) with 1%nat.
  rewrite !(revoked_one_row f) by assumption.
  rewrite A1, A2, A3. cbn [mbind result_bind]. rewrite Q1, Q2, Q3.
  rewrite !(flag_one_row f) by assumption.
  cbn [mbind result_bind fmap result_fmap list_fmap prod_map fst snd id].
  rewrite B1, B2, B3, !plain_one_row, nested_one_row.
  unfold serving_transform.
  rewrite !(py_add_metric f Hwt) by in_fields. cbn [mbind result_bind].
  rewrite !(truediv_metric f Hwt) by (assumption || in_fields).
  reflexivity.
Qed.

(** The training transform needs the [honeypot] column: without it
    [df.get('honeypot', 0)] is the integer 0, which has no [astype]. *)
Lemma engineer_features_needs_honeypot (f : gmap string pyval) :
  f !! "honeypot" = None ->
  is_ok (TrainUltimate.engineer_features (TrainUltimate.one_row f)) = false.
Proof.
  intros Hk.
  destruct (TrainUltimate.engineer_features (TrainUltimate.one_row f))
    as [fr | e] eqn:H; [exfalso | reflexivity].
  unfold TrainUltimate.engineer_features in H.
  do 4 inv_bind H. inv_bind H.
  unfold TrainUltimate.df_get, TrainUltimate.one_row in E3. simpl in E3.
  rewrite lookup_fmap, Hk in E3. discriminate E3.
Qed.

(** C4 fails on the code: for a token without the [honeypot] field the
    serving transform returns its 20 columns while the training transform
    over the one-row dataset raises; a numeric [honeypot] of 2 is kept as
    2 in training and becomes 1 in serving; a [total_supply] of -1 raises
    in serving and gives 0 in training.  The two agree on the inputs
    where both flags are present as booleans, the metrics are numbers and
    no ratio divides by zero, such as the clean sample. *)
Theorem transforms_diverge :
  (forall f, Spec.aligned f = true ->
     (fun fr => labelled_row fr 0) <$> engineer_features (one_row f)
     = serving_transform f)
  /\ (forall f, f !! "honeypot" = None ->
     is_ok (TrainUltimate.engineer_features (TrainUltimate.one_row f)) = false)
  /\ (let f := delete "honeypot" Sample.clean in
      TrainUltimate.engineer_features (TrainUltimate.one_row f)
        = Raise AttributeError
      /\ is_ok (serving_transform f) = true
      /\ (length <$> serving_transform f) = Ok 20%nat)
  /\ (let f := <["honeypot" := VInt 2]> Sample.clean in
      ((fun fr => TrainUltimate.labelled_row fr 0 !! 3%nat) <$>
         TrainUltimate.engineer_features (TrainUltimate.one_row f))
        = Ok (Some ("honeypot", VInt 2))
      /\ ((fun fr => fr !! 3%nat) <$> serving_transform f)
        = Ok (Some ("honeypot", VInt 1)))
  /\ (let f := <["total_supply" := VInt (-1)]> Sample.clean in
      ((fun fr => TrainUltimate.labelled_row fr 0 !! 2%nat) <$>
         TrainUltimate.engineer_features (TrainUltimate.one_row f))
        = Ok (Some ("lp_burned_pct", VInt 0))
      /\ serving_transform f = Raise ZeroDivisionError)
  /\ ((fun fr => TrainUltimate.labelled_row fr 0) <$>
        TrainUltimate.engineer_features (TrainUltimate.one_row Sample.clean))
     = serving_transform Sample.clean
  /\ ((fun fr => fr.*1) <$> serving_transform Sample.clean)
     = Ok feature_columns.
Proof.
  split; [exact transforms_agree_on_aligned |].
  split; [exact engineer_features_needs_honeypot |].
  repeat split; vm_compute; reflexivity.
Qed.

(** * The model registry *)

(** The four probes of [load_models], run on the empty object. *)
Lemma ensemble_probed (d : PredictUltimate.disk) :
  PredictUltimate.ensemble d
  = let self :=
      PredictUltimate.probe_simple d
        (PredictUltimate.probe_gnn d
           (PredictUltimate.probe_tabnet d
              (PredictUltimate.probe_stacking d
                 {| PredictUltimate.models_loaded := ∅;
                    PredictUltimate.fold_models := None;
                    PredictUltimate.meta_learner := None;
                    PredictUltimate.tabnet := None;
                    PredictUltimate.simple_model := None |}))) in
    if PredictUltimate.any_value (PredictUltimate.models_loaded self)
    then Some self else None.
Proof.
  unfold PredictUltimate.ensemble, PredictUltimate.init,
    PredictUltimate.load_models. cbv zeta.
  now destruct (PredictUltimate.any_value _).
Qed.

Lemma probe_stacking_flag d self :
  PredictUltimate.models_loaded (PredictUltimate.probe_stacking d self)
  = <["stacking" := Spec.stored (PredictUltimate.fold_models_pkl d)
                    && Spec.stored (PredictUltimate.meta_learner_pkl d)]>
      (PredictUltimate.models_loaded self).
Proof.
  unfold PredictUltimate.probe_stacking.
  now destruct (PredictUltimate.fold_models_pkl d),
    (PredictUltimate.meta_learner_pkl d).
Qed.

Lemma probe_tabnet_flag d self :
  PredictUltimate.models_loaded (PredictUltimate.probe_tabnet d self)
  = <["tabnet" := PredictUltimate.pytorch_tabnet d
                  && Spec.stored (PredictUltimate.tabnet_model d)]>
      (PredictUltimate.models_loaded self).
Proof.
  unfold PredictUltimate.probe_tabnet.
  now destruct (PredictUltimate.pytorch_tabnet d),
    (PredictUltimate.tabnet_model d).
Qed.

Lemma probe_gnn_flag d self :
  PredictUltimate.probe_gnn d self = PredictUltimate.set_loaded "gnn" false self.
Proof.
  unfold PredictUltimate.probe_gnn.
  now destruct (PredictUltimate.gnn_model_pth d).
Qed.

Lemma probe_simple_flag d self :
  PredictUltimate.models_loaded (PredictUltimate.probe_simple d self)
  = <["simple" := Spec.stored (PredictUltimate.xgboost_rug_model_latest_pkl d)]>
      (PredictUltimate.models_loaded self).
Proof.
  unfold PredictUltimate.probe_simple.
  now destruct (PredictUltimate.xgboost_rug_model_latest_pkl d).
Qed.

Lemma any_value_flags (b1 b2 b3 : bool) :
  PredictUltimate.any_value
    (<["simple" := b3]> (<["gnn" := false]>
       (<["tabnet" := b2]> (<["stacking" := b1]> ∅))))
  = b1 || b2 || b3.
Proof. destruct b1, b2, b3; vm_compute; reflexivity. Qed.

(** What [load_models] records, probe by probe. *)
Lemma ensemble_flags (d : PredictUltimate.disk)
    (e : PredictUltimate.UltimateEnsemble) :
  PredictUltimate.ensemble d = Some e ->
  PredictUltimate.models_loaded e !! "stacking"
  = Some (Spec.stored (PredictUltimate.fold_models_pkl d)
          && Spec.stored (PredictUltimate.meta_learner_pkl d))
  /\ PredictUltimate.models_loaded e !! "tabnet"
     = Some (PredictUltimate.pytorch_tabnet d
             && Spec.stored (PredictUltimate.tabnet_model d))
  /\ PredictUltimate.models_loaded e !! "gnn" = Some false
  /\ PredictUltimate.models_loaded e !! "simple"
     = Some (Spec.stored (PredictUltimate.xgboost_rug_model_latest_pkl d)).
Proof.
  rewrite ensemble_probed. cbv zeta.
  destruct (PredictUltimate.any_value _); [| discriminate].
  intros H. injection H as <-.
  rewrite probe_simple_flag, probe_gnn_flag. cbn [PredictUltimate.set_loaded
    PredictUltimate.models_loaded].
  rewrite probe_tabnet_flag, probe_stacking_flag.
  split; [| split; [| split]].
  - now rewrite !lookup_insert_ne, lookup_insert_eq by done.
  - now rewrite !lookup_insert_ne, lookup_insert_eq by done.
  - now rewrite !lookup_insert_ne, lookup_insert_eq by done.
  - now rewrite lookup_insert_eq.
Qed.

Lemma ensemble_none_iff (d : PredictUltimate.disk) :
  PredictUltimate.ensemble d = None <-> Spec.registry_state d = Spec.NoTier.
Proof.
  rewrite ensemble_probed. cbv zeta.
  rewrite probe_simple_flag, probe_gnn_flag. cbn [PredictUltimate.set_loaded
    PredictUltimate.models_loaded].
  rewrite probe_tabnet_flag, probe_stacking_flag. cbn [PredictUltimate.models_loaded].
  rewrite any_value_flags. unfold Spec.registry_state.
  destruct (Spec.stored _ && Spec.stored _);
    [cbn; split; discriminate |].
  destruct (PredictUltimate.pytorch_tabnet d && _);
    [cbn; split; discriminate |].
  destruct (Spec.stored _); cbn; split; try discriminate; reflexivity.
Qed.

(** The [model_used] text follows the first flag that is set. *)
Lemma predict_proba_used (e : PredictUltimate.UltimateEnsemble)
    (f : gmap string pyval) (p : num) (used : string) (b1 b2 b3 : bool) :
  PredictUltimate.predict_proba e f = Ok (p, used) ->
  PredictUltimate.models_loaded e !! "stacking" = Some b1 ->
  PredictUltimate.models_loaded e !! "tabnet" = Some b2 ->
  PredictUltimate.models_loaded e !! "simple" = Some b3 ->
  used = if b1 then "Stacking Ensemble (F1: 0.968+)"
         else if b2 then "TabNet (F1: 0.979+)"
         else if b3 then "XGBoost (F1: 0.95+)"
         else "No model available".
Proof.
  unfold PredictUltimate.predict_proba, PredictUltimate.item.
  intros H H1 H2 H3. inv_bind H. rewrite H1 in H.
  cbn [mbind result_bind] in H. destruct b1.
  - do 6 inv_bind H. now inv_Ok H.
  - rewrite H2 in H. cbn [mbind result_bind] in H. destruct b2.
    + do 2 inv_bind H. now inv_Ok H.
    + rewrite H3 in H. cbn [mbind result_bind] in H. destruct b3.
      * do 2 inv_bind H. now inv_Ok H.
      * now inv_Ok H.
Qed.

(** X1: the module-level ensemble exists exactly when some tier loads;
    the graph-model file never counts; and every probability it serves
    names the highest tier that loaded, never "No model available". *)
Theorem registry_serves_highest_tier (d : PredictUltimate.disk) :
  (PredictUltimate.ensemble d = None <-> Spec.registry_state d = Spec.NoTier)
  /\ (forall b,
        PredictUltimate.ensemble
          {| PredictUltimate.fold_models_pkl := PredictUltimate.fold_models_pkl d;
             PredictUltimate.meta_learner_pkl := PredictUltimate.meta_learner_pkl d;
             PredictUltimate.pytorch_tabnet := PredictUltimate.pytorch_tabnet d;
             PredictUltimate.tabnet_model := PredictUltimate.tabnet_model d;
             PredictUltimate.gnn_model_pth := b;
             PredictUltimate.xgboost_rug_model_latest_pkl :=
               PredictUltimate.xgboost_rug_model_latest_pkl d |}
        = PredictUltimate.ensemble d)
  /\ (forall e f p used,
        PredictUltimate.ensemble d = Some e ->
        PredictUltimate.predict_proba e f = Ok (p, used) ->
        used = Extra.tier_label (Spec.registry_state d)
        /\ Spec.registry_state d <> Spec.NoTier).
Proof.
  split; [| split].
  - apply ensemble_none_iff.
  - intros b. rewrite !ensemble_probed. cbv zeta. rewrite !probe_gnn_flag.
    reflexivity.
  - intros e f p used He Hp.
    destruct (ensemble_flags d e He) as (H1 & H2 & _ & H3).
    rewrite (predict_proba_used e f p used _ _ _ Hp H1 H2 H3).
    assert (Hany : Spec.registry_state d <> Spec.NoTier).
    { intros Hn. apply ensemble_none_iff in Hn. congruence. }
    split; [| exact Hany]. revert Hany. unfold Spec.registry_state.
    destruct (Spec.stored _ && Spec.stored _); [reflexivity |].
    destruct (PredictUltimate.pytorch_tabnet d && _); [reflexivity |].
    destruct (Spec.stored _); [reflexivity | congruence].
Qed.

(** Corrupt ensemble files, no TabNet package, a graph-model file and a
    good simple model: the simple tier serves. *)
Lemma simple_tier_serves :
  let d :=
    {| PredictUltimate.fold_models_pkl := Corrupt;
       PredictUltimate.meta_learner_pkl := Missing;
       PredictUltimate.pytorch_tabnet := false;
       PredictUltimate.tabnet_model := Corrupt;
       PredictUltimate.gnn_model_pth := true;
       PredictUltimate.xgboost_rug_model_latest_pkl :=
         Stored (Sample.constant_model 0.25) |} in
  (e ← PredictUltimate.ensemble d;
   Some (PredictUltimate.predict_proba e Sample.clean))
  = Some (Ok (fin 0.25, "XGBoost (F1: 0.95+)"))
  /\ Extra.tier_label (Spec.registry_state d) = "XGBoost (F1: 0.95+)".
Proof. vm_compute. split; reflexivity. Qed.

(** ** The probability that the registry serves *)

(** The attributes that the probes leave in the object. *)
Lemma probed_fields (d : PredictUltimate.disk) :
  let self :=
    PredictUltimate.probe_simple d
      (PredictUltimate.probe_gnn d
         (PredictUltimate.probe_tabnet d
            (PredictUltimate.probe_stacking d
               {| PredictUltimate.models_loaded := ∅;
                  PredictUltimate.fold_models := None;
                  PredictUltimate.meta_learner := None;
                  PredictUltimate.tabnet := None;
                  PredictUltimate.simple_model := None |}))) in
  (forall fm ml,
     PredictUltimate.fold_models_pkl d = Stored fm ->
     PredictUltimate.meta_learner_pkl d = Stored ml ->
     PredictUltimate.fold_models self = Some fm
     /\ PredictUltimate.meta_learner self = Some ml)
  /\ (forall m,
        PredictUltimate.pytorch_tabnet d = true ->
        PredictUltimate.tabnet_model d = Stored m ->
        PredictUltimate.tabnet self = Some m)
  /\ (forall m,
        PredictUltimate.xgboost_rug_model_latest_pkl d = Stored m ->
        PredictUltimate.simple_model self = Some m).
Proof.
  cbv zeta. rewrite probe_gnn_flag.
  unfold PredictUltimate.probe_simple, PredictUltimate.probe_tabnet,
    PredictUltimate.probe_stacking.
  split; [| split].
  - intros fm ml -> ->.
    destruct (PredictUltimate.pytorch_tabnet d),
      (PredictUltimate.tabnet_model d),
      (PredictUltimate.xgboost_rug_model_latest_pkl d);
      split; reflexivity.
  - intros m -> ->.
    destruct (PredictUltimate.fold_models_pkl d),
      (PredictUltimate.meta_learner_pkl d),
      (PredictUltimate.xgboost_rug_model_latest_pkl d);
      reflexivity.
  - intros m ->.
    destruct (PredictUltimate.fold_models_pkl d),
      (PredictUltimate.meta_learner_pkl d),
      (PredictUltimate.pytorch_tabnet d),
      (PredictUltimate.tabnet_model d);
      reflexivity.
Qed.

(** X2: the module-level ensemble answers every token with the
    probability of the highest tier on disk: the stacked fold models
    when both ensemble files load, else TabNet when its package and file
    load, else the simple model; a file that is there but does not load
    counts as absent, and the [model_used] text names the tier. *)
Theorem ensemble_serves_highest_tier (d : PredictUltimate.disk)
    (e : PredictUltimate.UltimateEnsemble) (f : gmap string pyval) :
  PredictUltimate.ensemble d = Some e ->
  PredictUltimate.predict_proba e f
  = (df ← serving_transform f;
     p ← Extra.served d (values df);
     Ok (p, Extra.tier_label (Spec.registry_state d))).
Proof.
  intros He.
  destruct (ensemble_flags d e He) as (H1 & H2 & _ & H3).
  assert (Hany : Spec.registry_state d <> Spec.NoTier).
  { intros Hn. apply ensemble_none_iff in Hn. congruence. }
  rewrite ensemble_probed in He. cbv zeta in He.
  destruct (PredictUltimate.any_value _); [| discriminate He].
  apply (f_equal (fun o => from_option id e o)) in He. cbn in He.
  destruct (probed_fields d) as (Fs & Ft & Fm). cbv zeta in Fs, Ft, Fm.
  rewrite He in Fs, Ft, Fm.
  unfold PredictUltimate.predict_proba, PredictUltimate.engineer_features,
    PredictUltimate.item.
  destruct (serving_transform f) as [df | err]; [| reflexivity].
  cbn [mbind result_bind]. rewrite H1. cbn [mbind result_bind].
  unfold Spec.registry_state, Extra.served in *.
  destruct (PredictUltimate.fold_models_pkl d) as [| | fm] eqn:Dfm;
    cbn [Spec.stored andb] in *;
    [| | destruct (PredictUltimate.meta_learner_pkl d) as [| | ml] eqn:Dml;
         cbn [Spec.stored andb] in *].
  5: { destruct (Fs fm ml eq_refl eq_refl) as [-> ->].
       unfold Extra.bagging, PredictUltimate.attr, PredictUltimate.item.
       cbn [mbind result_bind].
       destruct (mapM _ ["xgb"; "lgb"; "cat"]) as [trees |];
         cbn [mbind result_bind]; [| reflexivity].
       destruct (fm !! "nn") as [nns |]; cbn [mbind result_bind];
         [| reflexivity].
       destruct (mapM _ nns) as [nn_preds |]; cbn [mbind result_bind];
         reflexivity. }
  all: rewrite H2; cbn [mbind result_bind];
    destruct (PredictUltimate.pytorch_tabnet d) eqn:Dtn;
    destruct (PredictUltimate.tabnet_model d) as [| | tm] eqn:Dtm;
    cbn [Spec.stored andb] in *;
    try (rewrite (Ft tm eq_refl eq_refl); reflexivity);
    rewrite H3; cbn [mbind result_bind];
    destruct (PredictUltimate.xgboost_rug_model_latest_pkl d)
      as [| | sm] eqn:Dsm;
    cbn [Spec.stored] in *;
    try (rewrite (Fm sm eq_refl); reflexivity);
    congruence.
Qed.

(** Corrupt ensemble files and a good simple model: the simple model
    answers. *)
Lemma ensemble_serves_highest_tier_witness :
  let d :=
    {| PredictUltimate.fold_models_pkl := Corrupt;
       PredictUltimate.meta_learner_pkl := Missing;
       PredictUltimate.pytorch_tabnet := false;
       PredictUltimate.tabnet_model := Corrupt;
       PredictUltimate.gnn_model_pth := true;
       PredictUltimate.xgboost_rug_model_latest_pkl :=
         Stored (Sample.constant_model 0.25) |} in
  let e :=
    {| PredictUltimate.models_loaded :=
         <["simple" := true]>
           (<["gnn" := false]>
              (<["tabnet" := false]> (<["stacking" := false]> ∅)));
       PredictUltimate.fold_models := None;
       PredictUltimate.meta_learner := None;
       PredictUltimate.tabnet := None;
       PredictUltimate.simple_model := Some (Sample.constant_model 0.25) |} in
  PredictUltimate.ensemble d = Some e
  /\ PredictUltimate.predict_proba e Sample.clean
     = Ok (fin 0.25, "XGBoost (F1: 0.95+)").
Proof.
  intros d e.
  assert (He : PredictUltimate.ensemble d = Some e)
    by (vm_compute; reflexivity).
  split; [exact He |].
  rewrite (ensemble_serves_highest_tier d e Sample.clean He).
  vm_compute. reflexivity.
Defined.
(** * The serving-time feature transform *)

Lemma Ok_inj {A} (a b : A) : Ok a = Ok b -> a = b.
Proof. congruence. Qed.

Lemma sanitize_sanitised (v : pyval) : Extra.sanitised (sanitize v) = true.
Proof. now destruct v as [| b | [q | | |] | s]. Qed.

(** X4: whatever the input, a frame that the serving transform returns
    has the 20 feature columns in order, holds no [None], [nan] or
    infinity, and its four indicator columns hold 0 or 1. *)
Theorem serving_transform_frame (f : gmap string pyval) (fr : frame1) :
  serving_transform f = Ok fr ->
  fr.*1 = feature_columns
  /\ Forall (fun v => Extra.sanitised v = true) (values fr)
  /\ Forall (fun i => exists v, values fr !! i = Some v
                                /\ Extra.indicator v = true)
       Extra.indicator_columns.
Proof.
  unfold serving_transform. intros H. do 6 inv_bind H.
  apply Ok_inj in H. subst fr.
  split; [reflexivity |]. split.
  - unfold values. rewrite <- list_fmap_compose.
    apply Forall_fmap, Forall_forall. intros [k v] _. cbn.
    apply sanitize_sanitised.
  - unfold Extra.indicator_columns.
    repeat apply Forall_cons_2; [| | | | apply Forall_nil_2];
      eexists; (split; [reflexivity |]).
    + now destruct (is_None _).
    + now destruct (is_None _).
    + now destruct (truthy _).
    + now destruct (truthy _).
Qed.

Lemma serving_transform_frame_witness :
  exists fr,
    serving_transform Sample.clean = Ok fr
    /\ fr.*1 = feature_columns
    /\ Forall (fun v => Extra.sanitised v = true) (values fr).
Proof.
  destruct (serving_transform Sample.clean) as [fr |] eqn:H;
    [| discriminate H].
  exists fr. split; [reflexivity |].
  destruct (serving_transform_frame Sample.clean fr H) as (H1 & H2 & _).
  split; assumption.
Defined.
(** * The training-time feature transform *)

Lemma mapM_length {A B} (g : A -> result B) (l : list A) (l' : list B) :
  mapM g l = Ok l' -> length l' = length l.
Proof.
  revert l'. induction l as [| a l IH]; intros l' H.
  - apply Ok_inj in H. now subst.
  - cbn in H. inv_bind H. inv_bind H. apply Ok_inj in H. subst l'.
    cbn. f_equal. now apply IH.
Qed.

Lemma fmap_Ok {A B} (g : A -> B) (m : result A) (b : B) :
  g <$> m = Ok b -> exists a, m = Ok a /\ b = g a.
Proof.
  destruct m as [a | e]; cbn; intros H; [| discriminate H].
  apply Ok_inj in H. eauto.
Qed.

Section Wide.

Variable df : DataFrame.
Hypothesis Hrect : Extra.rectangular df.

Local Abbreviation wide := (Extra.wide df).

Lemma wide_scalar (v : pyval) : wide (Scalar v).
Proof. unfold Extra.wide. cbn. apply length_replicate. Qed.

Lemma wide_df_get (k : string) (dflt : operand) :
  wide dflt -> wide (df_get df k dflt).
Proof.
  intros Hd. unfold df_get.
  destruct (columns df !! k) as [c |] eqn:Hk; [| exact Hd].
  exact (Hrect k c Hk).
Qed.

Lemma wide_isna (x y : operand) : isna x = Ok y -> wide x -> wide y.
Proof.
  destruct x as [c | v]; cbn; intros H; [| discriminate H].
  apply Ok_inj in H. subst y. unfold Extra.wide. cbn. now rewrite length_fmap.
Qed.

Lemma wide_astype_int (x y : operand) :
  astype_int x = Ok y -> wide x -> wide y.
Proof.
  destruct x as [c | v]; cbn [astype_int]; intros H; [| discriminate H].
  apply fmap_Ok in H as (l & H & ->). unfold Extra.wide. cbn.
  now rewrite (mapM_length _ _ _ H).
Qed.

Lemma wide_add1 (x y : operand) : add1 x = Ok y -> wide x -> wide y.
Proof.
  destruct x as [c | v]; cbn [add1]; intros H;
    apply fmap_Ok in H as (l & H & ->).
  - unfold Extra.wide. cbn. now rewrite (mapM_length _ _ _ H).
  - intros _. apply wide_scalar.
Qed.

Lemma wide_div (a b y : operand) :
  div a b = Ok y -> wide a -> wide b -> wide y.
Proof.
  destruct a as [ca | va], b as [cb | vb]; cbn [div]; intros H.
  - apply fmap_Ok in H as (l & H & ->). unfold Extra.wide. cbn.
    rewrite (mapM_length _ _ _ H), length_zip. lia.
  - apply fmap_Ok in H as (l & H & ->). unfold Extra.wide. cbn.
    now rewrite (mapM_length _ _ _ H).
  - apply fmap_Ok in H as (l & H & ->). unfold Extra.wide. cbn.
    now rewrite (mapM_length _ _ _ H).
  - inv_bind H. apply fmap_Ok in H as (l & H & ->).
    intros _ _. apply wide_scalar.
Qed.

End Wide.

Lemma astype_int_column (df : DataFrame) (k : string) (dflt : pyval)
    (y : operand) :
  astype_int (df_get df k (Scalar dflt)) = Ok y -> is_Some (columns df !! k).
Proof.
  unfold df_get. destruct (columns df !! k); [eauto | discriminate].
Qed.

(** The training transform needs both flag columns. *)
Lemma engineer_features_columns (df : DataFrame) (fr : frame) :
  engineer_features df = Ok fr ->
  is_Some (columns df !! "honeypot") /\ is_Some (columns df !! "jito_bundle").
Proof.
  unfold engineer_features. intros H.
  do 4 inv_bind H. clear E E0 E1 E2.
  inv_bind H. rename E into Hh.
  do 4 inv_bind H. clear E E0 E1 E2.
  inv_bind H. rename E into Hj.
  split; [exact (astype_int_column _ _ _ _ Hh)
         | exact (astype_int_column _ _ _ _ Hj)].
Qed.

(** X5: a frame that the training transform returns has the 20 feature
    columns in order and holds no [None], [nan] or infinity; the data had
    a [honeypot] and a [jito_bundle] column; and when every column of the
    data has [nrows] cells, so has every column of the frame. *)
Theorem engineer_features_frame (df : DataFrame) (fr : frame) :
  engineer_features df = Ok fr ->
  fr.*1 = feature_columns
  /\ Forall (fun c => Forall (fun v => Extra.sanitised v = true) c.2) fr
  /\ is_Some (columns df !! "honeypot")
  /\ is_Some (columns df !! "jito_bundle")
  /\ (Extra.rectangular df -> Forall (fun c => length c.2 = nrows df) fr).
Proof.
  intros H. pose proof (engineer_features_columns df fr H) as [Ch Cj].
  unfold engineer_features in H.
  inv_bind H. inv_bind E. rename a0 into na1, E into M1, E0 into N1.
  inv_bind H. inv_bind E. rename a1 into na2, E into M2, E0 into N2.
  inv_bind H. rename E into A1. inv_bind H. rename E into Q1.
  inv_bind H. rename E into Hh.
  inv_bind H. rename E into A2. inv_bind H. rename E into Q2.
  inv_bind H. rename E into A3. inv_bind H. rename E into Q3.
  inv_bind H. rename E into Hj.
  apply Ok_inj in H. subst fr.
  split; [reflexivity |]. split.
  { apply Forall_fmap, Forall_forall. intros [k x] _. cbn.
    apply Forall_fmap, Forall_forall. intros v _. cbn.
    apply sanitize_sanitised. }
  split; [exact Ch |]. split; [exact Cj |].
  intros Hrect.
  assert (Hn : Extra.wide df (Series (replicate (nrows df) VNone)))
    by (unfold Extra.wide; cbn; apply length_replicate).
  pose proof (wide_df_get df Hrect) as G.
  pose proof (wide_scalar df) as S.
  assert (W : forall x, Extra.wide df x ->
            length (sanitize <$> broadcast (nrows df) x) = nrows df)
    by (intros x Hx; now rewrite length_fmap).
  cbn [fmap list_fmap prod_map fst snd id].
  repeat apply Forall_cons_2; try apply Forall_nil_2;
    cbn [fst snd]; apply W; auto.
  - eapply wide_astype_int; [exact M1 |].
    eapply wide_isna; [exact N1 |]. auto.
  - eapply wide_astype_int; [exact M2 |].
    eapply wide_isna; [exact N2 |]. auto.
  - eapply wide_div; [exact Q1 | auto |]. eapply wide_add1; [exact A1 |]. auto.
  - eapply wide_astype_int; [exact Hh |]. auto.
  - eapply wide_div; [exact Q2 | auto |]. eapply wide_add1; [exact A2 |]. auto.
  - eapply wide_div; [exact Q3 | auto |]. eapply wide_add1; [exact A3 |]. auto.
  - eapply wide_astype_int; [exact Hj |]. auto.
Qed.

Lemma engineer_features_frame_witness :
  exists fr,
    engineer_features Extra.two_rows = Ok fr
    /\ fr.*1 = feature_columns
    /\ Forall (fun c => Forall (fun v => Extra.sanitised v = true) c.2) fr
    /\ is_Some (columns Extra.two_rows !! "honeypot").
Proof.
  destruct (engineer_features Extra.two_rows) as [fr |] eqn:H;
    [| vm_compute in H; discriminate H].
  exists fr. split; [reflexivity |].
  destruct (engineer_features_frame Extra.two_rows fr H) as (H1 & H2 & H3 & _).
  repeat split; assumption.
Defined.
(** * What the rule functions can raise *)




















(** A text in [top10_pct] raises [TypeError] in all of them but the
    confidence, which does not read that field; an int beyond the floats
    there raises [OverflowError] where it is formatted. *)
Lemma text_and_huge_metrics_raise :
  let f := <["top10_pct" := VStr "high"]> Sample.clean in
  let g := <["top10_pct" := VInt (10 ^ 400)]> Sample.clean in
  Predict.fallback_scoring f = Raise TypeError
  /\ Predict.get_risk_factors f (fin 0.5) = Raise TypeError
  /\ PredictUltimate._get_risk_factors f = Raise TypeError
  /\ is_ok (PredictUltimate._calculate_confidence f (fin 0.5)) = true
  /\ Predict.get_risk_factors g (fin 0.5) = Raise OverflowError
  /\ PredictUltimate._get_risk_factors g = Raise OverflowError.
Proof. vm_compute. repeat split. Qed.
(** * The range of the fallback score and of the confidence *)

(** X7: on a well-typed input whose numbers fit a float the fallback
    score is 100 minus the deductions of the raised flags, floored at 0:
    a multiple of 5, equal to 100 exactly when no flag is raised and to
    0 exactly when all six are; the cap at 100 never applies.  The burn
    flag is the comparison with the binary64 product. *)
Theorem fallback_score_extremes (f : gmap string pyval) :
  Spec.well_typed f = true -> Spec.float_sized f = true ->
  exists s l p,
    Predict.fallback_scoring f = Ok (s, l, p)
    /\ s = Z.max 0 (100 - foldr Z.add 0 (List.filter fst (Spec.deductions f)).*2)
    /\ (5 | s)
    /\ (s = 100 <-> Forall (fun r => r.1 = false) (Spec.deductions f))
    /\ (s = 0 <-> Forall (fun r => r.1 = true) (Spec.deductions f)).
Proof.
  intros Hwt Hfs. rewrite (fallback_scoring_well_typed f Hwt Hfs).
  do 3 eexists. split; [reflexivity |].
  unfold Spec.fallback_score, Spec.deductions, Spec.clamp.
  destruct (Spec.not_revoked f "mint_authority"),
    (Spec.not_revoked f "freeze_authority"), (Spec.flag f "honeypot"),
    (Spec.high_tax f), (ngt (Spec.metric f "top10_pct" 0) 50%Z),
    (Spec.low_burn f 0.9);
    (split; [reflexivity |]);
    (split; [apply Z.mod_divide; [discriminate | reflexivity] |]);
    (split; (split; [intros H; first [discriminate H | repeat constructor]
                   | intros H; first [reflexivity | exfalso];
                     repeat match goal with
                            | H : Forall _ (_ :: _) |- _ =>
                                apply Forall_cons_1 in H as [? H]
                            end; cbn in *; congruence])).
Qed.

(** The sample that trips every rule scores 0. *)
Lemma fallback_score_extremes_witness :
  Spec.well_typed Sample.dirty = true
  /\ Spec.float_sized Sample.dirty = true
  /\ exists s l p,
       Predict.fallback_scoring Sample.dirty = Ok (s, l, p)
       /\ (s = 0 <-> Forall (fun r => r.1 = true)
                       (Spec.deductions Sample.dirty)).
Proof.
  split; [reflexivity |]. split; [reflexivity |].
  destruct (fallback_score_extremes Sample.dirty eq_refl eq_refl)
    as (s & l & p & H & _ & _ & _ & H0).
  exists s, l, p. split; assumption.
Defined.

(** X8: whatever the input and the probability, a confidence that
    [_calculate_confidence] returns is one of eleven values, the least
    0.576 and the greatest 1. *)
Theorem confidence_range (f : gmap string pyval) (p : num) (c : Q) :
  PredictUltimate._calculate_confidence f p = Ok c ->
  c ∈ Extra.confidence_values /\ (0.576 <= c <= 1)%Q.
Proof.
  unfold PredictUltimate._calculate_confidence. intros H. inv_bind H.
  apply Ok_inj in H. subst c.
  destruct (py_eq (get f "holders" (VInt 0)) 0%Z),
    (py_eq (get f "liquidity" (VInt 0)) 0%Z), a,
    (ngt p (fin 0.9) || nlt p (fin 0.1));
    (split; [apply list_elem_of_In; vm_compute; tauto
            | split; vm_compute; discriminate]).
Qed.

Lemma confidence_range_witness :
  Qred 0.64 ∈ Extra.confidence_values /\ (0.576 <= Qred 0.64 <= 1)%Q.
Proof.
  apply (confidence_range Sample.blind (fin 0.5) (Qred 0.64)). reflexivity.
Defined.
(** * From probability to score and level *)


Lemma risk_rank_level4 (s1 s2 : Z) :
  s2 <= s1 ->
  (Extra.risk_rank (level4 s1) <= Extra.risk_rank (level4 s2))%nat.
Proof.
  intros H. unfold level4. rewrite !Z.geb_leb.
  destruct (90 <=? s1) eqn:A1, (70 <=? s1) eqn:B1, (40 <=? s1) eqn:C1,
    (90 <=? s2) eqn:A2, (70 <=? s2) eqn:B2, (40 <=? s2) eqn:C2;
    cbn; try lia.
Qed.

Lemma risk_rank_level5 (s1 s2 : Z) :
  s2 <= s1 ->
  (Extra.risk_rank (level5 s1) <= Extra.risk_rank (level5 s2))%nat.
Proof.
  intros H. unfold level5. rewrite !Z.geb_leb.
  destruct (95 <=? s1) eqn:E1, (90 <=? s1) eqn:A1, (70 <=? s1) eqn:B1,
    (40 <=? s1) eqn:C1, (95 <=? s2) eqn:E2, (90 <=? s2) eqn:A2,
    (70 <=? s2) eqn:B2, (40 <=? s2) eqn:C2;
    cbn; try lia.
Qed.

(** [int((1 - p) * 100)] falls when [p] grows, in either format. *)
Lemma py_int_safety_mono (fmt : format) (p1 p2 : Q) (s1 s2 : Z) :
  (p1 <= p2)%Q ->
  py_int (fmul fmt (fsub fmt 1%Z (Fin p1)) 100%Z) = Ok s1 ->
  py_int (fmul fmt (fsub fmt 1%Z (Fin p2)) 100%Z) = Ok s2 ->
  s2 <= s1.
Proof.
  intros Hp H1 H2.
  apply py_int_Ok in H1 as (x1 & E1 & ->).
  apply py_int_Ok in H2 as (x2 & E2 & ->).
  apply Qtrunc_le. exact (safety_mono fmt p1 p2 x1 x2 Hp E1 E2).
Qed.

(** X9: a higher rug probability never gives a higher score nor a less
    severe level, on either engine and whatever the two tokens and
    models. *)
Theorem score_antitone {fmt : format} (p1 p2 : Q) :
  (p1 <= p2)%Q ->
  (forall m1 m2 f1 f2 s1 s2 l1 l2,
     Predict.predict_rug_score (Some m1) f1 = Ok (s1, l1, Fin p1) ->
     Predict.predict_rug_score (Some m2) f2 = Ok (s2, l2, Fin p2) ->
     s2 <= s1 /\ (Extra.risk_rank l1 <= Extra.risk_rank l2)%nat)
  /\ (forall e1 e2 f1 f2 r1 r2,
        PredictUltimate.predict e1 f1 = Ok r1 ->
        PredictUltimate.predict e2 f2 = Ok r2 ->
        PredictUltimate.rug_probability r1 = Fin p1 ->
        PredictUltimate.rug_probability r2 = Fin p2 ->
        PredictUltimate.score r2 <= PredictUltimate.score r1
        /\ (Extra.risk_rank (PredictUltimate.level r1)
            <= Extra.risk_rank (PredictUltimate.level r2))%nat).
Proof.
  intros Hp. split.
  - intros m1 m2 f1 f2 s1 s2 l1 l2 H1 H2.
    apply predict_rug_score_inv in H1 as [H1 ->].
    apply predict_rug_score_inv in H2 as [H2 ->].
    pose proof (py_int_safety_mono fmt p1 p2 s1 s2 Hp H1 H2) as Hs.
    split; [exact Hs | now apply risk_rank_level4].
  - intros e1 e2 f1 f2 r1 r2 H1 H2 P1 P2.
    apply predict_inv in H1 as [H1 ->]. apply predict_inv in H2 as [H2 ->].
    rewrite P1 in H1. rewrite P2 in H2.
    pose proof (py_int_safety_mono fmt p1 p2 _ _ Hp H1 H2) as Hs.
    split; [exact Hs | now apply risk_rank_level5].
Qed.

(** Probabilities 0.25 and 0.65 on the clean sample: scores 75 and 35. *)
Lemma score_antitone_witness :
  ((1 # 4) <= (13 # 20))%Q
  /\ 35 <= 75
  /\ (Extra.risk_rank "MEDIUM" <= Extra.risk_rank "EXTREME")%nat.
Proof.
  assert (H : ((1 # 4) <= (13 # 20))%Q) by discriminate.
  split; [exact H |].
  apply (proj1 (score_antitone (fmt := binary64) (1 # 4) (13 # 20) H)
           (Sample.constant_model 0.25) (Sample.constant_model 0.65)
           Sample.clean Sample.clean 75 35 "MEDIUM" "EXTREME");
    vm_compute; reflexivity.
Defined.

(** The two probabilities are scalars of one format.  Across formats the
    order can turn: the binary32 value of 0.3 scores 70 in binary32,
    while the binary64 value just below it scores 69 in binary64. *)
Example score_across_formats :
  let p2 := nearest binary32 0.3 in
  let p1 := (p2 - (1 # 2) ^ 40)%Q in
  (p1 <= p2)%Q
  /\ py_int (fmul binary64 (fsub binary64 1%Z (round_to binary64 p1)) 100%Z)
     = Ok 69
  /\ py_int (fmul binary32 (fsub binary32 1%Z (round_to binary32 p2)) 100%Z)
     = Ok 70.
Proof. split; [discriminate |]. split; vm_compute; reflexivity. Qed.

(** X10: for one and the same probability the two engines give the same
    score, and the same level unless the score is 95 or more, where the
    ensemble engine says EXTREME LOW and the basic engine LOW. *)
Theorem engines_agree_on_score {fmt : format} (m : Predict.Model)
    (e : PredictUltimate.UltimateEnsemble) (f1 f2 : gmap string pyval)
    (s : Z) (l : string) (p : num) (r : PredictUltimate.PredictionResult) :
  Predict.predict_rug_score (Some m) f1 = Ok (s, l, p) ->
  PredictUltimate.predict e f2 = Ok r ->
  PredictUltimate.rug_probability r = p ->
  PredictUltimate.score r = s
  /\ PredictUltimate.level r = (if 95 <=? s then "EXTREME LOW" else l).
Proof.
  intros H1 H2 Hp. apply predict_rug_score_inv in H1 as [H1 ->].
  apply predict_inv in H2 as [H2 ->]. rewrite Hp, H1 in H2.
  apply Ok_inj in H2. rewrite <- H2.
  split; [reflexivity |]. unfold level5, level4. rewrite !Z.geb_leb.
  now destruct (95 <=? s).
Qed.

Lemma engines_agree_on_score_witness :
  let e :=
    {| PredictUltimate.models_loaded :=
         <["simple" := true]>
           (<["gnn" := false]>
              (<["tabnet" := false]> (<["stacking" := false]> ∅)));
       PredictUltimate.fold_models := None;
       PredictUltimate.meta_learner := None;
       PredictUltimate.tabnet := None;
       PredictUltimate.simple_model := Some (Sample.constant_model 0.004) |} in
  let r :=
    {| PredictUltimate.score := 99;
       PredictUltimate.level := "EXTREME LOW";
       PredictUltimate.rug_probability := fin 0.004;
       PredictUltimate.confidence := 1;
       PredictUltimate.model_used := "XGBoost (F1: 0.95+)";
       PredictUltimate.risk_factors := [] |} in
  PredictUltimate.ensemble (Sample.simple_disk 0.004) = Some e
  /\ PredictUltimate.predict (fmt := binary64) e Sample.clean = Ok r
  /\ PredictUltimate.score r = 99
  /\ PredictUltimate.level r = "EXTREME LOW".
Proof.
  intros e r. split; [vm_compute; reflexivity |].
  assert (Hr : PredictUltimate.predict (fmt := binary64) e Sample.clean
               = Ok r)
    by (vm_compute; reflexivity).
  split; [exact Hr |].
  apply (engines_agree_on_score (fmt := binary64)
           (Sample.constant_model 0.004) e
           Sample.clean Sample.clean 99 "LOW" (fin 0.004) r);
    [vm_compute; reflexivity | exact Hr | reflexivity].
Defined.
(** * The engines, from the model's probability to the result *)


(** * Defaults of a missing field *)

Lemma get_insert_other (f : gmap string pyval) (k k' : string)
    (v d : pyval) :
  k <> k' -> get (<[k := v]> f) k' d = get f k' d.
Proof. intros H. unfold get. now rewrite lookup_insert_ne. Qed.

Lemma get_insert_default (f : gmap string pyval) (k : string) (v : pyval) :
  f !! k = None -> get (<[k := v]> f) k v = get f k v.
Proof. intros H. unfold get. now rewrite lookup_insert_eq, H. Qed.

(** X16: a token without the [liquidity] field is served as if its
    liquidity were 1 in the feature transform, and as if it were 0 in
    the confidence, which is lowered by the factor 0.8. *)
Theorem missing_liquidity_defaults (f : gmap string pyval) (p : num) :
  f !! "liquidity" = None ->
  serving_transform f = serving_transform (<["liquidity" := VInt 1]> f)
  /\ PredictUltimate._calculate_confidence f p
     = PredictUltimate._calculate_confidence (<["liquidity" := VInt 0]> f) p
  /\ py_eq (get f "liquidity" (VInt 0)) 0%Z = true.
Proof.
  intros H. split; [| split].
  - unfold serving_transform.
    rewrite (get_insert_default f "liquidity" (VInt 1) H).
    now rewrite !get_insert_other by discriminate.
  - unfold PredictUltimate._calculate_confidence.
    rewrite (get_insert_default f "liquidity" (VInt 0) H).
    now rewrite !get_insert_other by discriminate.
  - unfold get. now rewrite H.
Qed.

Lemma missing_liquidity_defaults_witness :
  let f := delete "liquidity" Sample.clean in
  f !! "liquidity" = None
  /\ PredictUltimate._calculate_confidence f (fin 0.5) = Ok (Qred 0.8)
  /\ serving_transform f = serving_transform (<["liquidity" := VInt 1]> f).
Proof.
  intros f.
  assert (H : f !! "liquidity" = None) by (vm_compute; reflexivity).
  split; [exact H |]. split; [vm_compute; reflexivity |].
  exact (proj1 (missing_liquidity_defaults f (fin 0.5) H)).
Defined.
(** ** The epoch loop of the network trainer *)

Section EarlyStopping.

Context {state : Type}.
Variable train_pass : state -> state.
Variable val_f1 : state -> Q.
Variable scheduler_step : state -> state.

Local Abbreviation epoch := (Extra.epoch train_pass scheduler_step).
Local Abbreviation seen := (Extra.seen train_pass val_f1 scheduler_step).
Local Abbreviation epochs_from :=
  (TrainSwiGLU.epochs_from train_pass val_f1 scheduler_step).

Lemma seen_succ (m : state) (i : nat) : seen m (S i) = seen (epoch m) i.
Proof. unfold Extra.seen. now rewrite Nat.iter_succ_r. Qed.

(** The loop from any counter below the patience. *)
Lemma epochs_from_spec (n : nat) :
  forall (m : state) (b : Q) (c : nat),
    (c < TrainSwiGLU.patience)%nat ->
    exists (k : nat) (b' : Q),
      epochs_from n m b c = (Nat.iter k epoch m, b')
      /\ (k <= n)%nat
      /\ (forall i, (i < k)%nat -> (seen m i <= b')%Q)
      /\ (b <= b')%Q
      /\ ((b' = b /\ ((k < n)%nat -> (k + c)%nat = TrainSwiGLU.patience))
          \/ exists i, (i < k)%nat /\ b' = seen m i /\ (b < seen m i)%Q
                       /\ ((k < n)%nat
                           -> k = (i + 1 + TrainSwiGLU.patience)%nat)).
Proof.
  unfold TrainSwiGLU.patience.
  induction n as [| n IH]; intros m b c Hc.
  - exists 0%nat, b. cbn. repeat split; try lia; try apply Qle_refl.
    left. split; [reflexivity | lia].
  - cbn [TrainSwiGLU.epochs_from]. cbv zeta.
    change (scheduler_step (train_pass m)) with (epoch m).
    change (val_f1 (train_pass m)) with (seen m 0).
    destruct (Qle_bool (seen m 0) b) eqn:Hle; cbn [negb].
    + apply Qle_bool_iff in Hle.
      unfold TrainSwiGLU.patience.
      destruct (15 <=? S c)%nat eqn:Hp.
      * apply Nat.leb_le in Hp. exists 1%nat, b. cbn [Nat.iter].
        split; [reflexivity |]. split; [lia |].
        split; [intros i Hi; now replace i with 0%nat by lia |].
        split; [apply Qle_refl |]. left. split; [reflexivity | lia].
      * apply Nat.leb_gt in Hp.
        destruct (IH (epoch m) b (S c) Hp)
          as (k & b' & -> & Hk & Hseen & Hb & Hd).
        exists (S k), b'. rewrite Nat.iter_succ_r.
        split; [reflexivity |]. split; [lia |]. split.
        { intros [| i] Hi; [now apply Qle_trans with b |].
          rewrite seen_succ. apply Hseen. lia. }
        split; [exact Hb |].
        destruct Hd as [[-> Hstop] | (i & Hi & -> & Hgt & Hstop)].
        -- left. split; [reflexivity | lia].
        -- right. exists (S i). rewrite seen_succ.
           repeat split; [lia | exact Hgt | lia].
    + assert (Hgt : (b < seen m 0)%Q).
      { apply Qnot_le_lt. intros H. apply Qle_bool_iff in H. congruence. }
      destruct (IH (epoch m) (seen m 0) 0%nat ltac:(lia))
        as (k & b' & -> & Hk & Hseen & Hb & Hd).
      exists (S k), b'. rewrite Nat.iter_succ_r.
      split; [reflexivity |]. split; [lia |]. split.
      { intros [| i] Hi; [exact Hb |].
        rewrite seen_succ. apply Hseen. lia. }
      split; [apply Qlt_le_weak; now apply Qlt_le_trans with (seen m 0) |].
      right.
      destruct Hd as [[-> Hstop] | (i & Hi & -> & Hgt' & Hstop)].
      * exists 0%nat. repeat split; [lia | exact Hgt | lia].
      * exists (S i). rewrite seen_succ.
        repeat split; [lia | now apply Qlt_trans with (seen m 0) | lia].
Qed.

(** X15: [train_swiglu_net] runs [k <= epochs] epochs and returns the
    weights after the last of them together with the largest validation
    F1 seen, which bounds every F1 seen; the loop ends before [epochs]
    only when the fifteen epochs after the last improvement brought
    none. *)
Theorem train_swiglu_net_early_stopping (init : state) (epochs : nat) :
  exists (k : nat) (best : Q),
    TrainSwiGLU.train_swiglu_net train_pass val_f1 scheduler_step init epochs
    = (Nat.iter k epoch init, best)
    /\ (k <= epochs)%nat
    /\ (forall i, (i < k)%nat -> (seen init i <= best)%Q)
    /\ ((best = 0%Q /\ ((k < epochs)%nat -> k = 15%nat))
        \/ exists i, (i < k)%nat /\ best = seen init i /\ (0 < best)%Q
                     /\ ((k < epochs)%nat -> k = (i + 16)%nat)).
Proof.
  unfold TrainSwiGLU.train_swiglu_net.
  destruct (epochs_from_spec epochs init 0%Q 0%nat)
    as (k & b' & H & Hk & Hseen & Hb & Hd);
    [unfold TrainSwiGLU.patience; lia |].
  exists k, b'. split; [exact H |]. split; [exact Hk |].
  split; [exact Hseen |]. unfold TrainSwiGLU.patience in Hd.
  destruct Hd as [[-> Hstop] | (i & Hi & -> & Hgt & Hstop)].
  - left. split; [reflexivity | lia].
  - right. exists i. repeat split; [lia | exact Hgt | lia].
Qed.

End EarlyStopping.

(** A run whose F1 peaks in the third epoch ends after eighteen epochs
    with the weights of the eighteenth, not those of the third. *)
Lemma peak_run_returns_last_weights :
  TrainSwiGLU.train_swiglu_net Peak.train_pass Peak.val_f1
    Peak.scheduler_step 0%nat 100
  = (18%nat, 0.9%Q).
Proof. vm_compute. reflexivity. Qed.
(** * The stacking loop on any folds *)

Section StackingRange.

Context {fitted combiner : Type}.
Variable fit : string -> list row -> list Z -> fitted.
Variable proba : fitted -> row -> num.
Variable train_swiglu_net : list row -> list Z -> list row -> list Z -> fitted.
Variable fit_meta : list (list num) -> list Z -> combiner.
Variable X : list row.
Variable y : list Z.
Hypothesis Hlen : length y = length X.

(** X14: on folds within range, whether or not they partition the rows,
    the meta-feature matrix has one row of four cells per data row, a
    row that no fold holds out keeps its four zeros, and every learner's
    persisted list has one entry per fold. *)
Theorem stacking_matrix_shape (splits : list (list nat * list nat)) :
  Forall (Folds.in_range X) splits ->
  exists art,
    stacking fit proba train_swiglu_net fit_meta X y splits = Ok art
    /\ length (final_meta_features art) = length X
    /\ Forall (fun r => length r = 4%nat) (final_meta_features art)
    /\ (forall i, (i < length X)%nat -> i ∉ mjoin splits.*2 ->
          final_meta_features art !! i = Some (replicate 4 (of_Z 0)))
    /\ (forall name, name ∈ ["xgb"; "lgb"; "cat"; "nn"] ->
          exists ms, fold_models_pkl art !! name = Some ms
                     /\ length ms = length splits).
Proof.
  intros Hr.
  destruct (stacking_ok fit proba train_swiglu_net fit_meta X y Hlen
              splits Hr) as (art & E & HM & _ & _ & HT & HN).
  exists art. split; [exact E |].
  assert (Hs : Folds.well_shaped X (final_meta_features art)).
  { rewrite HM. apply foldl_after_fold_shaped.
    split; [apply length_replicate | apply Forall_replicate; reflexivity]. }
  split; [exact (proj1 Hs) |]. split; [exact (proj2 Hs) |]. split.
  - intros i Hi Hout. rewrite HM, foldl_after_fold_other by exact Hout.
    now apply lookup_replicate_2.
  - intros name Hin.
    repeat (apply elem_of_cons in Hin as [-> | Hin]).
    + eexists. split; [apply (HT "xgb" 0%nat); unfold Folds.trees;
                        rewrite !elem_of_cons; tauto |].
      apply length_replicate.
    + eexists. split; [apply (HT "lgb" 1%nat); unfold Folds.trees;
                        rewrite !elem_of_cons; tauto |].
      apply length_replicate.
    + eexists. split; [apply (HT "cat" 2%nat); unfold Folds.trees;
                        rewrite !elem_of_cons; tauto |].
      apply length_replicate.
    + eexists. split; [exact HN |]. apply length_fmap.
    + now apply elem_of_nil in Hin.
Qed.

End StackingRange.

(** One fold that holds out rows 2 and 7 of the ten tokens: the other
    eight rows of the matrix stay zero. *)
Lemma stacking_matrix_shape_witness :
  let splits := [([0; 1; 3; 4; 5; 6; 8; 9], [2; 7])]%nat in
  length Toy.y = length Toy.X
  /\ Forall (Folds.in_range Toy.X) splits
  /\ exists art,
       stacking Toy.fit Toy.proba Toy.train_swiglu_net Toy.fit_meta
         Toy.X Toy.y splits = Ok art
       /\ length (final_meta_features art) = length Toy.X
       /\ final_meta_features art !! 3%nat = Some (replicate 4 (of_Z 0)).
Proof.
  intros splits.
  assert (Hlen : length Toy.y = length Toy.X) by reflexivity.
  assert (Hr : Forall (Folds.in_range Toy.X) splits).
  { apply (bool_decide_unpack _). vm_compute. exact I. }
  split; [exact Hlen |]. split; [exact Hr |].
  destruct (stacking_matrix_shape Toy.fit Toy.proba Toy.train_swiglu_net
              Toy.fit_meta Toy.X Toy.y Hlen splits Hr)
    as (art & E & HL & _ & Hz & _).
  exists art. split; [exact E |]. split; [exact HL |].
  apply Hz; [vm_compute; lia |].
  cbn. rewrite !elem_of_cons, elem_of_nil. lia.
Defined.
(** * The public entry points *)

(** X17: the simple entry point of the ensemble engine returns the
    score, level and probability of the full one, with or without a
    loaded ensemble, and fails when it fails. *)
Theorem entry_points_agree {fmt : format} (d : PredictUltimate.disk)
    (f : gmap string pyval) :
  PredictUltimate.predict_rug_score d f
  = (r ← PredictUltimate.predict_full d f;
     Ok (PredictUltimate.score r, PredictUltimate.level r,
         PredictUltimate.rug_probability r)).
Proof.
  unfold PredictUltimate.predict_rug_score, PredictUltimate.predict_full.
  now destruct (PredictUltimate.ensemble d).
Qed.

(** X18: a well-typed token for which the basic engine lists no risk
    factor is scored 100 or 90 by the fallback scorer, hence LOW. *)
Theorem no_risk_factor_scores_low (f : gmap string pyval) (p : num) :
  Spec.well_typed f = true ->
  Predict.get_risk_factors f p = Ok [] ->
  exists s q,
    Predict.fallback_scoring f = Ok (s, "LOW", q) /\ (s = 100 \/ s = 90).
Proof.
  intros Hwt H.
  assert (Hs : is_ok (to_float (Spec.metric f "total_supply" 1)) = true).
  { unfold Predict.get_risk_factors in H. do 10 inv_bind H.
    match goal with
    | E : py_mul _ _ = Ok _ |- _ =>
        apply (py_mul_Ok_sized f Hwt) in E; [exact E | in_fields]
    end. }
  rewrite (fallback_scoring_sized f Hwt Hs).
  unfold Predict.get_risk_factors in H.
  rewrite !(py_gt_metric f Hwt) in H by in_fields.
  rewrite (py_mul_sized f Hwt) in H by (in_fields || exact Hs).
  cbn [mbind result_bind] in H.
  rewrite (py_lt_metric f Hwt) in H by in_fields.
  cbn [mbind result_bind] in H.
  unfold Spec.fallback_score, Spec.deductions, Spec.high_tax, Spec.clamp,
    Spec.not_revoked, Spec.flag.
  destruct (negb (is_None (get f "mint_authority" VNone)));
    destruct (negb (is_None (get f "freeze_authority" VNone)));
    destruct (truthy (get f "honeypot" (VBool false)));
    destruct (ngt (Spec.metric f "buy_tax" 0) 5%Z);
    destruct (ngt (Spec.metric f "sell_tax" 0) 5%Z);
    destruct (ngt (Spec.metric f "top10_pct" 0) 50%Z);
    destruct (ngt (Spec.metric f "jito_bundle_clusters" 0) 3%Z);
    destruct (nlt (Spec.metric f "lp_burned" 0) _);
    cbn [mbind result_bind] in H;
    repeat match type of H with
           | context [getitem ?g ?k] =>
               destruct (getitem g k); cbn [mbind result_bind] in H
           | context [fix1 ?v] =>
               destruct (fix1 v); cbn [mbind result_bind] in H
           end;
    try discriminate H; clear H;
    destruct (Spec.low_burn f 0.9); do 2 eexists;
    (split; [reflexivity |]); [right | left]; reflexivity.
Qed.

Lemma no_risk_factor_scores_low_witness :
  Spec.well_typed Sample.clean = true
  /\ Predict.get_risk_factors Sample.clean (fin 0) = Ok []
  /\ exists s q,
       Predict.fallback_scoring Sample.clean = Ok (s, "LOW", q)
       /\ (s = 100 \/ s = 90).
Proof.
  assert (H : Predict.get_risk_factors Sample.clean (fin 0) = Ok [])
    by (vm_compute; reflexivity).
  split; [reflexivity |]. split; [exact H |].
  exact (no_risk_factor_scores_low Sample.clean (fin 0) eq_refl H).
Defined.
